(** * NekoNi2 (src/app.py): a shallow embedding of the bot and its handlers

    The bot is a flat set of coroutine handlers registered on a
    [discord.ext.commands.Bot].  Every handler is embedded as a program
    over the requests it makes to its collaborators (the discord.py
    client, [random], [logging], [datetime]); a request may come back
    with a value or with a Python exception.  What the handlers compute
    themselves (range guards, f-strings, [textwrap.dedent], [int(...)])
    is embedded as plain functions. *)

From Stdlib Require Import ZArith List String Ascii Bool Lia.
From Stdlib Require Import DecimalString DecimalZ DecimalPos FinFun.
From stdpp Require Import gmap strings.
Import ListNotations.

Open Scope string_scope.
Open Scope Z_scope.

(** ** Python builtins used by app.py *)

Module Py.

(** The line feed, ["\n"]. *)
Definition nl : string := String "010"%char EmptyString.

(** [str(n)] for an [int]: decimal digits, a leading [-] when negative. *)
Definition str_of_Z (n : Z) : string := NilZero.string_of_int (Z.to_int n).

(** [str(b)] for a [bool]. *)
Definition str_of_bool (b : bool) : string := if b then "True" else "False".

(** Truthiness of a [str]: the empty string is falsy. *)
Definition truthy (s : string) : bool :=
  match s with EmptyString => false | String _ _ => true end.

(** [len(xs)] as a Python [int]. *)
Definition len {A} (xs : list A) : Z := Z.of_nat (length xs).

(** *** White space

    [str.isspace] on an ASCII character, and the narrower [isspace] of C
    that [int] skips. *)

Definition is_space (c : ascii) : bool :=
  let n := N.to_nat (N_of_ascii c) in
  ((9 <=? n)%nat && (n <=? 13)%nat) || ((28 <=? n)%nat && (n <=? 32)%nat).

Definition is_c_space (c : ascii) : bool :=
  let n := N.to_nat (N_of_ascii c) in
  ((9 <=? n)%nat && (n <=? 13)%nat) || (n =? 32)%nat.

Fixpoint lstrip_by (space : ascii -> bool) (s : string) : string :=
  match s with
  | String c r => if space c then lstrip_by space r else s
  | EmptyString => EmptyString
  end.

Fixpoint rev_onto (s acc : string) : string :=
  match s with
  | String c r => rev_onto r (String c acc)
  | EmptyString => acc
  end.

Definition reverse (s : string) : string := rev_onto s EmptyString.

Definition strip_by (space : ascii -> bool) (s : string) : string :=
  reverse (lstrip_by space (reverse (lstrip_by space s))).

(** [s.lstrip()] and [s.strip()]. *)
Definition lstrip (s : string) : string := lstrip_by is_space s.
Definition strip (s : string) : string := strip_by is_space s.

(** *** [int(s)] on a [str]

    Strings are byte strings here; on ASCII input this follows CPython's
    [PyLong_FromString] in base 10: surrounding white space is dropped,
    one sign is allowed, digits may be separated by single underscores.
    [None] stands for [ValueError].  (CPython also accepts non-ASCII
    decimal digits and spaces and, from 3.11, refuses more than 4300
    digits; neither is modelled.) *)

Definition digit_val (c : ascii) : option Z :=
  let n := Z.of_N (N_of_ascii c) in
  if (48 <=? n) && (n <=? 57) then Some (n - 48) else None.

Inductive scan_state := AtStart | AfterDigit | AfterUnderscore.

Fixpoint int_digits (s : string) (acc : Z) (prev : scan_state) : option Z :=
  match s with
  | EmptyString => match prev with AfterDigit => Some acc | _ => None end
  | String c r =>
      match digit_val c with
      | Some d => int_digits r (10 * acc + d) AfterDigit
      | None =>
          if Ascii.eqb c "_"
          then match prev with
               | AfterDigit => int_digits r acc AfterUnderscore
               | _ => None
               end
          else None
      end
  end.

Definition int (s : string) : option Z :=
  match strip_by is_c_space s with
  | String "-" r => option_map Z.opp (int_digits r 0 AtStart)
  | String "+" r => int_digits r 0 AtStart
  | t => int_digits t 0 AtStart
  end.

(** *** [str.split("\n")], ["\n".join], [in] on strings *)

Definition is_nl (c : ascii) : bool := Ascii.eqb c "010".

Fixpoint split_lines (s : string) : list string :=
  match s with
  | EmptyString => [EmptyString]
  | String c r =>
      if is_nl c then EmptyString :: split_lines r
      else match split_lines r with
           | l :: ls => String c l :: ls
           | [] => [String c EmptyString]
           end
  end.

Fixpoint join_lines (ls : list string) : string :=
  match ls with
  | [] => EmptyString
  | l :: rest =>
      match rest with
      | [] => l
      | _ :: _ => l ++ nl ++ join_lines rest
      end
  end.

Fixpoint startswith (s pre : string) : bool :=
  match pre, s with
  | EmptyString, _ => true
  | String a pre', String b s' => Ascii.eqb a b && startswith s' pre'
  | String _ _, EmptyString => false
  end.

(** [sub in s]. *)
Fixpoint contains (s sub : string) : bool :=
  startswith s sub ||
  match s with
  | EmptyString => false
  | String _ r => contains r sub
  end.

Fixpoint drop (n : nat) (s : string) : string :=
  match n, s with
  | O, _ => s
  | S n', String _ r => drop n' r
  | S _, EmptyString => EmptyString
  end.

(** No character of [s] is a line feed. *)
Fixpoint no_line_feed (s : string) : bool :=
  match s with
  | EmptyString => true
  | String c r => negb (is_nl c) && no_line_feed r
  end.

(** [sub] occurs in [s]: the meaning of [contains]. *)
Definition substring (sub s : string) : Prop := exists a b, s = a ++ sub ++ b.

(** The lines [ls], each closed by a line feed, in front of [rest]. *)
Definition unlines_onto (ls : list string) (rest : string) : string :=
  fold_right (fun l acc => l ++ nl ++ acc) rest ls.

(** *** [textwrap.dedent]

    The regular-expression implementation of CPython up to 3.13, read
    line by line (no line holds a line feed, so [^] and [$] under
    [re.MULTILINE] are the line boundaries):
    - [_whitespace_only_re.sub('', text)] empties every line made of
      blanks and tabs only;
    - [_leading_whitespace_re.findall(text)] lists the leading blanks of
      every line that holds something else;
    - the loop keeps the longest common leading run as [margin];
    - [re.sub(r'(?m)^' + margin, '', text)] removes it where a line
      starts with it, when [margin] is not empty. *)

Definition is_blank (c : ascii) : bool := Ascii.eqb c " " || Ascii.eqb c "009".

Fixpoint all_blank (l : string) : bool :=
  match l with
  | EmptyString => true
  | String c r => is_blank c && all_blank r
  end.

Definition whitespace_only (l : string) : bool := truthy l && all_blank l.

Definition blank_out (l : string) : string :=
  if whitespace_only l then EmptyString else l.

Fixpoint leading_whitespace (l : string) : string :=
  match l with
  | String c r => if is_blank c then String c (leading_whitespace r) else EmptyString
  | EmptyString => EmptyString
  end.

Definition indents (lines : list string) : list string :=
  map leading_whitespace (List.filter (fun l => negb (all_blank l)) lines).

(** [for i, (x, y) in enumerate(zip(margin, indent)): if x != y:
    margin = margin[:i]; break]. *)
Fixpoint cut_at_mismatch (margin indent : string) : string :=
  match margin, indent with
  | String x m, String y i =>
      if Ascii.eqb x y then String x (cut_at_mismatch m i) else EmptyString
  | _, _ => margin
  end.

Definition update_margin (margin : option string) (indent : string) : option string :=
  match margin with
  | None => Some indent
  | Some m =>
      if startswith indent m then Some m
      else if startswith m indent then Some indent
      else Some (cut_at_mismatch m indent)
  end.

Definition find_margin (lines : list string) : option string :=
  fold_left update_margin (indents lines) None.

Definition remove_margin (margin l : string) : string :=
  if startswith l margin then drop (String.length margin) l else l.

Definition dedent (text : string) : string :=
  let lines := map blank_out (split_lines text) in
  match find_margin lines with
  | Some margin =>
      if truthy margin then join_lines (map (remove_margin margin) lines)
      else join_lines lines
  | None => join_lines lines
  end.

(** The margin [dedent] removes; none is the empty one. *)
Definition margin_of (lines : list string) : string :=
  match find_margin lines with
  | Some margin => margin
  | None => EmptyString
  end.

(** *** [datetime] and [strftime("%Y-%m-%d %H:%M:%S UTC")]

    A [datetime] with its microseconds and its zone: [utcoffset] is
    [dt.utcoffset()] in minutes, [None] for a naive one.  The format of
    [format_timedelta] prints neither; its [UTC] is a literal.  Years are
    taken in 1000..9999, where [%Y] is four digits on every platform. *)

Record datetime := {
  year : Z; month : Z; day : Z; hour : Z; minute : Z; second : Z;
  microsecond : Z; utcoffset : option Z
}.

Definition pad2 (n : Z) : string :=
  if n <? 10 then "0" ++ str_of_Z n else str_of_Z n.

Definition strftime_utc (dt : datetime) : string :=
  str_of_Z (year dt) ++ "-" ++ pad2 (month dt) ++ "-" ++ pad2 (day dt) ++ " " ++
  pad2 (hour dt) ++ ":" ++ pad2 (minute dt) ++ ":" ++ pad2 (second dt) ++ " UTC".

(** *** Exceptions

    The classes that reach the bot, each with its base class: builtins,
    [asyncio.CancelledError], [discord.errors] and
    [discord.ext.commands.errors]. *)

Inductive PyClass :=
| BaseException | Exception | CancelledError
| ValueError | ArithmeticError | OverflowError | AttributeError
| LookupError | IndexError
| DiscordException | HTTPException | Forbidden | NotFound
| CommandError | UserInputError | MissingRequiredArgument | TooManyArguments
| BadArgument | MemberNotFound | RoleNotFound
| ArgumentParsingError | UnexpectedQuoteError | InvalidEndOfQuotedStringError
| ExpectedClosingQuoteError
| CommandNotFound | CheckFailure | MissingPermissions | BotMissingPermissions
| NoPrivateMessage | CommandInvokeError | CommandOnCooldown.

#[export] Instance PyClass_eq_dec : EqDecision PyClass.
Proof. solve_decision. Defined.

Definition base (c : PyClass) : option PyClass :=
  match c with
  | BaseException => None
  | Exception | CancelledError => Some BaseException
  | ValueError | ArithmeticError | AttributeError | LookupError
  | DiscordException => Some Exception
  | IndexError => Some LookupError
  | OverflowError => Some ArithmeticError
  | HTTPException | CommandError => Some DiscordException
  | Forbidden | NotFound => Some HTTPException
  | UserInputError | CommandNotFound | CheckFailure
  | CommandInvokeError | CommandOnCooldown => Some CommandError
  | MissingRequiredArgument | TooManyArguments | BadArgument
  | ArgumentParsingError => Some UserInputError
  | UnexpectedQuoteError | InvalidEndOfQuotedStringError
  | ExpectedClosingQuoteError => Some ArgumentParsingError
  | MemberNotFound | RoleNotFound => Some BadArgument
  | MissingPermissions | BotMissingPermissions | NoPrivateMessage => Some CheckFailure
  end.

(** [issubclass(c, d)], walking up the bases (the hierarchy is six deep). *)
Fixpoint issubclass_upto (fuel : nat) (c d : PyClass) : bool :=
  if bool_decide (c = d) then true
  else match fuel, base c with
       | S fuel', Some b => issubclass_upto fuel' b d
       | _, _ => false
       end.

Definition issubclass (c d : PyClass) : bool := issubclass_upto 8 c d.

(** An exception object: its class, [error.param.name] (read for a
    [MissingRequiredArgument] only) and [error.original] (read for a
    [CommandInvokeError] only). *)
#[warnings="-register-all"] Inductive Error :=
| Exc (cls : PyClass) (param_name : string) (original : option Error).

Definition class_of (e : Error) : PyClass := let 'Exc c _ _ := e in c.
Definition param_name_of (e : Error) : string := let 'Exc _ n _ := e in n.
Definition original_of (e : Error) : option Error := let 'Exc _ _ o := e in o.

Definition isinstance (e : Error) (c : PyClass) : bool := issubclass (class_of e) c.

(** [raise C(...)] for a class with no attribute the bot reads. *)
Definition exc (c : PyClass) : Error := Exc c EmptyString None.
Definition missing_required_argument (param : string) : Error :=
  Exc MissingRequiredArgument param None.
Definition command_invoke_error (original : Error) : Error :=
  Exc CommandInvokeError EmptyString (Some original).

(** *** Floats

    Floating-point arithmetic is not modelled: a finite float is given
    by the integer that [round(f * 1000)] yields; [inf] and [nan] make
    [round] raise. *)
Inductive float := Finite (round_ms : Z) | Infinity | NaN.

Definition round_times_1000 (f : float) : Error + Z :=
  match f with
  | Finite z => inr z
  | Infinity => inl (exc OverflowError)
  | NaN => inl (exc ValueError)
  end.

(** *** [random.randint]

    [random.randint(a, b)] draws uniformly from [a, a+1, ..., b]: these are
    its equally likely results, each listed once. *)
Definition randint_outcomes (a b : Z) : list Z :=
  map (fun i => a + Z.of_nat i) (seq 0 (Z.to_nat (b - a + 1))).

End Py.

(** ** The discord.py objects and requests the handlers use *)

Module Discord.
Import Py.

Record Role := { role_id : Z; role_name : string }.

(** [role.mention]. *)
Definition role_mention (r : Role) : string := "<@&" ++ str_of_Z (role_id r) ++ ">".

(** A [discord.User]; [user_str] is [str(user)], [user_avatar] is
    [user.display_avatar.url]. *)
Record User := {
  user_id : Z;
  user_str : string;
  user_bot : bool;
  user_avatar : string;
  user_created_at : datetime
}.

(** What [channel.permissions_for(guild.me).send_messages] evaluates to is
    kept with the channel as [bot_can_send]. *)
Record TextChannel := { channel_id : Z; channel_name : string; bot_can_send : bool }.

Record VoiceChannel := { voice_id : Z; voice_name : string }.

(** A guild; [guild_owner_str] is [str(g.owner)]. *)
Record Guild := {
  guild_id : Z;
  guild_name : string;
  guild_description : option string;
  guild_icon_url : option string;
  guild_owner_str : string;
  guild_member_count : Z;
  text_channels : list TextChannel;
  voice_channels : list VoiceChannel;
  guild_roles : list Role;
  guild_created_at : datetime
}.

(** A [discord.Member]; [member_str] is [str(member)], [member_avatar] is
    [member.display_avatar.url]. *)
Record Member := {
  member_id : Z;
  member_str : string;
  member_bot : bool;
  member_avatar : string;
  member_top_role : option Role;
  member_joined_at : option datetime;
  member_created_at : datetime;
  member_guild : Guild
}.

(** [member.mention]. *)
Definition member_mention (m : Member) : string := "<@" ++ str_of_Z (member_id m) ++ ">".

(** [ctx.author], and what [member or ctx.author] evaluates to: a
    [discord.Member] where the message was sent in a guild, a plain
    [discord.User] in a direct message. *)
Inductive Author := a_member (m : Member) | a_user (u : User).

(** The attributes both classes have. *)
Definition author_str (a : Author) : string :=
  match a with a_member m => member_str m | a_user u => user_str u end.

Definition author_avatar (a : Author) : string :=
  match a with a_member m => member_avatar m | a_user u => user_avatar u end.

Definition author_id (a : Author) : Z :=
  match a with a_member m => member_id m | a_user u => user_id u end.

Definition author_bot (a : Author) : bool :=
  match a with a_member m => member_bot m | a_user u => user_bot u end.

Definition author_created_at (a : Author) : datetime :=
  match a with a_member m => member_created_at m | a_user u => user_created_at u end.

(** [top_role] and [joined_at] are attributes of [discord.Member] only:
    reading them on a [discord.User] raises [AttributeError]. *)
Definition author_top_role (a : Author) : Error + option Role :=
  match a with
  | a_member m => inr (member_top_role m)
  | a_user _ => inl (exc AttributeError)
  end.

Definition author_joined_at (a : Author) : Error + option datetime :=
  match a with
  | a_member m => inr (member_joined_at m)
  | a_user _ => inl (exc AttributeError)
  end.

Record Message := { message_id : Z; message_content : string }.

Inductive Permission := manage_messages | kick_members | ban_members | manage_roles.

#[export] Instance Permission_eq_dec : EqDecision Permission.
Proof. solve_decision. Defined.

Record EmbedField := { field_name : string; field_value : string; field_inline : bool }.

(** A [discord.Embed] as the handler builds it; [embed_timestamp] is the
    [timestamp=] argument as it is passed. *)
Record Embed := {
  embed_title : string;
  embed_description : string;
  embed_timestamp : option datetime;
  embed_image : option string;
  embed_thumbnail : option string;
  embed_fields : list EmbedField
}.

Definition new_embed (title description : string) (timestamp : option datetime) : Embed :=
  {| embed_title := title; embed_description := description;
     embed_timestamp := timestamp; embed_image := None;
     embed_thumbnail := None; embed_fields := [] |}.

Definition set_image (url : string) (e : Embed) : Embed :=
  {| embed_title := embed_title e; embed_description := embed_description e;
     embed_timestamp := embed_timestamp e; embed_image := Some url;
     embed_thumbnail := embed_thumbnail e; embed_fields := embed_fields e |}.

Definition set_thumbnail (url : string) (e : Embed) : Embed :=
  {| embed_title := embed_title e; embed_description := embed_description e;
     embed_timestamp := embed_timestamp e; embed_image := embed_image e;
     embed_thumbnail := Some url; embed_fields := embed_fields e |}.

Definition add_field (name value : string) (inline : bool) (e : Embed) : Embed :=
  {| embed_title := embed_title e; embed_description := embed_description e;
     embed_timestamp := embed_timestamp e; embed_image := embed_image e;
     embed_thumbnail := embed_thumbnail e;
     embed_fields := (embed_fields e ++ [ {| field_name := name; field_value := value;
                                             field_inline := inline |} ])%list |}.

(** What a message is sent with: [content] or [embed=]. *)
Inductive Payload := Text (content : string) | Rich (embed : Embed).

(** The invocation context; [ctx_permissions] are the caller's
    permissions in the channel, [find_member] and [find_role] stand for
    the lookups of the [discord.Member] and [discord.Role] converters.
    [ctx_guild] is [None] for a direct message.  [ctx_channel] is read by
    clear alone, which is behind a permission that only a guild channel
    grants, so it is kept as a text channel. *)
Record Context := {
  ctx_author : Author;
  ctx_guild : option Guild;
  ctx_channel : TextChannel;
  ctx_permissions : list Permission;
  find_member : string -> option Member;
  find_role : string -> option Role
}.

(** The bot object as the handlers read it: [str(bot.user)],
    [bot.user.id], [bot.guilds], [bot.latency]. *)
Record Bot := {
  bot_user : string;
  bot_user_id : Z;
  bot_guilds : list Guild;
  bot_latency : float
}.

(** *** Requests

    One constructor per awaited or effectful call in app.py.
    [logger.exception(msg)] is [logger.error(msg, exc_info=True)]: the
    record gets [sys.exc_info()], the exception being handled where the
    call is made, [None] outside every [except] block. *)
Inductive Call :=
| ctx_reply (payload : Payload) (mention_author : bool)
| ctx_send (content : string)
| channel_send (channel : TextChannel) (content : string) (delete_after : option Z)
| message_delete
| channel_purge (channel : TextChannel) (limit : Z)
| member_kick (member : Member) (reason : string)
| member_ban (member : Member) (reason : string)
| bot_fetch_user (id : Z)
| guild_unban (guild : Guild) (user : User)
| member_add_roles (member : Member) (role : Role)
| member_remove_roles (member : Member) (role : Role)
| bot_change_presence (game_name : string)
| bot_run (token : string)
| random_choice (population : list string)
| random_randint (a b : Z)
| datetime_utcnow
| logger_info (msg : string)
| logger_debug (msg : string)
| logger_error (msg : string)
| logger_exception (msg : string) (exc_info : option Error)
| print (msg : string).

(** What a request evaluates to when it does not raise. *)
Definition Resp (c : Call) : Type :=
  match c with
  | channel_purge _ _ => list Message
  | bot_fetch_user _ => User
  | random_choice _ => string
  | random_randint _ _ => Z
  | datetime_utcnow => datetime
  | _ => unit
  end.

(** Requests that remove messages. *)
Definition is_deletion (c : Call) : bool :=
  match c with
  | message_delete | channel_purge _ _ => true
  | _ => false
  end.

(** Requests that change the guild: the sanctioned mutation calls. *)
Definition is_mutation (c : Call) : bool :=
  match c with
  | message_delete | channel_purge _ _
  | member_kick _ _ | member_ban _ _ | guild_unban _ _
  | member_add_roles _ _ | member_remove_roles _ _ => true
  | _ => false
  end.

(** Requests that send something a user sees. *)
Definition is_user_visible (c : Call) : bool :=
  match c with
  | ctx_reply _ _ | ctx_send _ | channel_send _ _ _ => true
  | _ => false
  end.

(** *** Programs

    A coroutine is a tree: it returns, raises, or makes a request and goes
    on with what came back, a value or an exception. *)
Inductive Prog (A : Type) : Type :=
| Ret (a : A)
| Raise (e : Error)
| Vis (c : Call) (k : Error + Resp c -> Prog A).

Arguments Ret {A} a.
Arguments Raise {A} e.
Arguments Vis {A} c k.

Fixpoint bind {A B} (p : Prog A) (f : A -> Prog B) : Prog B :=
  match p with
  | Ret a => f a
  | Raise e => Raise e
  | Vis c k => Vis c (fun r => bind (k r) f)
  end.

(** [await c]: an exception that comes back is raised here. *)
Definition call (c : Call) : Prog (Resp c) :=
  Vis c (fun r => match r with inl e => Raise e | inr v => Ret v end).

(** [try: p / except: h(e)], catching everything. *)
Fixpoint catch {A} (p : Prog A) (h : Error -> Prog A) : Prog A :=
  match p with
  | Ret a => Ret a
  | Raise e => h e
  | Vis c k => Vis c (fun r => catch (k r) h)
  end.

(** [try: p / except Exception: h]. *)
Definition try_except_Exception {A} (p : Prog A) (h : Prog A) : Prog A :=
  catch p (fun e => if isinstance e Exception then h else Raise e).

(** An expression that may raise. *)
Definition lift {A} (r : Error + A) : Prog A :=
  match r with inl e => Raise e | inr a => Ret a end.

Declare Scope prog_scope.
Delimit Scope prog_scope with prog.
Bind Scope prog_scope with Prog.

Notation "x <- p ;; q" := (bind p (fun x => q))
  (at level 100, p at next level, right associativity) : prog_scope.
Notation "p ;; q" := (bind p (fun _ => q))
  (at level 100, right associativity) : prog_scope.

(** *** Running a program against a platform

    A world answers every request from its state.  [exec] records the
    requests made, in order, and how the program ended. *)
Record World := {
  state : Type;
  respond : forall c : Call, state -> (Error + Resp c) * state
}.

Inductive Outcome (A : Type) := Returned (a : A) | Raised (e : Error).
Arguments Returned {A} a.
Arguments Raised {A} e.

Record Run (A S : Type) := { requests : list Call; outcome : Outcome A; final : S }.
Arguments requests {A S} r.
Arguments outcome {A S} r.
Arguments final {A S} r.

Fixpoint exec {A} (W : World) (p : Prog A) (s : state W) : Run A (state W) :=
  match p with
  | Ret a => {| requests := []; outcome := Returned a; final := s |}
  | Raise e => {| requests := []; outcome := Raised e; final := s |}
  | Vis c k =>
      let '(r, s') := respond W c s in
      let run := exec W (k r) s' in
      {| requests := c :: requests run; outcome := outcome run; final := final run |}
  end.

(** A property of every request a program can make, whatever comes back. *)
Fixpoint every_call {A} (P : Call -> Prop) (p : Prog A) : Prop :=
  match p with
  | Ret _ | Raise _ => True
  | Vis c k => P c /\ forall r, every_call P (k r)
  end.

(** A world whose [random.randint] keeps the contract of the standard
    library: on a non-empty range it returns one of [randint_outcomes]. *)
Definition honours_randint (W : World) : Prop :=
  forall (a b : Z) (s : state W), a <= b ->
    exists r, fst (respond W (random_randint a b) s) = inr r /\
              In r (randint_outcomes a b).

End Discord.

(** ** The dispatcher of discord.ext.commands, as app.py relies on it

    The dispatcher is the library's, not the repository's.  Its contract is
    written out here as far as the handlers and their decorators depend on
    it: the [has_permissions] check runs first, the declared parameters are
    bound next (a missing required one raises [MissingRequiredArgument], a
    failed conversion [BadArgument]), the callback runs last and what it
    raises is wrapped in [CommandInvokeError]; a [CommandError] ends in
    [on_command_error].  A positional argument is read by
    [StringView.get_quoted_word]. *)

Module Commands.
Import Py Discord.

(** *** [StringView.get_quoted_word]

    A word ends at white space.  A word that opens with a quotation mark
    of [_quotes] runs to the matching closing mark, which white space or
    the end must follow; a backslash escapes a quotation mark; a
    quotation mark inside an unquoted word is an error.  The errors are
    [ArgumentParsingError]s, which are no [BadArgument].

    What is read is the word and what is left of the view.  Text is
    UTF-8 here, so a mark of several bytes is matched as a run of bytes:
    on well-formed text that is the same as matching the character.
    White space is [str.isspace] on ASCII ([is_space]). *)

Definition dquote : string := String "034"%char EmptyString.
Definition backslash : string := String "092"%char EmptyString.

(** [_quotes]: each opening mark with its closing mark. *)
Definition quotes : list (string * string) :=
  [ (dquote, dquote); ("‘", "’"); ("‚", "‛"); ("“", "”"); ("„", "‟");
    ("⹂", "⹂"); ("「", "」"); ("『", "』"); ("〝", "〞"); ("﹁", "﹂");
    ("﹃", "﹄"); ("＂", "＂"); ("｢", "｣"); ("«", "»"); ("‹", "›");
    ("《", "》"); ("〈", "〉") ].

(** [_all_quotes]. *)
Definition all_quotes : list string := (map fst quotes ++ map snd quotes)%list.

(** The mark of [marks] that [s] starts with. *)
Definition mark_at (marks : list string) (s : string) : option string :=
  List.find (fun q => startswith s q) marks.

Definition Word : Type := Error + (string * string).

(** [result.append(...)]. *)
Definition push (taken : string) (w : Word) : Word :=
  match w with
  | inl e => inl e
  | inr (word, rest) => inr (taken ++ word, rest)
  end.

(** The text ends inside the word. *)
Definition at_end (quoted : option (string * string)) : Word :=
  match quoted with
  | Some _ => inl (exc ExpectedClosingQuoteError)
  | None => inr (EmptyString, EmptyString)
  end.

(** The loop of [get_quoted_word] over the text after the first
    character; [quoted] holds the opening and the closing mark of a quoted
    word, and the next [skip] bytes belong to a mark already taken. *)
Fixpoint read_word (quoted : option (string * string)) (skip : nat) (s : string) : Word :=
  match s with
  | EmptyString => at_end quoted
  | String c r =>
      match skip with
      | S n => read_word quoted n r
      | O =>
          if Ascii.eqb c "092" then
            match r with
            | EmptyString => at_end quoted
            | String _ _ =>
                let escaped :=
                  match quoted with
                  | Some (opening, closing) => [opening; closing]
                  | None => all_quotes
                  end in
                match mark_at escaped r with
                | Some q => push q (read_word quoted (String.length q) r)
                | None => push backslash (read_word quoted 0 r)
                end
            end
          else
            match quoted with
            | None =>
                match mark_at all_quotes s with
                | Some _ => inl (exc UnexpectedQuoteError)
                | None =>
                    if is_space c then inr (EmptyString, s)
                    else push (String c EmptyString) (read_word None 0 r)
                end
            | Some (_, closing) =>
                if startswith s closing then
                  match drop (String.length closing) s with
                  | EmptyString => inr (EmptyString, EmptyString)
                  | String d _ as rest =>
                      if is_space d then inr (EmptyString, rest)
                      else inl (exc InvalidEndOfQuotedStringError)
                  end
                else push (String c EmptyString) (read_word quoted 0 r)
            end
      end
  end.

(** The view stands on the first character of the word (the dispatcher
    has skipped white space and checked that the view is not at its end). *)
Definition get_quoted_word (s : string) : Word :=
  match s with
  | EmptyString => inr (EmptyString, EmptyString)
  | String c r =>
      match List.find (fun q => startswith s (fst q)) quotes with
      | Some (opening, closing) =>
          read_word (Some (opening, closing)) (String.length opening - 1) r
      | None => push (String c EmptyString) (read_word None 0 r)
      end
  end.

Definition Converter (T : Type) : Type := Context -> string -> Error + T.

(** [int]: [int(argument)], a [ValueError] becomes [BadArgument]. *)
Definition to_int : Converter Z :=
  fun _ argument =>
    match int argument with
    | Some n => inr n
    | None => inl (exc BadArgument)
    end.

(** [discord.Member]. *)
Definition to_member : Converter Member :=
  fun ctx argument =>
    match find_member ctx argument with
    | Some m => inr m
    | None => inl (exc MemberNotFound)
    end.

(** [discord.Role]: [RoleConverter] raises [NoPrivateMessage] where there
    is no guild, before it looks at the argument. *)
Definition to_role : Converter Role :=
  fun ctx argument =>
    match ctx_guild ctx with
    | None => inl (exc NoPrivateMessage)
    | Some _ =>
        match find_role ctx argument with
        | Some r => inr r
        | None => inl (exc RoleNotFound)
        end
    end.

(** A parameter with a default of [None]. *)
Definition or_none {T} (conv : Converter T) : Converter (option T) :=
  fun ctx argument =>
    match conv ctx argument with
    | inl e => inl e
    | inr x => inr (Some x)
    end.

(** Binding one parameter: what is left of the message comes in, the
    bound value and the rest go out. *)
Definition Binder (T : Type) : Type := Context -> string -> Error + (T * string).

(** A positional parameter [name: T] or [name: T = default]. *)
Definition positional {T} (name : string) (conv : Converter T) (default : option T)
  : Binder T :=
  fun ctx view =>
    match lstrip view with
    | EmptyString =>
        match default with
        | Some d => inr (d, EmptyString)
        | None => inl (missing_required_argument name)
        end
    | String _ _ as v =>
        match get_quoted_word v with
        | inl e => inl e
        | inr (argument, rest) =>
            match conv ctx argument with
            | inl e => inl e
            | inr x => inr (x, rest)
            end
        end
    end.

(** A keyword-only parameter [*, name: str] or [*, name: str = default]:
    it takes the rest of the message. *)
Definition keyword_only (name : string) (default : option string) : Binder string :=
  fun ctx view =>
    match lstrip view with
    | EmptyString =>
        match default with
        | Some d => inr (d, EmptyString)
        | None => inl (missing_required_argument name)
        end
    | String _ _ as v => inr (strip v, EmptyString)
    end.

Definition and_then {A B} (r : Error + A) (f : A -> Error + B) : Error + B :=
  match r with
  | inl e => inl e
  | inr a => f a
  end.

(** A registered command: [@bot.command(name=..., aliases=[...])], the
    permissions of [@commands.has_permissions(...)], and the callback
    behind its parameter binding. *)
Record Command := {
  cmd_name : string;
  cmd_aliases : list string;
  cmd_requires : list Permission;
  cmd_bind : Context -> string -> Error + Prog unit
}.

(** The predicate of [has_permissions]: the permissions the caller lacks. *)
Definition missing_permissions (ctx : Context) (cmd : Command) : list Permission :=
  List.filter (fun p => negb (bool_decide (p ∈ ctx_permissions ctx))) (cmd_requires cmd).

(** [wrap_callback]: a [CommandError] passes, a cancellation ends the
    callback, any other [Exception] is wrapped. *)
Definition wrap_callback (body : Prog unit) : Prog unit :=
  catch body (fun e =>
    if isinstance e CommandError then Raise e
    else if isinstance e CancelledError then Ret tt
    else if isinstance e Exception then Raise (command_invoke_error e)
    else Raise e).

(** [Command.invoke]: checks, parameters, callback. *)
Definition command_invoke (cmd : Command) (ctx : Context) (view : string) : Prog unit :=
  match missing_permissions ctx cmd with
  | _ :: _ => Raise (exc MissingPermissions)
  | [] =>
      match cmd_bind cmd ctx view with
      | inl e => Raise e
      | inr body => wrap_callback body
      end
  end.

(** [bot.all_commands]: every name and alias maps to its command. *)
Definition add_command (cmd : Command) (table : gmap string Command) : gmap string Command :=
  fold_right (fun alias t => <[alias := cmd]> t) (<[cmd_name cmd := cmd]> table)
             (cmd_aliases cmd).

Definition all_commands (cmds : list Command) : gmap string Command :=
  fold_right add_command ∅ cmds.

(** [Bot.invoke] for a message whose command name is [invoked_with] and
    whose remainder is [view]; [on_command_error] is the error hook. *)
Definition bot_invoke (table : gmap string Command)
    (on_command_error : Context -> Error -> Prog unit)
    (ctx : Context) (invoked_with view : string) : Prog unit :=
  match table !! invoked_with with
  | Some cmd =>
      catch (command_invoke cmd ctx view) (fun e =>
        if isinstance e CommandError then on_command_error ctx e else Raise e)
  | None =>
      if truthy invoked_with then on_command_error ctx (exc CommandNotFound)
      else Ret tt
  end.

End Commands.

(** ** app.py *)

Module App.
Import Py Discord Commands.
Open Scope prog_scope.

(** *** Configuration (module level, lines 15-18)

    [environ] is [os.environ] once [load_dotenv()] has run. *)

Record Config := {
  PREFIX : string;
  TOKEN : option string;
  WELCOME_CHANNEL : string;
  OWNER_ID : option Z
}.

(** [os.getenv(key)] and [os.getenv(key, default)]. *)
Definition getenv (environ : gmap string string) (key : string) : option string :=
  environ !! key.

Definition getenv_or (environ : gmap string string) (key fallback : string) : string :=
  match environ !! key with
  | Some v => v
  | None => fallback
  end.

(** Truthiness of what [os.getenv(key)] returns: [None] and the empty
    string are falsy. *)
Definition truthy_opt (v : option string) : bool :=
  match v with
  | Some s => truthy s
  | None => false
  end.

Section Configuration.

(** The builtin [int] on a [str], [None] standing for [ValueError]: what
    the loader does with its answer does not depend on how it parses. *)
Variable int : string -> option Z.

Definition load_config (environ : gmap string string) : Error + Config :=
  let prefix := getenv_or environ "PREFIX" "!" in
  let token := getenv environ "DISCORD_TOKEN" in
  let welcome_channel := getenv_or environ "WELCOME_CHANNEL" "general" in
  let owner_id :=
    if truthy_opt (getenv environ "OWNER_ID")
    then match int (getenv_or environ "OWNER_ID" "0") with
         | Some n => inr (Some n)
         | None => inl (exc ValueError)
         end
    else inr None in
  match owner_id with
  | inl e => inl e
  | inr owner =>
      inr {| PREFIX := prefix; TOKEN := token;
             WELCOME_CHANNEL := welcome_channel; OWNER_ID := owner |}
  end.

Definition token_not_set : string :=
  "DISCORD_TOKEN is not set. Please set the DISCORD_TOKEN environment variable or create a .env file.".

(** [if __name__ == "__main__":] (lines 270-275). *)
Definition run_bot (cfg : Config) : Prog unit :=
  if negb (truthy_opt (TOKEN cfg))
  then call (logger_error token_not_set) ;; call (print token_not_set)
  else match TOKEN cfg with
       | Some token => call (bot_run token)
       | None => Ret tt
       end.

(** The process: the module is loaded, then run as a script. *)
Definition main (environ : gmap string string) : Prog unit :=
  match load_config environ with
  | inl e => Raise e
  | inr cfg => run_bot cfg
  end.

End Configuration.

(** [format_timedelta]. *)
Definition format_timedelta (dt : datetime) : string := strftime_utc dt.

(** [discord.utils.get(channels, name=...)]: the first channel of that name. *)
Definition utils_get (channels : list TextChannel) (name : string) : option TextChannel :=
  find (fun ch => String.eqb (channel_name ch) name) channels.

Definition EIGHT_BALL_ANSWERS : list string :=
  [ "It is certain."; "Without a doubt."; "You may rely on it.";
    "Ask again later."; "Better not tell you now."; "Very doubtful.";
    "My sources say no."; "Signs point to yes."; "Absolutely!"; "No way." ].

(** The f-string of [help_command], before [textwrap.dedent]. *)
Definition help_template (p user : string) : string :=
  nl ++
  "        NekoNi2 - commands" ++ nl ++
  "        Prefix: " ++ p ++ nl ++
  nl ++
  "        Moderation:" ++ nl ++
  "          " ++ p ++ "clear <amount>       - Delete messages (requires Manage Messages)" ++ nl ++
  "          " ++ p ++ "kick <member> [reason]" ++ nl ++
  "          " ++ p ++ "ban <member> [reason]" ++ nl ++
  "          " ++ p ++ "unban <user_id>" ++ nl ++
  nl ++
  "        Utility:" ++ nl ++
  "          " ++ p ++ "ping" ++ nl ++
  "          " ++ p ++ "say <message>        - (requires Manage Messages)" ++ nl ++
  "          " ++ p ++ "avatar [member]" ++ nl ++
  "          " ++ p ++ "userinfo [member]" ++ nl ++
  "          " ++ p ++ "serverinfo" ++ nl ++
  nl ++
  "        Fun:" ++ nl ++
  "          " ++ p ++ "8ball <question>" ++ nl ++
  "          " ++ p ++ "coin" ++ nl ++
  "          " ++ p ++ "roll [sides]" ++ nl ++
  nl ++
  "        Advanced:" ++ nl ++
  "          " ++ p ++ "addrole <member> <role>      - requires Manage Roles" ++ nl ++
  "          " ++ p ++ "removerole <member> <role>" ++ nl ++
  nl ++
  "        Use @" ++ user ++ " as a mention or the prefix to run commands." ++ nl ++
  "        ".

Section Handlers.

(** The module globals the handlers read, and what [discord.Embed.Empty]
    evaluates to in the installed library: the "no URL" sentinel where the
    attribute exists, [AttributeError] where it does not. *)
Variable cfg : Config.
Variable bot : Bot.
Variable Embed_Empty : Error + unit.

(** *** Events *)

Definition on_ready : Prog unit :=
  call (logger_info ("Logged in as " ++ bot_user bot ++ " (ID: " ++
                     str_of_Z (bot_user_id bot) ++ ")")) ;;
  call (logger_info ("Guilds: " ++ str_of_Z (len (bot_guilds bot)))) ;;
  call (bot_change_presence (PREFIX cfg ++ "help | " ++
                             str_of_Z (len (bot_guilds bot)) ++ " servers")) ;;
  call (print ("Ready! Logged in as: " ++ bot_user bot ++ " (ID: " ++
               str_of_Z (bot_user_id bot) ++ ")")).

Definition welcome_text (member : Member) (guild : Guild) : string :=
  "Welcome " ++ member_mention member ++ " to **" ++ guild_name guild ++ "**! Say hi 👋".

Definition welcome_missing (guild : Guild) : string :=
  "Welcome channel '" ++ WELCOME_CHANNEL cfg ++
  "' not found or no permission in guild " ++ guild_name guild.

Definition on_member_join (member : Member) : Prog unit :=
  let guild := member_guild member in
  let channel := utils_get (text_channels guild) (WELCOME_CHANNEL cfg) in
  match channel with
  | Some ch =>
      if bot_can_send ch
      then call (channel_send ch (welcome_text member guild) None)
      else call (logger_debug (welcome_missing guild))
  | None => call (logger_debug (welcome_missing guild))
  end.

(** *** Error handling *)

Definition on_command_error (ctx : Context) (error : Error) : Prog unit :=
  let error :=
    if isinstance error CommandInvokeError
    then match original_of error with
         | Some original => original
         | None => error
         end
    else error in
  if isinstance error MissingPermissions then
    call (ctx_reply (Text "You do not have permission to run this command.") false)
  else if isinstance error BotMissingPermissions then
    call (ctx_reply (Text "I don't have the required permissions to do that.") false)
  else if isinstance error MissingRequiredArgument then
    call (ctx_reply (Text ("Missing argument: " ++ param_name_of error)) false)
  else if isinstance error BadArgument then
    call (ctx_reply (Text "Bad argument provided.") false)
  else if isinstance error CommandNotFound then
    Ret tt
  else
    (* No [except] block is open here, and the dispatcher runs the hook as
       a task of its own: [sys.exc_info()] is empty and [error] is not
       passed, so the record carries the message alone. *)
    call (logger_exception "Unhandled command error" None) ;;
    call (ctx_reply (Text "An unexpected error occurred. The error has been logged.") false).

(** *** Basic commands *)

Definition ping (ctx : Context) : Prog unit :=
  ws_latency <- lift (round_times_1000 (bot_latency bot)) ;;
  call (ctx_reply (Text ("Pong! WebSocket latency: " ++ str_of_Z ws_latency ++ "ms")) false).

Definition say (ctx : Context) (message : string) : Prog unit :=
  try_except_Exception (call message_delete) (Ret tt) ;;
  call (ctx_send message).

Definition avatar (ctx : Context) (member : option Member) : Prog unit :=
  let member := match member with Some m => a_member m | None => ctx_author ctx end in
  let embed := new_embed (author_str member ++ "'s avatar") EmptyString None in
  let embed := set_image (author_avatar member) embed in
  call (ctx_reply (Rich embed) false).

Definition serverinfo (ctx : Context) : Prog unit :=
  match ctx_guild ctx with
  | None => Raise (exc AttributeError)
  | Some g =>
      let description :=
        match guild_description g with
        | Some d => d
        | None => EmptyString
        end in
      now <- call datetime_utcnow ;;
      let embed := new_embed (guild_name g) description (Some now) in
      embed <- match guild_icon_url g with
               | Some url => Ret (set_thumbnail url embed)
               | None => _ <- lift Embed_Empty ;; Ret embed
               end ;;
      let fields :=
        [ ("Server ID", str_of_Z (guild_id g));
          ("Owner", guild_owner_str g);
          ("Members", str_of_Z (guild_member_count g));
          ("Text Channels", str_of_Z (len (text_channels g)));
          ("Voice Channels", str_of_Z (len (voice_channels g)));
          ("Roles", str_of_Z (len (guild_roles g)));
          ("Created at", format_timedelta (guild_created_at g)) ] in
      let embed := fold_left (fun e nv => add_field (fst nv) (snd nv) true e) fields embed in
      call (ctx_reply (Rich embed) false)
  end.

Definition userinfo (ctx : Context) (member : option Member) : Prog unit :=
  let member := match member with Some m => a_member m | None => ctx_author ctx end in
  now <- call datetime_utcnow ;;
  let embed := new_embed (author_str member) EmptyString (Some now) in
  let embed := set_thumbnail (author_avatar member) embed in
  let embed := add_field "ID" (str_of_Z (author_id member)) true embed in
  let embed := add_field "Bot" (str_of_bool (author_bot member)) true embed in
  top_role <- lift (author_top_role member) ;;
  let embed := add_field "Top role"
                 match top_role with
                 | Some r => role_mention r
                 | None => "None"
                 end true embed in
  joined_at <- lift (author_joined_at member) ;;
  let embed := add_field "Joined"
                 match joined_at with
                 | Some dt => format_timedelta dt
                 | None => "Unknown"
                 end true embed in
  let embed := add_field "Created" (format_timedelta (author_created_at member)) true embed in
  call (ctx_reply (Rich embed) false).

(** *** Moderation *)

Definition clear (ctx : Context) (amount : Z) : Prog unit :=
  if (amount <? 1) || (amount >? 200) then
    call (ctx_reply (Text "Please provide a number between 1 and 200.") false)
  else
    deleted <- call (channel_purge (ctx_channel ctx) (amount + 1)) ;;
    call (channel_send (ctx_channel ctx)
            ("Deleted " ++ str_of_Z (len deleted - 1) ++ " messages.") (Some 5)).

Definition kick (ctx : Context) (member : Member) (reason : string) : Prog unit :=
  call (member_kick member reason) ;;
  call (ctx_reply (Text ("Kicked " ++ member_str member ++ " - " ++ reason)) false).

Definition ban (ctx : Context) (member : Member) (reason : string) : Prog unit :=
  call (member_ban member reason) ;;
  call (ctx_reply (Text ("Banned " ++ member_str member ++ " - " ++ reason)) false).

Definition unban (ctx : Context) (user_id : Z) : Prog unit :=
  user <- call (bot_fetch_user user_id) ;;
  match ctx_guild ctx with
  | None => Raise (exc AttributeError)
  | Some g =>
      call (guild_unban g user) ;;
      call (ctx_reply (Text ("Unbanned " ++ user_str user ++ ".")) false)
  end.

Definition addrole (ctx : Context) (member : Member) (role : Role) : Prog unit :=
  call (member_add_roles member role) ;;
  call (ctx_reply (Text ("Added role " ++ role_name role ++ " to " ++
                         member_mention member ++ ".")) false).

Definition removerole (ctx : Context) (member : Member) (role : Role) : Prog unit :=
  call (member_remove_roles member role) ;;
  call (ctx_reply (Text ("Removed role " ++ role_name role ++ " from " ++
                         member_mention member ++ ".")) false).

(** *** Fun commands *)

Definition eightball (ctx : Context) (question : string) : Prog unit :=
  answer <- call (random_choice EIGHT_BALL_ANSWERS) ;;
  call (ctx_reply (Text ("🎱 Question: " ++ question ++ nl ++
                         "Answer: **" ++ answer ++ "**")) false).

Definition coin (ctx : Context) : Prog unit :=
  side <- call (random_choice ["Heads 🪙"; "Tails 🪙"]) ;;
  call (ctx_reply (Text side) false).

Definition roll_text (sides result : Z) : string :=
  "🎲 d" ++ str_of_Z sides ++ " -> **" ++ str_of_Z result ++ "**".

Definition roll (ctx : Context) (sides : Z) : Prog unit :=
  if (sides <? 2) || (sides >? 1000000) then
    call (ctx_reply (Text "Please choose a number between 2 and 1,000,000.") false)
  else
    result <- call (random_randint 1 sides) ;;
    call (ctx_reply (Text (roll_text sides result)) false).

(** *** Help *)

Definition help_text : string := dedent (help_template (PREFIX cfg) (bot_user bot)).

Definition help_command (ctx : Context) : Prog unit :=
  call (ctx_reply (Text help_text) false).

(** *** The commands as registered

    Each entry gives [@bot.command(name=..., aliases=...)], the
    [@commands.has_permissions(...)] decorator, and the parameters of the
    signature with their defaults. *)

Definition ping_command : Command :=
  {| cmd_name := "ping"; cmd_aliases := []; cmd_requires := [];
     cmd_bind := fun ctx view => inr (ping ctx) |}.

Definition say_command : Command :=
  {| cmd_name := "say"; cmd_aliases := []; cmd_requires := [manage_messages];
     cmd_bind := fun ctx view =>
       and_then (keyword_only "message" None ctx view) (fun b =>
       inr (say ctx (fst b))) |}.

Definition avatar_command : Command :=
  {| cmd_name := "avatar"; cmd_aliases := []; cmd_requires := [];
     cmd_bind := fun ctx view =>
       and_then (positional "member" (or_none to_member) (Some None) ctx view) (fun b =>
       inr (avatar ctx (fst b))) |}.

Definition serverinfo_command : Command :=
  {| cmd_name := "serverinfo"; cmd_aliases := []; cmd_requires := [];
     cmd_bind := fun ctx view => inr (serverinfo ctx) |}.

Definition userinfo_command : Command :=
  {| cmd_name := "userinfo"; cmd_aliases := ["user"]; cmd_requires := [];
     cmd_bind := fun ctx view =>
       and_then (positional "member" (or_none to_member) (Some None) ctx view) (fun b =>
       inr (userinfo ctx (fst b))) |}.

Definition clear_command : Command :=
  {| cmd_name := "clear"; cmd_aliases := ["purge"; "clean"];
     cmd_requires := [manage_messages];
     cmd_bind := fun ctx view =>
       and_then (positional "amount" to_int (Some 10) ctx view) (fun b =>
       inr (clear ctx (fst b))) |}.

Definition kick_command : Command :=
  {| cmd_name := "kick"; cmd_aliases := []; cmd_requires := [kick_members];
     cmd_bind := fun ctx view =>
       and_then (positional "member" to_member None ctx view) (fun b1 =>
       and_then (keyword_only "reason" (Some "No reason provided") ctx (snd b1)) (fun b2 =>
       inr (kick ctx (fst b1) (fst b2)))) |}.

Definition ban_command : Command :=
  {| cmd_name := "ban"; cmd_aliases := []; cmd_requires := [ban_members];
     cmd_bind := fun ctx view =>
       and_then (positional "member" to_member None ctx view) (fun b1 =>
       and_then (keyword_only "reason" (Some "No reason provided") ctx (snd b1)) (fun b2 =>
       inr (ban ctx (fst b1) (fst b2)))) |}.

Definition unban_command : Command :=
  {| cmd_name := "unban"; cmd_aliases := []; cmd_requires := [ban_members];
     cmd_bind := fun ctx view =>
       and_then (positional "user_id" to_int None ctx view) (fun b =>
       inr (unban ctx (fst b))) |}.

Definition addrole_command : Command :=
  {| cmd_name := "addrole"; cmd_aliases := []; cmd_requires := [manage_roles];
     cmd_bind := fun ctx view =>
       and_then (positional "member" to_member None ctx view) (fun b1 =>
       and_then (positional "role" to_role None ctx (snd b1)) (fun b2 =>
       inr (addrole ctx (fst b1) (fst b2)))) |}.

Definition removerole_command : Command :=
  {| cmd_name := "removerole"; cmd_aliases := []; cmd_requires := [manage_roles];
     cmd_bind := fun ctx view =>
       and_then (positional "member" to_member None ctx view) (fun b1 =>
       and_then (positional "role" to_role None ctx (snd b1)) (fun b2 =>
       inr (removerole ctx (fst b1) (fst b2)))) |}.

Definition eightball_command : Command :=
  {| cmd_name := "8ball"; cmd_aliases := ["eightball"]; cmd_requires := [];
     cmd_bind := fun ctx view =>
       and_then (keyword_only "question" None ctx view) (fun b =>
       inr (eightball ctx (fst b))) |}.

Definition coin_command : Command :=
  {| cmd_name := "coin"; cmd_aliases := []; cmd_requires := [];
     cmd_bind := fun ctx view => inr (coin ctx) |}.

Definition roll_command : Command :=
  {| cmd_name := "roll"; cmd_aliases := []; cmd_requires := [];
     cmd_bind := fun ctx view =>
       and_then (positional "sides" to_int (Some 6) ctx view) (fun b =>
       inr (roll ctx (fst b))) |}.

Definition help_command_ : Command :=
  {| cmd_name := "help"; cmd_aliases := []; cmd_requires := [];
     cmd_bind := fun ctx view => inr (help_command ctx) |}.

(** In the order of their definition in app.py. *)
Definition commands : list Command :=
  [ ping_command; say_command; avatar_command; serverinfo_command;
    userinfo_command; clear_command; kick_command; ban_command;
    unban_command; addrole_command; removerole_command; eightball_command;
    coin_command; roll_command; help_command_ ].

(** A message [{prefix}{invoked_with} {view}] reaching the bot. *)
Definition handle (ctx : Context) (invoked_with view : string) : Prog unit :=
  bot_invoke (all_commands commands) on_command_error ctx invoked_with view.

End Handlers.

End App.

(** ** A reference platform

    One deterministic world to run the handlers in: a single channel with
    its message history (newest first), an entropy stream that drives
    [random], a clock, and a switch for whether the bot may delete
    messages.  [channel.purge(limit=n)] removes the [n] newest messages and
    returns them; [random.randint(a, b)] and [random.choice] stay inside
    their ranges. *)

Module Platform.
Import Py Discord.

Record State := {
  history : list Message;
  entropy : list Z;
  clock : datetime;
  may_delete : bool;
  users : list User
}.

Definition with_history (h : list Message) (s : State) : State :=
  {| history := h; entropy := entropy s; clock := clock s;
     may_delete := may_delete s; users := users s |}.

Definition with_entropy (e : list Z) (s : State) : State :=
  {| history := history s; entropy := e; clock := clock s;
     may_delete := may_delete s; users := users s |}.

Definition next_entropy (s : State) : Z * State :=
  match entropy s with
  | [] => (0, s)
  | x :: rest => (x, with_entropy rest s)
  end.

Definition post (content : string) (s : State) : State :=
  with_history ({| message_id := len (history s); message_content := content |}
                :: history s) s.

Definition payload_text (p : Payload) : string :=
  match p with
  | Text t => t
  | Rich e => embed_title e
  end.

Definition answer (c : Call) (s : State) : (Error + Resp c) * State :=
  match c return (Error + Resp c) * State with
  | ctx_reply p _ => (inr tt, post (payload_text p) s)
  | ctx_send t => (inr tt, post t s)
  | channel_send _ t _ => (inr tt, post t s)
  | message_delete =>
      if may_delete s then (inr tt, with_history (tl (history s)) s)
      else (inl (exc Forbidden), s)
  | channel_purge _ limit =>
      if may_delete s
      then (inr (firstn (Z.to_nat limit) (history s)),
            with_history (skipn (Z.to_nat limit) (history s)) s)
      else (inl (exc Forbidden), s)
  | bot_fetch_user id =>
      match find (fun u => user_id u =? id) (users s) with
      | Some u => (inr u, s)
      | None => (inl (exc NotFound), s)
      end
  | random_choice population =>
      let '(x, s') := next_entropy s in
      match nth_error population (Z.to_nat (x mod len population)) with
      | Some v => (inr v, s')
      | None => (inl (exc IndexError), s')
      end
  | random_randint a b =>
      if b <? a then (inl (exc ValueError), s)
      else let '(x, s') := next_entropy s in (inr (a + x mod (b - a + 1)), s')
  | datetime_utcnow => (inr (clock s), s)
  | member_kick _ _ | member_ban _ _ | guild_unban _ _
  | member_add_roles _ _ | member_remove_roles _ _
  | bot_change_presence _ | bot_run _
  | logger_info _ | logger_debug _ | logger_error _ | logger_exception _ _
  | print _ => (inr tt, s)
  end.

Definition world : World := {| state := State; respond := answer |}.

End Platform.

(** ** Sample objects *)

Module Sample.
Import Py Discord.

Definition epoch : datetime :=
  {| year := 2024; month := 3; day := 9; hour := 12; minute := 0; second := 5;
     microsecond := 0; utcoffset := None |}.

Definition general : TextChannel :=
  {| channel_id := 10; channel_name := "general"; bot_can_send := true |}.

Definition muted : TextChannel :=
  {| channel_id := 11; channel_name := "general"; bot_can_send := false |}.

Definition lobby : TextChannel :=
  {| channel_id := 12; channel_name := "lobby"; bot_can_send := true |}.

Definition mods : Role := {| role_id := 77; role_name := "mods" |}.

Definition guild_with (channels : list TextChannel) : Guild :=
  {| guild_id := 1; guild_name := "Neko"; guild_description := None;
     guild_icon_url := None; guild_owner_str := "owner"; guild_member_count := 3;
     text_channels := channels; voice_channels := []; guild_roles := [mods];
     guild_created_at := epoch |}.

Definition guild : Guild := guild_with [lobby; general].

Definition member_in (g : Guild) : Member :=
  {| member_id := 42; member_str := "alice"; member_bot := false;
     member_avatar := "https://cdn.example/alice.png"; member_top_role := Some mods;
     member_joined_at := Some epoch; member_created_at := epoch; member_guild := g |}.

Definition alice : Member := member_in guild.

Definition ctx_with (perms : list Permission) : Context :=
  {| ctx_author := a_member alice; ctx_guild := Some guild; ctx_channel := general;
     ctx_permissions := perms;
     find_member := fun a => if String.eqb a "alice" then Some alice else None;
     find_role := fun a => if String.eqb a "mods" then Some mods else None |}.

Definition ctx : Context :=
  ctx_with [manage_messages; kick_members; ban_members; manage_roles].

Definition bot : Bot :=
  {| bot_user := "NekoNi2#0001"; bot_user_id := 99; bot_guilds := [guild];
     bot_latency := Finite 42 |}.

Definition cfg : App.Config :=
  {| App.PREFIX := "!"; App.TOKEN := Some "secret";
     App.WELCOME_CHANNEL := "general"; App.OWNER_ID := None |}.

Definition message (n : Z) : Message :=
  {| message_id := n; message_content := "m" ++ str_of_Z n |}.

(** A channel holding the invoking message on top of three older ones. *)
Definition busy : Platform.State :=
  {| Platform.history := [message 3; message 2; message 1; message 0];
     Platform.entropy := [4; 17; 5]; Platform.clock := epoch;
     Platform.may_delete := true; Platform.users := [] |}.

(** The same channel where the bot may not delete. *)
Definition locked : Platform.State :=
  {| Platform.history := [message 3; message 2; message 1; message 0];
     Platform.entropy := [4; 17; 5]; Platform.clock := epoch;
     Platform.may_delete := false; Platform.users := [] |}.

(** Process environments. *)
Definition bare : gmap string string := ∅.

Definition configured : gmap string string :=
  <["PREFIX" := "?"]> (<["OWNER_ID" := "42"]> (<["DISCORD_TOKEN" := "secret"]> ∅)).

Definition bad_owner : gmap string string :=
  <["OWNER_ID" := "abc"]> (<["DISCORD_TOKEN" := "secret"]> ∅).

Definition empty_owner : gmap string string :=
  <["OWNER_ID" := EmptyString]> (<["DISCORD_TOKEN" := "secret"]> ∅).

End Sample.

(** ** The requests the specification names *)

Module Expect.
Import Py Discord.

Definition clear_rejection : Call :=
  ctx_reply (Text "Please provide a number between 1 and 200.") false.

Definition clear_notice (ctx : Context) (deleted : list Message) : Call :=
  channel_send (ctx_channel ctx)
    ("Deleted " ++ str_of_Z (len deleted - 1) ++ " messages.") (Some 5).

Definition roll_rejection : Call :=
  ctx_reply (Text "Please choose a number between 2 and 1,000,000.") false.

Definition roll_reply (sides result : Z) : Call :=
  ctx_reply (Text (App.roll_text sides result)) false.

(** A request is a draw from [random]. *)
Definition is_random (c : Call) : bool :=
  match c with
  | random_randint _ _ | random_choice _ => true
  | _ => false
  end.

(** The replies of the error hook. *)
Definition no_permission : Call :=
  ctx_reply (Text "You do not have permission to run this command.") false.

Definition bot_no_permission : Call :=
  ctx_reply (Text "I don't have the required permissions to do that.") false.

Definition missing_argument (name : string) : Call :=
  ctx_reply (Text ("Missing argument: " ++ name)) false.

Definition bad_argument : Call := ctx_reply (Text "Bad argument provided.") false.

Definition unexpected_error : Call :=
  ctx_reply (Text "An unexpected error occurred. The error has been logged.") false.

(** What the specification calls the full server-side log: the one
    record the hook writes, the fixed message with no exception attached. *)
Definition full_log : Call := logger_exception "Unhandled command error" None.

(** A request of the error hook: a reply that mentions nobody, or the log. *)
Definition is_reply_or_log (c : Call) : bool :=
  match c with
  | ctx_reply _ false | logger_exception _ _ => true
  | _ => false
  end.

(** An error the hook has no reply of its own for. *)
Definition unclassified (e : Error) : Prop :=
  isinstance e CommandInvokeError = false /\
  isinstance e MissingPermissions = false /\
  isinstance e BotMissingPermissions = false /\
  isinstance e MissingRequiredArgument = false /\
  isinstance e BadArgument = false /\
  isinstance e CommandNotFound = false.

(** What the process does when [DISCORD_TOKEN] is missing. *)
Definition token_error_logged : Call := logger_error App.token_not_set.
Definition token_error_printed : Call := print App.token_not_set.

(** A request starts the bot. *)
Definition starts_bot (c : Call) : bool :=
  match c with
  | bot_run _ => true
  | _ => false
  end.

(** A reply that pings nobody: [mention_author=False]. *)
Definition mentions_nobody (c : Call) : Prop :=
  forall payload mention, c = ctx_reply payload mention -> mention = false.

(** The command surface of section 6 of the specification. *)
Definition command_surface : list string :=
  [ "ping"; "say"; "avatar"; "serverinfo"; "userinfo"; "user"; "clear"; "purge";
    "clean"; "kick"; "ban"; "unban"; "addrole"; "removerole"; "8ball"; "eightball";
    "coin"; "roll"; "help" ].

(** The names of the surface that the help text holds. *)
Definition helped_names : list string :=
  [ "ping"; "say"; "avatar"; "serverinfo"; "userinfo"; "user"; "clear";
    "kick"; "ban"; "unban"; "addrole"; "removerole"; "8ball"; "coin"; "roll" ].

(** The f-string of [help_command] line by line: the lines above the last
    two, and the rest, which holds [bot.user]. *)
Definition help_head (p : string) : list string :=
  [ EmptyString;
    "        NekoNi2 - commands";
    "        Prefix: " ++ p;
    EmptyString;
    "        Moderation:";
    "          " ++ p ++ "clear <amount>       - Delete messages (requires Manage Messages)";
    "          " ++ p ++ "kick <member> [reason]";
    "          " ++ p ++ "ban <member> [reason]";
    "          " ++ p ++ "unban <user_id>";
    EmptyString;
    "        Utility:";
    "          " ++ p ++ "ping";
    "          " ++ p ++ "say <message>        - (requires Manage Messages)";
    "          " ++ p ++ "avatar [member]";
    "          " ++ p ++ "userinfo [member]";
    "          " ++ p ++ "serverinfo";
    EmptyString;
    "        Fun:";
    "          " ++ p ++ "8ball <question>";
    "          " ++ p ++ "coin";
    "          " ++ p ++ "roll [sides]";
    EmptyString;
    "        Advanced:";
    "          " ++ p ++ "addrole <member> <role>      - requires Manage Roles";
    "          " ++ p ++ "removerole <member> <role>";
    EmptyString ].

Definition help_tail (user : string) : string :=
  "        Use @" ++ user ++ " as a mention or the prefix to run commands." ++ nl ++
  "        ".

(** The command syntax lines of the help text, without the prefix. *)
Definition help_syntax : list string :=
  [ "clear <amount>       - Delete messages (requires Manage Messages)";
    "kick <member> [reason]";
    "ban <member> [reason]";
    "unban <user_id>";
    "ping";
    "say <message>        - (requires Manage Messages)";
    "avatar [member]";
    "userinfo [member]";
    "serverinfo";
    "8ball <question>";
    "coin";
    "roll [sides]";
    "addrole <member> <role>      - requires Manage Roles";
    "removerole <member> <role>" ].

(** A configuration with the prefix [p]. *)
Definition with_prefix (p : string) : App.Config :=
  {| App.PREFIX := p; App.TOKEN := None;
     App.WELCOME_CHANNEL := "general"; App.OWNER_ID := None |}.

End Expect.

(** ** Names, permissions and worlds for the properties of the whole bot *)

Module Usage.
Import Py Discord Commands.

(** The names and aliases of the [@bot.command] decorators, in the order
    of app.py. *)
Definition registered_names : list string :=
  [ "ping"; "say"; "avatar"; "serverinfo"; "userinfo"; "user";
    "clear"; "purge"; "clean"; "kick"; "ban"; "unban"; "addrole"; "removerole";
    "8ball"; "eightball"; "coin"; "roll"; "help" ].

(** The names a list of commands answers to. *)
Definition names_of (cmds : list Command) : list string :=
  flat_map (fun cmd => cmd_name cmd :: cmd_aliases cmd) cmds.

(** The permission a mutation request is guarded by in app.py: the
    argument of the [has_permissions] decorator of the one command that
    makes it. *)
Definition permission_for (c : Call) : option Permission :=
  match c with
  | message_delete | channel_purge _ _ => Some manage_messages
  | member_kick _ _ => Some kick_members
  | member_ban _ _ | guild_unban _ _ => Some ban_members
  | member_add_roles _ _ | member_remove_roles _ _ => Some manage_roles
  | _ => None
  end.

(** The caller of [ctx] holds the permission the request is guarded by. *)
Definition authorised (ctx : Context) (c : Call) : Prop :=
  forall p, permission_for c = Some p -> In p (ctx_permissions ctx).

(** A world whose [random.choice] keeps the contract of the standard
    library: from a non-empty population it returns one of its elements. *)
Definition honours_choice (W : World) : Prop :=
  forall (population : list string) (s : state W), population <> [] ->
    exists v, fst (respond W (random_choice population) s) = inr v /\
              In v population.

(** The reference platform, except that the requests picked by [refused]
    are answered with [discord.Forbidden]. *)
Definition refusing (refused : Call -> bool) : World :=
  {| state := Platform.State;
     respond := fun c s =>
       if refused c then (inl (exc Forbidden), s) else Platform.answer c s |}.

(** A request is a kick. *)
Definition is_kick (c : Call) : bool :=
  match c with
  | member_kick _ _ => true
  | _ => false
  end.

(** The bot before the first heartbeat is acknowledged: [bot.latency] is
    [inf]. *)
Definition stalled : Bot :=
  {| bot_user := "NekoNi2#0001"; bot_user_id := 99; bot_guilds := [Sample.guild];
     bot_latency := Infinity |}.

(** A role whose name holds a blank, and [Sample.ctx] in a guild that
    has it. *)
Definition admins : Role := {| role_id := 78; role_name := "Server Admin" |}.

Definition staffed : Context :=
  {| ctx_author := a_member Sample.alice; ctx_guild := Some Sample.guild;
     ctx_channel := Sample.general;
     ctx_permissions := [manage_messages; kick_members; ban_members; manage_roles];
     find_member := fun a => if String.eqb a "alice" then Some Sample.alice else None;
     find_role := fun a =>
       if String.eqb a "mods" then Some Sample.mods
       else if String.eqb a "Server Admin" then Some admins else None |}.

(** A user met outside any guild, and the context of a direct message
    from that user. *)
Definition carol : User :=
  {| user_id := 43; user_str := "carol"; user_bot := false;
     user_avatar := "https://cdn.example/carol.png"; user_created_at := Sample.epoch |}.

Definition direct : Context :=
  {| ctx_author := a_user carol; ctx_guild := None; ctx_channel := Sample.general;
     ctx_permissions := [];
     find_member := fun _ => None;
     find_role := fun _ => None |}.

(** The value of the embed field called [name], if there is one. *)
Definition field (e : Embed) (name : string) : option string :=
  option_map field_value
    (find (fun f => String.eqb (field_name f) name) (embed_fields e)).

(** The help text as it is sent when neither the prefix nor the name of
    the bot holds a line feed: the lines of the f-string without their
    eight leading blanks. *)
Definition help_reply_lines (p user : string) : list string :=
  [ EmptyString;
    "NekoNi2 - commands";
    "Prefix: " ++ p;
    EmptyString;
    "Moderation:";
    "  " ++ p ++ "clear <amount>       - Delete messages (requires Manage Messages)";
    "  " ++ p ++ "kick <member> [reason]";
    "  " ++ p ++ "ban <member> [reason]";
    "  " ++ p ++ "unban <user_id>";
    EmptyString;
    "Utility:";
    "  " ++ p ++ "ping";
    "  " ++ p ++ "say <message>        - (requires Manage Messages)";
    "  " ++ p ++ "avatar [member]";
    "  " ++ p ++ "userinfo [member]";
    "  " ++ p ++ "serverinfo";
    EmptyString;
    "Fun:";
    "  " ++ p ++ "8ball <question>";
    "  " ++ p ++ "coin";
    "  " ++ p ++ "roll [sides]";
    EmptyString;
    "Advanced:";
    "  " ++ p ++ "addrole <member> <role>      - requires Manage Roles";
    "  " ++ p ++ "removerole <member> <role>";
    EmptyString;
    "Use @" ++ user ++ " as a mention or the prefix to run commands.";
    EmptyString ].

(** Every character of [s] passes the test [P]. *)
Fixpoint every_char (P : ascii -> bool) (s : string) : bool :=
  match s with
  | EmptyString => true
  | String c r => P c && every_char P r
  end.

(** Text of ASCII characters only: there the model of white space, of
    the quotation marks and of [int] is the library's. *)
Definition ascii_only (s : string) : bool :=
  every_char (fun c => (N_of_ascii c <? 128)%N) s.

(** A character an unquoted word takes as it is: ASCII, no white space,
    no backslash, no quotation mark. *)
Definition plain_char (c : ascii) : bool :=
  (N_of_ascii c <? 128)%N && negb (is_space c) &&
  negb (Ascii.eqb c "092") && negb (Ascii.eqb c "034").

(** [sys.int_max_str_digits] as CPython 3.11 and later set it: [int]
    refuses a text of more digits.  The model of [int] has no such
    limit, so what is said of [int] on a given text is said of texts
    within it. *)
Definition int_max_str_digits : nat := 4300.

(** The integers [0, 1, ..., n-1]. *)
Definition below (n : Z) : list Z := map Z.of_nat (seq 0 (Z.to_nat n)).

(** Half a second after [Sample.epoch] on the clock of a zone two hours
    east of Greenwich: another instant, with the same six printed fields. *)
Definition later_elsewhere : datetime :=
  {| year := 2024; month := 3; day := 9; hour := 12; minute := 0; second := 5;
     microsecond := 500000; utcoffset := Some 120 |}.

(** A [datetime] whose fields are in range, with a four-digit year. *)
Definition valid_datetime (dt : datetime) : Prop :=
  1000 <= year dt <= 9999 /\ 1 <= month dt <= 12 /\ 1 <= day dt <= 31 /\
  0 <= hour dt <= 23 /\ 0 <= minute dt <= 59 /\ 0 <= second dt <= 59.

End Usage.

(** * Properties *)

Import Py Discord Commands Expect Usage.

(** ** Running programs *)

Section Running.
Context (W : World).

(** An awaited request followed by the rest of the body. *)
Lemma exec_await {A} (c : Call) (k : Resp c -> Prog A) (s : state W) :
  exec W (bind (call c) k) s =
  match respond W c s with
  | (inl e, s') => {| requests := [c]; outcome := Raised e; final := s' |}
  | (inr v, s') =>
      {| requests := c :: requests (exec W (k v) s');
         outcome := outcome (exec W (k v) s');
         final := final (exec W (k v) s') |}
  end.
Proof.
  cbn [bind call exec]. destruct (respond W c s) as [[e | v] s']; reflexivity.
Qed.

(** An awaited request in tail position. *)
Lemma exec_call (c : Call) (s : state W) :
  exec W (call c) s =
  match respond W c s with
  | (inl e, s') => {| requests := [c]; outcome := Raised e; final := s' |}
  | (inr v, s') => {| requests := [c]; outcome := Returned v; final := s' |}
  end.
Proof.
  cbn [call exec]. destruct (respond W c s) as [[e | v] s']; reflexivity.
Qed.

Lemma requests_call (c : Call) (s : state W) : requests (exec W (call c) s) = [c].
Proof.
  rewrite exec_call. destruct (respond W c s) as [[e | v] s']; reflexivity.
Qed.

(** What holds of every node of the tree holds of every request of a run. *)
Lemma every_call_requests {A} (P : Call -> Prop) (p : Prog A) :
  every_call P p -> forall s, Forall P (requests (exec W p s)).
Proof.
  induction p as [a | e | c k IH]; intros Hp s; cbn [exec requests].
  - constructor.
  - constructor.
  - destruct Hp as [Hc Hk]. destruct (respond W c s) as [r s']. cbn [requests].
    constructor; [exact Hc | apply IH, Hk].
Qed.

(** A handler that returns is not touched by the handlers around it. *)
Lemma exec_catch_returned {A} (p : Prog A) (h : Error -> Prog A) (s : state W) (a : A) :
  outcome (exec W p s) = Returned a -> exec W (catch p h) s = exec W p s.
Proof.
  revert s. induction p as [a' | e | c k IH]; intros s Hret; cbn [catch exec] in *.
  - reflexivity.
  - discriminate Hret.
  - destruct (respond W c s) as [r s']. cbn [outcome] in Hret.
    rewrite (IH r s' Hret). reflexivity.
Qed.

End Running.

Lemma every_call_bind {A B} (P : Call -> Prop) (p : Prog A) (f : A -> Prog B) :
  every_call P p -> (forall a, every_call P (f a)) -> every_call P (bind p f).
Proof.
  intros Hp Hf. induction p as [a | e | c k IH]; cbn [bind every_call] in *.
  - apply Hf.
  - exact I.
  - destruct Hp as [Hc Hk]. split; [exact Hc | intros r; apply IH, Hk].
Qed.

Lemma every_call_catch {A} (P : Call -> Prop) (p : Prog A) (h : Error -> Prog A) :
  every_call P p -> (forall e, every_call P (h e)) -> every_call P (catch p h).
Proof.
  intros Hp Hh. induction p as [a | e | c k IH]; cbn [catch every_call] in *.
  - exact I.
  - apply Hh.
  - destruct Hp as [Hc Hk]. split; [exact Hc | intros r; apply IH, Hk].
Qed.

Lemma every_call_call (P : Call -> Prop) (c : Call) : P c -> every_call P (call c).
Proof.
  intros Hc. cbn [call every_call]. split; [exact Hc | intros [e | v]; exact I].
Qed.

(** ** Reading arguments *)

(** [str] of an [int] can be read back, so distinct integers print
    differently. *)
Lemma str_of_Z_parses (z : Z) : NilZero.int_of_string (str_of_Z z) = Some (Z.to_int z).
Proof.
  unfold str_of_Z. apply NilZero.isi; destruct z; cbn; try discriminate;
    intros [= Hnil]; exact (Unsigned.to_uint_nonnil p Hnil).
Qed.

Lemma str_of_Z_inj (a b : Z) : str_of_Z a = str_of_Z b -> a = b.
Proof.
  intros H. apply DecimalZ.to_int_inj.
  pose proof (str_of_Z_parses a) as Ha. rewrite H, str_of_Z_parses in Ha. congruence.
Qed.

Lemma str_of_Z_nonempty (z : Z) : str_of_Z z <> EmptyString.
Proof.
  intros H. pose proof (str_of_Z_parses z) as Hp. rewrite H in Hp. discriminate Hp.
Qed.

Lemma append_nil_r (a : string) : a ++ EmptyString = a.
Proof.
  induction a as [| x a IH]; [reflexivity |].
  change (String x a ++ EmptyString) with (String x (a ++ EmptyString)).
  rewrite IH. reflexivity.
Qed.

Lemma rev_onto_twice (s acc acc' : string) :
  rev_onto (rev_onto s acc) acc' = rev_onto acc (s ++ acc').
Proof.
  revert acc acc'. induction s as [| c r IH]; intros acc acc'; [reflexivity |].
  cbn [rev_onto]. rewrite IH. reflexivity.
Qed.

Lemma reverse_involutive (s : string) : reverse (reverse s) = s.
Proof. unfold reverse. rewrite rev_onto_twice. cbn [rev_onto]. apply append_nil_r. Qed.

Lemma every_char_rev_onto (P : ascii -> bool) (s acc : string) :
  every_char P (rev_onto s acc) = every_char P s && every_char P acc.
Proof.
  revert acc. induction s as [| c r IH]; intros acc; [reflexivity |].
  cbn [rev_onto every_char]. rewrite IH. cbn [every_char].
  destruct (P c), (every_char P r); reflexivity.
Qed.

Lemma lstrip_by_clean (space : ascii -> bool) (s : string) :
  every_char (fun c => negb (space c)) s = true -> lstrip_by space s = s.
Proof.
  destruct s as [| c r]; [reflexivity |]. cbn [every_char lstrip_by].
  destruct (space c); [discriminate | reflexivity].
Qed.

(** A string without white space is its own [strip()], and one word. *)
Lemma strip_by_clean (space : ascii -> bool) (s : string) :
  every_char (fun c => negb (space c)) s = true -> strip_by space s = s.
Proof.
  intros H. unfold strip_by. rewrite (lstrip_by_clean space s H).
  rewrite lstrip_by_clean; [apply reverse_involutive |].
  unfold reverse. rewrite every_char_rev_onto, H. reflexivity.
Qed.

(** What a plain character is to the reader of words. *)
Lemma plain_char_spec (c : ascii) (r : string) :
  plain_char c = true ->
  is_space c = false /\ Ascii.eqb c "092" = false /\
  mark_at all_quotes (String c r) = None /\
  List.find (fun q => startswith (String c r) (fst q)) quotes = None.
Proof.
  destruct c as [[] [] [] [] [] [] [] []]; vm_compute; intros H;
    first [discriminate H | repeat split].
Qed.

Lemma read_word_plain (s : string) :
  every_char plain_char s = true -> read_word None 0 s = inr (s, EmptyString).
Proof.
  induction s as [| c r IH]; [reflexivity |]. cbn [every_char read_word].
  intros H. apply andb_true_iff in H as [Hc Hr].
  destruct (plain_char_spec c r Hc) as (-> & -> & -> & _).
  rewrite (IH Hr). reflexivity.
Qed.

(** A word of plain characters is read whole, and nothing is left. *)
Lemma get_quoted_word_plain (s : string) :
  every_char plain_char s = true -> get_quoted_word s = inr (s, EmptyString).
Proof.
  destruct s as [| c r]; [reflexivity |]. cbn [every_char]. intros H.
  apply andb_true_iff in H as [Hc Hr]. unfold get_quoted_word.
  destruct (plain_char_spec c r Hc) as (_ & _ & _ & ->).
  rewrite (read_word_plain r Hr). reflexivity.
Qed.

Lemma digit_is_plain (c : ascii) :
  digit_val c <> None ->
  plain_char c = true /\ negb (is_space c) = true /\ negb (is_c_space c) = true.
Proof.
  destruct c as [[] [] [] [] [] [] [] []]; vm_compute; intros H;
    first [repeat split; reflexivity | congruence].
Qed.

Lemma uint_digits (P : ascii -> bool) (d : Decimal.uint) :
  (forall c, digit_val c <> None -> P c = true) ->
  every_char P (NilEmpty.string_of_uint d) = true.
Proof.
  intros HP. induction d as [| d IH | d IH | d IH | d IH | d IH | d IH | d IH | d IH | d IH | d IH];
    cbn [NilEmpty.string_of_uint every_char]; [reflexivity | ..];
    rewrite IH, HP; first [reflexivity | vm_compute; discriminate].
Qed.

Lemma str_of_Z_digits (P : ascii -> bool) (z : Z) :
  (forall c, digit_val c <> None -> P c = true) -> P "-"%char = true ->
  every_char P (str_of_Z z) = true.
Proof.
  intros HP Hminus. unfold str_of_Z.
  assert (forall d, every_char P (NilZero.string_of_uint d) = true) as Hd.
  { intros d. pose proof (uint_digits P d HP) as H. destruct d; try exact H.
    cbn [NilZero.string_of_uint every_char]. rewrite HP; [reflexivity |].
    vm_compute. discriminate. }
  destruct z as [| p | p]; cbn [Z.to_int NilZero.string_of_int every_char].
  - apply Hd.
  - apply Hd.
  - rewrite Hminus. apply Hd.
Qed.

(** [int] accumulates the digits as [Pos.of_uint_acc] does. *)
Lemma int_digits_acc (d : Decimal.uint) (acc : positive) :
  int_digits (NilEmpty.string_of_uint d) (Z.pos acc) AfterDigit =
  Some (Z.pos (Pos.of_uint_acc d acc)).
Proof.
  revert acc.
  induction d as [| d IH | d IH | d IH | d IH | d IH | d IH | d IH | d IH | d IH | d IH];
    intros acc; cbn [NilEmpty.string_of_uint int_digits Pos.of_uint_acc];
    [reflexivity | ..];
    match goal with
    | |- context [digit_val ?c] =>
        let v := eval vm_compute in (digit_val c) in change (digit_val c) with v
    end; cbv iota; rewrite <- IH; f_equal; lia.
Qed.

Lemma int_digits_uint (d : Decimal.uint) (prev : scan_state) :
  d <> Decimal.Nil \/ prev = AfterDigit ->
  int_digits (NilEmpty.string_of_uint d) 0 prev = Some (Z.of_N (Pos.of_uint d)).
Proof.
  revert prev.
  induction d as [| d IH | d IH | d IH | d IH | d IH | d IH | d IH | d IH | d IH | d IH];
    intros prev Hstart; cbn [NilEmpty.string_of_uint int_digits Pos.of_uint].
  - destruct Hstart as [H | ->]; [congruence | reflexivity].
  - change (digit_val "0") with (Some 0). cbv iota.
    change (10 * 0 + 0) with 0. apply IH. right. reflexivity.
  - change (digit_val "1") with (Some 1). cbv iota. apply (int_digits_acc d 1).
  - change (digit_val "2") with (Some 2). cbv iota. apply (int_digits_acc d 2).
  - change (digit_val "3") with (Some 3). cbv iota. apply (int_digits_acc d 3).
  - change (digit_val "4") with (Some 4). cbv iota. apply (int_digits_acc d 4).
  - change (digit_val "5") with (Some 5). cbv iota. apply (int_digits_acc d 5).
  - change (digit_val "6") with (Some 6). cbv iota. apply (int_digits_acc d 6).
  - change (digit_val "7") with (Some 7). cbv iota. apply (int_digits_acc d 7).
  - change (digit_val "8") with (Some 8). cbv iota. apply (int_digits_acc d 8).
  - change (digit_val "9") with (Some 9). cbv iota. apply (int_digits_acc d 9).
Qed.

Lemma int_of_positive (p : positive) :
  int_digits (NilEmpty.string_of_uint (Pos.to_uint p)) 0 AtStart = Some (Z.pos p).
Proof.
  rewrite int_digits_uint by (left; apply Unsigned.to_uint_nonnil).
  rewrite Unsigned.of_to. reflexivity.
Qed.

Lemma int_str_of_Z (z : Z) : int (str_of_Z z) = Some z.
Proof.
  unfold int. rewrite strip_by_clean
    by (apply str_of_Z_digits; [apply digit_is_plain | reflexivity]).
  destruct z as [| p | p]; [reflexivity | |].
  - pose proof (int_of_positive p) as Hp. pose proof (Unsigned.to_uint_nonnil p) as Hnil.
    unfold str_of_Z. cbn [Z.to_int NilZero.string_of_int].
    destruct (Pos.to_uint p); [congruence | ..]; exact Hp.
  - pose proof (int_of_positive p) as Hp. pose proof (Unsigned.to_uint_nonnil p) as Hnil.
    unfold str_of_Z. cbn [Z.to_int NilZero.string_of_int].
    replace (NilZero.string_of_uint (Pos.to_uint p))
      with (NilEmpty.string_of_uint (Pos.to_uint p))
      by (destruct (Pos.to_uint p); [congruence | reflexivity ..]).
    cbv iota. rewrite Hp. reflexivity.
Qed.

Lemma positional_word {T} (name : string) (conv : Converter T) (default : option T)
    (ctx : Context) (view : string) :
  lstrip view <> EmptyString ->
  positional name conv default ctx view =
  match get_quoted_word (lstrip view) with
  | inl e => inl e
  | inr (argument, rest) =>
      match conv ctx argument with
      | inl e => inl e
      | inr x => inr (x, rest)
      end
  end.
Proof.
  intros Hview. unfold positional.
  destruct (lstrip view) as [| c r]; [congruence | reflexivity].
Qed.

(** A first word that [int] reads is the integer the handler gets. *)
Lemma positional_int (name : string) (default : option Z) (ctx : Context)
    (view word rest : string) (n : Z) :
  lstrip view <> EmptyString ->
  get_quoted_word (lstrip view) = inr (word, rest) ->
  int word = Some n ->
  positional name to_int default ctx view = inr (n, rest).
Proof.
  intros Hview Hword Hint. rewrite (positional_word _ _ _ _ _ Hview), Hword.
  unfold to_int. rewrite Hint. reflexivity.
Qed.

Lemma str_of_Z_plain (z : Z) : every_char plain_char (str_of_Z z) = true.
Proof. apply str_of_Z_digits; [apply digit_is_plain | reflexivity]. Qed.

Lemma positional_of_number {T} (name : string) (conv : Converter T) (default : option T)
    (ctx : Context) (z : Z) :
  positional name conv default ctx (str_of_Z z) =
  match conv ctx (str_of_Z z) with
  | inl e => inl e
  | inr x => inr (x, EmptyString)
  end.
Proof.
  assert (lstrip (str_of_Z z) = str_of_Z z) as Hstrip.
  { apply lstrip_by_clean, str_of_Z_digits; [apply digit_is_plain | reflexivity]. }
  rewrite positional_word; rewrite Hstrip; [| apply str_of_Z_nonempty].
  rewrite (get_quoted_word_plain _ (str_of_Z_plain z)). reflexivity.
Qed.

(** The decimal text of an integer binds an [int] parameter to it. *)
Lemma positional_int_of_number (name : string) (default : option Z) (ctx : Context) (z : Z) :
  positional name to_int default ctx (str_of_Z z) = inr (z, EmptyString).
Proof. rewrite positional_of_number. unfold to_int. rewrite int_str_of_Z. reflexivity. Qed.

(** ** clear *)

(** C1. [clear(amount)]: outside 1..200 the only request is the rejection
    reply and nothing is deleted; inside, the first request is a purge with
    [limit = amount + 1] and, once the purge has returned, the only other
    request is the "Deleted N messages." notice with [delete_after=5].
    The registered command runs this handler with the integer the message
    gives: with the [amount] that [int] reads from the first word, with
    any [amount] written in decimal, and with 10 when the message holds
    no argument, under each of the three names. *)
Theorem clear_range_and_purge (W : World) (s : state W) (ctx : Context) (amount : Z) :
  let run := exec W (App.clear ctx amount) s in
  let purge := channel_purge (ctx_channel ctx) (amount + 1) in
  (amount < 1 \/ amount > 200 ->
     requests run = [clear_rejection] /\ List.filter is_deletion (requests run) = []) /\
  (1 <= amount <= 200 ->
     match fst (respond W purge s) with
     | inr deleted => requests run = [purge; clear_notice ctx deleted]
     | inl e => requests run = [purge] /\ outcome run = Raised e
     end) /\
  (forall view word rest,
     ascii_only view = true -> lstrip view <> EmptyString ->
     get_quoted_word (lstrip view) = inr (word, rest) ->
     (String.length word <= int_max_str_digits)%nat ->
     int word = Some amount ->
     cmd_bind App.clear_command ctx view = inr (App.clear ctx amount)) /\
  ((String.length (str_of_Z amount) <= int_max_str_digits)%nat ->
     cmd_bind App.clear_command ctx (str_of_Z amount) = inr (App.clear ctx amount)) /\
  (forall view, lstrip view = EmptyString ->
     cmd_bind App.clear_command ctx view = inr (App.clear ctx 10)) /\
  cmd_bind App.clear_command ctx EmptyString = inr (App.clear ctx 10) /\
  (forall cfg bot empty name,
     In name ["clear"; "purge"; "clean"] ->
     all_commands (App.commands cfg bot empty) !! name = Some App.clear_command).
Proof.
  cbn zeta. split; [| split; [| split; [| split; [| split; [| split]]]]].
  - intros Hout. unfold App.clear.
    replace ((amount <? 1) || (amount >? 200)) with true by lia.
    rewrite (requests_call W clear_rejection). split; reflexivity.
  - intros Hin. unfold App.clear.
    replace ((amount <? 1) || (amount >? 200)) with false by lia.
    rewrite exec_await.
    destruct (respond W (channel_purge (ctx_channel ctx) (amount + 1)) s)
      as [[e | deleted] s']; cbn [fst requests outcome].
    + split; reflexivity.
    + rewrite (requests_call W (clear_notice ctx deleted)). reflexivity.
  - intros view word rest _ Hview Hword _ Hint. cbn [cmd_bind App.clear_command].
    rewrite (positional_int _ _ ctx view word rest amount Hview Hword Hint). reflexivity.
  - intros _. cbn [cmd_bind App.clear_command].
    rewrite positional_int_of_number. reflexivity.
  - intros view Hview. cbn [cmd_bind App.clear_command]. unfold positional.
    rewrite Hview. reflexivity.
  - reflexivity.
  - intros cfg bot empty name Hname. cbn [In] in Hname.
    destruct Hname as [<- | [<- | [<- | []]]]; reflexivity.
Qed.

Lemma clear_range_and_purge_witness :
  requests (exec Platform.world (App.clear Sample.ctx 0) Sample.busy) = [clear_rejection] /\
  requests (exec Platform.world (App.clear Sample.ctx 2) Sample.busy) =
    [channel_purge Sample.general 3;
     channel_send Sample.general "Deleted 2 messages." (Some 5)] /\
  cmd_bind App.clear_command Sample.ctx " +50 messages" = inr (App.clear Sample.ctx 50) /\
  cmd_bind App.clear_command Sample.ctx (dquote ++ "2" ++ dquote) =
    inr (App.clear Sample.ctx 2) /\
  cmd_bind App.clear_command Sample.ctx "201" = inr (App.clear Sample.ctx 201) /\
  cmd_bind App.clear_command Sample.ctx "   " = inr (App.clear Sample.ctx 10) /\
  all_commands (App.commands Sample.cfg Sample.bot (inr tt)) !! "purge" =
    Some App.clear_command.
Proof.
  pose proof (clear_range_and_purge Platform.world Sample.busy Sample.ctx) as T.
  split; [| split; [| split; [| split; [| split; [| split]]]]].
  - apply (proj1 (T 0)). left. lia.
  - apply (proj1 (proj2 (T 2))). lia.
  - apply (proj1 (proj2 (proj2 (T 50))) " +50 messages" "+50" " messages");
      first [reflexivity | discriminate | vm_compute; lia].
  - apply (proj1 (proj2 (proj2 (T 2))) (dquote ++ "2" ++ dquote) "2" EmptyString);
      first [reflexivity | discriminate | vm_compute; lia].
  - apply (proj1 (proj2 (proj2 (proj2 (T 201))))). vm_compute. lia.
  - apply (proj1 (proj2 (proj2 (proj2 (proj2 (T 2))))) "   "). reflexivity.
  - apply (proj2 (proj2 (proj2 (proj2 (proj2 (proj2 (T 2))))))).
    right. left. reflexivity.
Defined.

(** ** roll *)

Lemma randint_outcomes_spec (a b r : Z) : In r (randint_outcomes a b) <-> a <= r <= b.
Proof.
  unfold randint_outcomes. rewrite in_map_iff. split.
  - intros [i [<- Hi]]. apply in_seq in Hi. lia.
  - intros Hr. exists (Z.to_nat (r - a)). split; [lia |]. apply in_seq. lia.
Qed.

Lemma randint_outcomes_NoDup (a b : Z) : List.NoDup (randint_outcomes a b).
Proof.
  unfold randint_outcomes. apply Injective_map_NoDup.
  - intros i j Hij. lia.
  - apply seq_NoDup.
Qed.

Lemma randint_outcomes_length (a b : Z) : a <= b -> len (randint_outcomes a b) = b - a + 1.
Proof.
  intros Hab. unfold len, randint_outcomes. rewrite length_map, length_seq. lia.
Qed.

Lemma length_append (a b : string) :
  String.length (a ++ b) = (String.length a + String.length b)%nat.
Proof.
  induction a as [| c a IH]; [reflexivity |].
  change (String c a ++ b) with (String c (a ++ b)). cbn [String.length].
  rewrite IH. reflexivity.
Qed.

Lemma append_inv_tail (a b c : string) : a ++ c = b ++ c -> a = b.
Proof.
  revert b. induction a as [| x a IH]; intros [| y b] H.
  - reflexivity.
  - apply (f_equal String.length) in H. rewrite !length_append in H.
    cbn [String.length] in H. lia.
  - apply (f_equal String.length) in H. rewrite !length_append in H.
    cbn [String.length] in H. lia.
  - change (String x (a ++ c) = String y (b ++ c)) in H.
    injection H as -> H. rewrite (IH b H). reflexivity.
Qed.

Lemma roll_text_inj (sides r1 r2 : Z) :
  App.roll_text sides r1 = App.roll_text sides r2 -> r1 = r2.
Proof.
  unfold App.roll_text. intros H.
  apply (inj (String.append "🎲 d")) in H.
  apply (inj (String.append (str_of_Z sides))) in H.
  apply (inj (String.append " -> **")) in H.
  apply append_inv_tail in H. apply str_of_Z_inj, H.
Qed.

(** The reference platform keeps [random.randint] inside its range. *)
Lemma platform_honours_randint : honours_randint Platform.world.
Proof.
  intros a b s Hab. cbn [respond Platform.world Platform.answer].
  replace (b <? a) with false by lia.
  destruct (Platform.next_entropy s) as [x s']. cbn [fst].
  exists (a + x mod (b - a + 1)). split; [reflexivity |].
  apply randint_outcomes_spec.
  pose proof (Z.mod_pos_bound x (b - a + 1)). lia.
Qed.



(** ** on_command_error *)

Lemma hook_requests_are_replies_or_log (ctx : Context) (e : Error) :
  every_call (fun c => is_reply_or_log c = true /\
                       (forall msg exc_info, c = logger_exception msg exc_info ->
                          msg = "Unhandled command error" /\ exc_info = None))
             (App.on_command_error ctx e).
Proof.
  assert (forall text, is_reply_or_log (ctx_reply (Text text) false) = true /\
            (forall msg exc_info,
               ctx_reply (Text text) false = logger_exception msg exc_info ->
               msg = "Unhandled command error" /\ exc_info = None)) as Hreply
    by (intros text; split; [reflexivity | discriminate]).
  unfold App.on_command_error.
  repeat match goal with
         | |- context [if ?b then _ else _] => destruct b
         | |- context [match ?o with Some _ => _ | None => _ end] => destruct o
         end;
    try (apply every_call_call, Hreply); try exact I.
  all: cbn [bind call every_call]; split;
    [ split; [reflexivity | intros msg info [= <- <-]; split; reflexivity]
    | intros [err | []]; [exact I |];
      split; [apply Hreply | intros [err | []]; exact I] ].
Qed.

(** C3. The error hook, by error kind: one fixed reply for a missing caller
    permission, a missing bot permission, a missing required argument (with
    its name) and a malformed argument; nothing for an unknown command; for
    anything else one [logger.exception] record followed by the generic
    reply.  That record is not a log of the error: the call is made outside
    every [except] block and [error] is not passed, so the record carries
    the fixed message with no exception attached, and the run of the hook
    is the same for any two such errors.  An error wrapped by the dispatcher
    is answered as the error it wraps.  The hook only replies or logs (it
    invokes nothing again and mutates nothing), and a command whose required
    argument is missing ends in the "Missing argument" reply alone. *)
Theorem on_command_error_table (W : World) (s : state W) (ctx : Context) (e : Error) :
  let hook e := exec W (App.on_command_error ctx e) s in
  (isinstance e MissingPermissions = true -> requests (hook e) = [no_permission]) /\
  (isinstance e BotMissingPermissions = true -> requests (hook e) = [bot_no_permission]) /\
  (isinstance e MissingRequiredArgument = true ->
     requests (hook e) = [missing_argument (param_name_of e)]) /\
  (isinstance e BadArgument = true -> requests (hook e) = [bad_argument]) /\
  (isinstance e CommandNotFound = true -> requests (hook e) = []) /\
  (unclassified e ->
     match fst (respond W full_log s) with
     | inr _ => requests (hook e) = [full_log; unexpected_error]
     | inl _ => requests (hook e) = [full_log]
     end /\
     (forall e', unclassified e' -> hook e' = hook e)) /\
  (isinstance e CommandInvokeError = false ->
     hook (command_invoke_error e) = hook e) /\
  Forall (fun c => is_reply_or_log c = true /\ is_mutation c = false /\
                   (forall msg exc_info, c = logger_exception msg exc_info ->
                      msg = "Unhandled command error" /\ exc_info = None))
         (requests (hook e)) /\
  (forall cfg bot empty name view cmd param,
     all_commands (App.commands cfg bot empty) !! name = Some cmd ->
     missing_permissions ctx cmd = [] ->
     cmd_bind cmd ctx view = inl (missing_required_argument param) ->
     requests (exec W (App.handle cfg bot empty ctx name view) s) =
       [missing_argument param]) /\
  cmd_bind App.ban_command ctx EmptyString = inl (missing_required_argument "member").
Proof.
  cbn zeta.
  split; [| split; [| split; [| split; [| split; [| split; [| split; [| split; [| split]]]]]]]].
  - destruct e as [c n o]. destruct c; try discriminate; intros _.
    apply (requests_call W no_permission).
  - destruct e as [c n o]. destruct c; try discriminate; intros _.
    apply (requests_call W bot_no_permission).
  - destruct e as [c n o]. destruct c; try discriminate; intros _.
    apply (requests_call W (missing_argument n)).
  - destruct e as [c n o]. destruct c; try discriminate; intros _;
      apply (requests_call W bad_argument).
  - destruct e as [c n o]. destruct c; try discriminate; intros _. reflexivity.
  - intros (Hwrap & Hperm & Hbot & Hmiss & Hbad & Hunknown). split.
    + unfold App.on_command_error. rewrite Hwrap, Hperm, Hbot, Hmiss, Hbad, Hunknown.
      rewrite exec_await. unfold full_log.
      destruct (respond W (logger_exception "Unhandled command error" None) s)
        as [[e' | v] s']; cbn [fst requests].
      * reflexivity.
      * rewrite (requests_call W unexpected_error). reflexivity.
    + intros e' (Hwrap' & Hperm' & Hbot' & Hmiss' & Hbad' & Hunknown').
      unfold App.on_command_error.
      rewrite Hwrap, Hperm, Hbot, Hmiss, Hbad, Hunknown.
      rewrite Hwrap', Hperm', Hbot', Hmiss', Hbad', Hunknown'. reflexivity.
  - intros Hwrap. unfold App.on_command_error at 1.
    change (isinstance (command_invoke_error e) CommandInvokeError) with true.
    cbn [command_invoke_error original_of].
    unfold App.on_command_error. rewrite Hwrap. reflexivity.
  - pose proof (every_call_requests W _ _ (hook_requests_are_replies_or_log ctx e) s) as H.
    eapply List.Forall_impl; [| exact H]. cbn beta. intros c [Hc Hlog].
    split; [exact Hc |]. split; [| exact Hlog].
    destruct c; try discriminate; reflexivity.
  - intros cfg bot empty name view cmd param Hcmd Hperm Hbind.
    unfold App.handle, bot_invoke. rewrite Hcmd.
    unfold command_invoke. rewrite Hperm, Hbind. cbn [catch].
    change (isinstance (missing_required_argument param) CommandError) with true.
    cbn iota. apply (requests_call W (missing_argument param)).
  - reflexivity.
Qed.

Lemma on_command_error_table_witness :
  let hook e := requests (exec Platform.world (App.on_command_error Sample.ctx e) Sample.busy) in
  hook (exc MissingPermissions) = [no_permission] /\
  hook (exc BotMissingPermissions) = [bot_no_permission] /\
  hook (missing_required_argument "member") = [missing_argument "member"] /\
  hook (exc MemberNotFound) = [bad_argument] /\
  hook (exc CommandNotFound) = [] /\
  hook (exc Forbidden) =
    [logger_exception "Unhandled command error" None; unexpected_error] /\
  hook (exc AttributeError) = hook (exc Forbidden) /\
  hook (command_invoke_error (exc Forbidden)) = hook (exc Forbidden) /\
  requests (exec Platform.world
              (App.handle Sample.cfg Sample.bot (inr tt) Sample.ctx "ban" EmptyString)
              Sample.busy) = [missing_argument "member"].
Proof.
  cbn zeta.
  pose proof (on_command_error_table Platform.world Sample.busy Sample.ctx) as T.
  assert (unclassified (exc Forbidden)) as Hforbidden by (repeat split).
  assert (unclassified (exc AttributeError)) as Hattribute by (repeat split).
  split; [| split; [| split; [| split; [| split; [| split; [| split; [| split]]]]]]].
  - apply (proj1 (T (exc MissingPermissions))). reflexivity.
  - apply (proj1 (proj2 (T (exc BotMissingPermissions)))). reflexivity.
  - apply (proj1 (proj2 (proj2 (T (missing_required_argument "member"))))). reflexivity.
  - apply (proj1 (proj2 (proj2 (proj2 (T (exc MemberNotFound)))))). reflexivity.
  - apply (proj1 (proj2 (proj2 (proj2 (proj2 (T (exc CommandNotFound))))))). reflexivity.
  - exact (proj1 (proj1 (proj2 (proj2 (proj2 (proj2 (proj2 (T (exc Forbidden)))))))
                    Hforbidden)).
  - exact (f_equal requests
             (proj2 (proj1 (proj2 (proj2 (proj2 (proj2 (proj2 (T (exc Forbidden)))))))
                       Hforbidden) (exc AttributeError) Hattribute)).
  - exact (f_equal requests
             (proj1 (proj2 (proj2 (proj2 (proj2 (proj2 (proj2 (T (exc Forbidden))))))))
                eq_refl)).
  - apply (proj1 (proj2 (proj2 (proj2 (proj2 (proj2 (proj2 (proj2 (proj2
             (T (exc Forbidden)))))))))) Sample.cfg Sample.bot (inr tt) "ban" EmptyString
             App.ban_command "member"); reflexivity.
Defined.

(** ** Configuration and start-up *)

Lemma truthy_nonempty (v : string) : v <> EmptyString -> truthy v = true.
Proof. destruct v; [congruence | reflexivity]. Qed.

Lemma load_config_fields (int : string -> option Z) (environ : gmap string string)
    (cfg : App.Config) :
  App.load_config int environ = inr cfg ->
  App.PREFIX cfg = App.getenv_or environ "PREFIX" "!" /\
  App.WELCOME_CHANNEL cfg = App.getenv_or environ "WELCOME_CHANNEL" "general" /\
  App.TOKEN cfg = environ !! "DISCORD_TOKEN".
Proof.
  unfold App.load_config.
  destruct (App.truthy_opt (App.getenv environ "OWNER_ID"));
    [destruct (int (App.getenv_or environ "OWNER_ID" "0")) |];
    intros H; inversion H; subst; cbn; auto.
Qed.

(** C5, as stated, fails: with [DISCORD_TOKEN] set to the empty string the
    bot is not started with that token, although loading succeeded; and
    with a proper token and an [OWNER_ID] that is no integer the process
    ends while loading, before the token is looked at. *)
Lemma token_set_but_bot_not_started :
  ~ (forall (environ : gmap string string) (token : string) (cfg : App.Config),
       App.load_config int environ = inr cfg ->
       environ !! "DISCORD_TOKEN" = Some token ->
       requests (exec Platform.world (App.main int environ) Sample.busy) =
         [bot_run token]) /\
  ~ (forall (environ : gmap string string) (token : string),
       environ !! "DISCORD_TOKEN" = Some token -> token <> EmptyString ->
       requests (exec Platform.world (App.main int environ) Sample.busy) =
         [bot_run token]).
Proof.
  split; intros H.
  - specialize (H (<["DISCORD_TOKEN" := EmptyString]> ∅) EmptyString _ eq_refl eq_refl).
    vm_compute in H. discriminate H.
  - specialize (H Sample.bad_owner "secret" eq_refl).
    assert ("secret" <> EmptyString) as Hne by discriminate.
    specialize (H Hne). vm_compute in H. discriminate H.
Qed.

(** C5, amended. Whenever loading succeeds the prefix is [PREFIX] or ["!"],
    the welcome channel is [WELCOME_CHANNEL] or ["general"]; the owner id is
    absent when [OWNER_ID] is unset or empty and is its integer value when
    that is an integer literal.  After a successful load, a [DISCORD_TOKEN]
    that is unset or empty makes the process log and print the error
    message and never start the bot; a non-empty one starts the bot with
    that token. *)
Theorem config_defaults_and_token (int : string -> option Z)
    (environ : gmap string string) (W : World) (s : state W) :
  let run := exec W (App.main int environ) s in
  (forall cfg, App.load_config int environ = inr cfg ->
     App.PREFIX cfg = match environ !! "PREFIX" with Some v => v | None => "!" end /\
     App.WELCOME_CHANNEL cfg =
       match environ !! "WELCOME_CHANNEL" with Some v => v | None => "general" end) /\
  (environ !! "OWNER_ID" = None \/ environ !! "OWNER_ID" = Some EmptyString ->
     exists cfg, App.load_config int environ = inr cfg /\ App.OWNER_ID cfg = None) /\
  (forall v n, environ !! "OWNER_ID" = Some v -> v <> EmptyString -> int v = Some n ->
     exists cfg, App.load_config int environ = inr cfg /\ App.OWNER_ID cfg = Some n) /\
  (forall cfg, App.load_config int environ = inr cfg ->
     environ !! "DISCORD_TOKEN" = None \/ environ !! "DISCORD_TOKEN" = Some EmptyString ->
     List.filter starts_bot (requests run) = [] /\
     match fst (respond W token_error_logged s) with
     | inr _ => requests run = [token_error_logged; token_error_printed]
     | inl _ => requests run = [token_error_logged]
     end) /\
  (forall cfg token, App.load_config int environ = inr cfg ->
     environ !! "DISCORD_TOKEN" = Some token -> token <> EmptyString ->
     requests run = [bot_run token]).
Proof.
  cbn zeta. split; [| split; [| split; [| split]]].
  - intros cfg Hload. apply load_config_fields in Hload as (Hp & Hw & _).
    split; assumption.
  - intros Howner. unfold App.load_config, App.getenv.
    destruct Howner as [-> | ->]; cbn [App.truthy_opt truthy]; eexists; split; reflexivity.
  - intros v n Hv Hne Hint. unfold App.load_config, App.getenv, App.getenv_or.
    rewrite Hv. cbn [App.truthy_opt]. rewrite (truthy_nonempty v Hne), Hint.
    eexists; split; reflexivity.
  - intros cfg Hload Htoken. unfold App.main. rewrite Hload.
    apply load_config_fields in Hload as (_ & _ & Ht).
    unfold App.run_bot. rewrite Ht.
    replace (App.truthy_opt (environ !! "DISCORD_TOKEN")) with false
      by (destruct Htoken as [-> | ->]; reflexivity).
    cbn [negb]. rewrite exec_await. unfold token_error_logged.
    destruct (respond W (logger_error App.token_not_set) s) as [[e | v] s'];
      cbn [fst requests].
    + split; reflexivity.
    + rewrite (requests_call W token_error_printed). split; reflexivity.
  - intros cfg token Hload Htoken Hne. unfold App.main. rewrite Hload.
    apply load_config_fields in Hload as (_ & _ & Ht).
    unfold App.run_bot. rewrite Ht, Htoken. cbn [App.truthy_opt].
    rewrite (truthy_nonempty token Hne). cbn [negb].
    apply (requests_call W (bot_run token)).
Qed.

Lemma config_defaults_and_token_witness :
  (exists cfg, App.load_config int Sample.configured = inr cfg /\
               App.PREFIX cfg = "?" /\ App.WELCOME_CHANNEL cfg = "general") /\
  (exists cfg, App.load_config int Sample.bare = inr cfg /\ App.OWNER_ID cfg = None) /\
  (exists cfg, App.load_config int Sample.configured = inr cfg /\
               App.OWNER_ID cfg = Some 42) /\
  requests (exec Platform.world (App.main int Sample.bare) Sample.busy) =
    [token_error_logged; token_error_printed] /\
  requests (exec Platform.world (App.main int Sample.configured) Sample.busy) =
    [bot_run "secret"].
Proof.
  pose proof (config_defaults_and_token int Sample.bare Platform.world Sample.busy) as B.
  pose proof (config_defaults_and_token int Sample.configured Platform.world Sample.busy)
    as C.
  split; [| split; [| split; [| split]]].
  - eexists. split; [reflexivity |]. apply (proj1 C). reflexivity.
  - apply (proj1 (proj2 B)). left. reflexivity.
  - apply (proj1 (proj2 (proj2 C)) "42" 42); [reflexivity | discriminate | reflexivity].
  - eapply (proj1 (proj2 (proj2 (proj2 B)))); [reflexivity | left; reflexivity].
  - eapply (proj2 (proj2 (proj2 (proj2 C)))); [reflexivity | reflexivity | discriminate].
Defined.

(** C10, as stated, fails: [OWNER_ID] set to the empty string is set to
    something that is no integer literal, and loading does not raise. *)
Lemma empty_owner_id_loads :
  ~ (forall (environ : gmap string string) (v : string),
       environ !! "OWNER_ID" = Some v -> int v = None ->
       exists e, App.load_config int environ = inl e).
Proof.
  intros H. destruct (H Sample.empty_owner EmptyString eq_refl eq_refl) as [e He].
  vm_compute in He. discriminate He.
Qed.

(** C10, amended. With [OWNER_ID] set to a non-empty string that [int]
    refuses, loading the module raises [ValueError] and the process ends
    there, before any request: the bot is never started.  With [OWNER_ID]
    unset, or set to the empty string, the loaded owner id is [None]. *)
Theorem owner_id_not_an_integer (int : string -> option Z)
    (environ : gmap string string) (W : World) (s : state W) :
  (forall v, environ !! "OWNER_ID" = Some v -> v <> EmptyString -> int v = None ->
     App.load_config int environ = inl (exc ValueError) /\
     requests (exec W (App.main int environ) s) = [] /\
     outcome (exec W (App.main int environ) s) = Raised (exc ValueError)) /\
  (environ !! "OWNER_ID" = None \/ environ !! "OWNER_ID" = Some EmptyString ->
     exists cfg, App.load_config int environ = inr cfg /\ App.OWNER_ID cfg = None).
Proof.
  split.
  - intros v Hv Hne Hint.
    assert (App.load_config int environ = inl (exc ValueError)) as Hload.
    { unfold App.load_config, App.getenv, App.getenv_or. rewrite Hv.
      cbn [App.truthy_opt]. rewrite (truthy_nonempty v Hne), Hint. reflexivity. }
    split; [exact Hload |]. unfold App.main. rewrite Hload. split; reflexivity.
  - intros Hv. unfold App.load_config, App.getenv.
    destruct Hv as [-> | ->]; cbn [App.truthy_opt truthy]; eexists; split; reflexivity.
Qed.

Lemma owner_id_not_an_integer_witness :
  App.load_config int Sample.bad_owner = inl (exc ValueError) /\
  requests (exec Platform.world (App.main int Sample.bad_owner) Sample.busy) = [] /\
  (exists cfg, App.load_config int Sample.bare = inr cfg /\ App.OWNER_ID cfg = None).
Proof.
  pose proof (owner_id_not_an_integer int Sample.bad_owner Platform.world Sample.busy) as B.
  split; [| split].
  - apply (proj1 B "abc"); [reflexivity | discriminate | reflexivity].
  - apply (proj1 B "abc"); [reflexivity | discriminate | reflexivity].
  - apply (proj2 (owner_id_not_an_integer int Sample.bare Platform.world Sample.busy)).
    left. reflexivity.
Defined.

(** ** say *)

(** C6. [say(message)] first asks to delete the invoking message; whether
    that succeeds or fails with any [Exception], the next and last request
    posts [message] unchanged with [ctx.send], and the handler returns once
    the post has gone through.  For a caller holding Manage Messages the
    dispatcher runs exactly this body on the text after the command name,
    and a run that returns is the run of the whole invocation. *)
Theorem say_deletes_then_echoes (W : World) (s : state W) (ctx : Context)
    (message : string) :
  let run := exec W (App.say ctx message) s in
  (forall v s', respond W message_delete s = (inr v, s') ->
     requests run = [message_delete; ctx_send message] /\
     (fst (respond W (ctx_send message) s') = inr tt -> outcome run = Returned tt)) /\
  (forall e s', respond W message_delete s = (inl e, s') ->
     isinstance e Exception = true ->
     requests run = [message_delete; ctx_send message] /\
     (fst (respond W (ctx_send message) s') = inr tt -> outcome run = Returned tt)) /\
  (forall view, In manage_messages (ctx_permissions ctx) -> lstrip view <> EmptyString ->
     command_invoke App.say_command ctx view =
       wrap_callback (App.say ctx (strip (lstrip view)))) /\
  (forall cfg bot empty view,
     In manage_messages (ctx_permissions ctx) -> lstrip view <> EmptyString ->
     outcome (exec W (App.say ctx (strip (lstrip view))) s) = Returned tt ->
     exec W (App.handle cfg bot empty ctx "say" view) s =
       exec W (App.say ctx (strip (lstrip view))) s).
Proof.
  assert (forall view, In manage_messages (ctx_permissions ctx) ->
            lstrip view <> EmptyString ->
            command_invoke App.say_command ctx view =
              wrap_callback (App.say ctx (strip (lstrip view)))) as Hinvoke.
  { intros view Hperm Hview. unfold command_invoke, missing_permissions.
    cbn [App.say_command cmd_requires List.filter].
    rewrite bool_decide_eq_true_2 by (apply list_elem_of_In; exact Hperm).
    cbn [negb App.say_command cmd_bind]. unfold keyword_only.
    destruct (lstrip view) as [| c r]; [congruence | reflexivity]. }
  cbn zeta. split; [| split; [| split; [exact Hinvoke |]]]; cycle 2.
  { intros cfg bot empty view Hperm Hview Hret. unfold App.handle, bot_invoke.
    change (all_commands (App.commands cfg bot empty) !! "say") with (Some App.say_command).
    cbv beta iota. rewrite (Hinvoke view Hperm Hview). unfold wrap_callback.
    rewrite (exec_catch_returned W _ _ s tt);
      rewrite (exec_catch_returned W _ _ s tt Hret); [reflexivity | exact Hret]. }
  - intros v s' Hdel. unfold App.say, try_except_Exception.
    cbn [call catch bind exec]. rewrite Hdel. cbn [catch bind exec requests outcome].
    unfold call. cbn [exec].
    destruct (respond W (ctx_send message) s') as [[e | u] s'']; cbn [fst requests outcome].
    + split; [reflexivity | discriminate].
    + split; [reflexivity |]. intros _. destruct u. reflexivity.
  - intros e s' Hdel Hexc. unfold App.say, try_except_Exception.
    cbn [call catch bind exec]. rewrite Hdel. cbn [catch]. rewrite Hexc.
    cbn [bind exec requests outcome].
    unfold call. cbn [exec].
    destruct (respond W (ctx_send message) s') as [[e' | u] s'']; cbn [fst requests outcome].
    + split; [reflexivity | discriminate].
    + split; [reflexivity |]. intros _. destruct u. reflexivity.
Qed.

Lemma say_deletes_then_echoes_witness :
  requests (exec Platform.world (App.say Sample.ctx "hello") Sample.busy) =
    [message_delete; ctx_send "hello"] /\
  requests (exec Platform.world (App.say Sample.ctx "hello") Sample.locked) =
    [message_delete; ctx_send "hello"] /\
  outcome (exec Platform.world (App.say Sample.ctx "hello") Sample.locked) = Returned tt /\
  command_invoke App.say_command Sample.ctx "  hello there " =
    wrap_callback (App.say Sample.ctx "hello there") /\
  requests (exec Platform.world
              (App.handle Sample.cfg Sample.bot (inr tt) Sample.ctx "say" " hello ")
              Sample.locked) = [message_delete; ctx_send "hello"].
Proof.
  pose proof (say_deletes_then_echoes Platform.world Sample.busy Sample.ctx "hello") as B.
  pose proof (say_deletes_then_echoes Platform.world Sample.locked Sample.ctx "hello") as L.
  split; [| split; [| split; [| split]]].
  - eapply (proj1 B). reflexivity.
  - eapply (proj1 (proj2 L)); reflexivity.
  - eapply (proj1 (proj2 L)); reflexivity.
  - apply (proj1 (proj2 (proj2 B)) "  hello there "); [left; reflexivity | discriminate].
  - rewrite (proj2 (proj2 (proj2 L)) Sample.cfg Sample.bot (inr tt) " hello ");
      [reflexivity | left; reflexivity | discriminate | reflexivity].
Defined.

(** ** on_member_join *)

Lemma startswith_app (pre s : string) : startswith (pre ++ s) pre = true.
Proof.
  induction pre as [| c pre IH]; simpl.
  - destruct s; reflexivity.
  - rewrite Ascii.eqb_refl. exact IH.
Qed.

Lemma contains_here (s sub : string) : startswith s sub = true -> contains s sub = true.
Proof. intros H. destruct s; cbn [contains]; rewrite H; reflexivity. Qed.

Lemma contains_app_r (a s sub : string) :
  contains s sub = true -> contains (a ++ s) sub = true.
Proof.
  intros H. induction a as [| c a IH]; simpl.
  - exact H.
  - rewrite IH. apply orb_true_r.
Qed.

Lemma contains_middle (a b c : string) : contains (a ++ b ++ c) b = true.
Proof. apply contains_app_r, contains_here, startswith_app. Qed.

(** C7. [on_member_join] looks the welcome channel up by exact name among
    the text channels of the guild joined.  When the channel found lets the
    bot send, the only request posts the greeting there, and the greeting
    mentions the new member; when it does not, or when no channel has that
    name, the only request is a debug log line: nothing a user sees. *)
Theorem member_join_greets (W : World) (s : state W) (cfg : App.Config)
    (member : Member) :
  let guild := member_guild member in
  let run := exec W (App.on_member_join cfg member) s in
  match App.utils_get (text_channels guild) (App.WELCOME_CHANNEL cfg) with
  | Some ch =>
      In ch (text_channels guild) /\
      channel_name ch = App.WELCOME_CHANNEL cfg /\
      if bot_can_send ch
      then requests run = [channel_send ch (App.welcome_text member guild) None] /\
           contains (App.welcome_text member guild) (member_mention member) = true
      else requests run = [logger_debug (App.welcome_missing cfg guild)] /\
           List.filter is_user_visible (requests run) = []
  | None =>
      (forall ch, In ch (text_channels guild) ->
                  channel_name ch <> App.WELCOME_CHANNEL cfg) /\
      requests run = [logger_debug (App.welcome_missing cfg guild)] /\
      List.filter is_user_visible (requests run) = []
  end.
Proof.
  cbn zeta. unfold App.on_member_join, App.utils_get.
  destruct (find _ (text_channels (member_guild member))) as [ch |] eqn:Hfind.
  - apply find_some in Hfind as [Hin Hname]. apply String.eqb_eq in Hname.
    split; [exact Hin |]. split; [exact Hname |].
    destruct (bot_can_send ch).
    + rewrite (requests_call W (channel_send ch _ None)). split; [reflexivity |].
      unfold App.welcome_text. apply contains_middle.
    + rewrite (requests_call W (logger_debug _)). split; reflexivity.
  - split.
    + intros ch Hin Hname. pose proof (find_none _ _ Hfind ch Hin) as Hne.
      cbn beta in Hne. apply String.eqb_neq in Hne. contradiction.
    + rewrite (requests_call W (logger_debug _)). split; reflexivity.
Qed.

Lemma member_join_greets_witness :
  requests (exec Platform.world (App.on_member_join Sample.cfg Sample.alice) Sample.busy) =
    [channel_send Sample.general "Welcome <@42> to **Neko**! Say hi 👋" None] /\
  requests (exec Platform.world
              (App.on_member_join Sample.cfg
                 (Sample.member_in (Sample.guild_with [Sample.muted; Sample.general])))
              Sample.busy) =
    [logger_debug "Welcome channel 'general' not found or no permission in guild Neko"] /\
  requests (exec Platform.world
              (App.on_member_join Sample.cfg
                 (Sample.member_in (Sample.guild_with [Sample.lobby])))
              Sample.busy) =
    [logger_debug "Welcome channel 'general' not found or no permission in guild Neko"] /\
  channel_name Sample.lobby <> "general".
Proof.
  pose proof (member_join_greets Platform.world Sample.busy Sample.cfg Sample.alice) as Hg.
  pose proof (member_join_greets Platform.world Sample.busy Sample.cfg
                (Sample.member_in (Sample.guild_with [Sample.muted; Sample.general])))
    as Hm.
  pose proof (member_join_greets Platform.world Sample.busy Sample.cfg
                (Sample.member_in (Sample.guild_with [Sample.lobby]))) as Hn.
  split; [| split; [| split]].
  - exact (proj1 (proj2 (proj2 Hg))).
  - exact (proj1 (proj2 (proj2 Hm))).
  - exact (proj1 (proj2 Hn)).
  - apply (proj1 Hn Sample.lobby). left. reflexivity.
Defined.

(** ** The count in the clear notice *)

Lemma purged_count (amount : Z) (command : Message) (prior : list Message) :
  1 <= amount ->
  len (firstn (Z.to_nat (amount + 1)) (command :: prior)) - 1 = Z.min amount (len prior).
Proof.
  intros Hamount. unfold len. rewrite length_firstn. cbn [length]. lia.
Qed.

(** C9. The number in the notice is the length of the list the purge
    returned, less one: it counts what was removed, not what was asked for.
    On the reference platform, in a channel that holds the invoking message
    on top of [prior] older ones, it is [min amount (len prior)]: with fewer
    than [amount] older messages it is their number, below [amount]. *)
Theorem clear_notice_counts_removed (W : World) (s : state W) (ctx : Context)
    (amount : Z) (p : Platform.State) :
  (forall deleted, 1 <= amount <= 200 ->
     fst (respond W (channel_purge (ctx_channel ctx) (amount + 1)) s) = inr deleted ->
     nth_error (requests (exec W (App.clear ctx amount) s)) 1 =
       Some (channel_send (ctx_channel ctx)
               ("Deleted " ++ str_of_Z (len deleted - 1) ++ " messages.") (Some 5))) /\
  (forall command prior, 1 <= amount <= 200 ->
     Platform.may_delete p = true ->
     Platform.history p = command :: prior ->
     requests (exec Platform.world (App.clear ctx amount) p) =
       [channel_purge (ctx_channel ctx) (amount + 1);
        channel_send (ctx_channel ctx)
          ("Deleted " ++ str_of_Z (Z.min amount (len prior)) ++ " messages.") (Some 5)] /\
     (len prior < amount -> Z.min amount (len prior) = len prior /\
                            Z.min amount (len prior) < amount)).
Proof.
  split.
  - intros deleted Hin Hpurge. unfold App.clear.
    replace ((amount <? 1) || (amount >? 200)) with false by lia.
    rewrite exec_await.
    destruct (respond W (channel_purge (ctx_channel ctx) (amount + 1)) s)
      as [[e | deleted'] s']; cbn [fst] in Hpurge; [discriminate |].
    injection Hpurge as ->. cbn [requests].
    rewrite (requests_call W (clear_notice ctx deleted)). reflexivity.
  - intros command prior Hin Hmay Hhist. split; [| lia].
    unfold App.clear.
    replace ((amount <? 1) || (amount >? 200)) with false by lia.
    rewrite exec_await. cbn [respond Platform.world Platform.answer].
    rewrite Hmay, Hhist. cbn [requests].
    rewrite (requests_call Platform.world
               (clear_notice ctx (firstn (Z.to_nat (amount + 1)) (command :: prior)))).
    unfold clear_notice. rewrite purged_count by lia. reflexivity.
Qed.

Lemma clear_notice_counts_removed_witness :
  nth_error (requests (exec Platform.world (App.clear Sample.ctx 2) Sample.busy)) 1 =
    Some (channel_send Sample.general "Deleted 2 messages." (Some 5)) /\
  requests (exec Platform.world (App.clear Sample.ctx 50) Sample.busy) =
    [channel_purge Sample.general 51;
     channel_send Sample.general "Deleted 3 messages." (Some 5)] /\
  Z.min 50 3 < 50.
Proof.
  pose proof (proj2 (clear_notice_counts_removed Platform.world Sample.busy Sample.ctx 50
                       Sample.busy) (Sample.message 3)
                    [Sample.message 2; Sample.message 1; Sample.message 0]) as H.
  split; [| split].
  - apply (proj1 (clear_notice_counts_removed Platform.world Sample.busy Sample.ctx 2
                    Sample.busy) [Sample.message 3; Sample.message 2; Sample.message 1]);
      [lia | reflexivity].
  - apply H; [lia | reflexivity | reflexivity].
  - apply (proj2 (H ltac:(lia) eq_refl eq_refl)). reflexivity.
Defined.

(** ** Replies never mention the author *)

Lemma not_a_reply_mentions_nobody (c : Call) :
  (forall payload mention, c <> ctx_reply payload mention) -> mentions_nobody c.
Proof. intros Hc payload mention Heq. destruct (Hc payload mention Heq). Qed.

Lemma quiet_reply_mentions_nobody (payload : Payload) :
  mentions_nobody (ctx_reply payload false).
Proof. intros payload' mention Heq. inversion Heq. reflexivity. Qed.

(** Walks a handler body down to its requests. *)
Ltac walk_step :=
  lazymatch goal with
  | |- True => exact I
  | |- mentions_nobody (ctx_reply _ false) => apply quiet_reply_mentions_nobody
  | |- mentions_nobody _ => apply not_a_reply_mentions_nobody; intros; discriminate
  | |- forall _, _ => intros ?
  | |- every_call _ (bind _ _) => apply every_call_bind
  | |- every_call _ (catch _ _) => apply every_call_catch
  | |- every_call _ (call _) => apply every_call_call
  | |- every_call _ (try_except_Exception _ _) => unfold try_except_Exception
  | |- every_call _ (lift ?r) => destruct r; cbn [lift every_call]
  | |- every_call _ (Ret _) => exact I
  | |- every_call _ (Raise _) => exact I
  | |- every_call _ (if ?b then _ else _) => destruct b
  | |- every_call _ (match ?x with _ => _ end) => destruct x
  end.

Ltac walk := repeat walk_step.

Section Quiet.
Variables (cfg : App.Config) (bot : Bot) (empty : Error + unit) (ctx : Context).

Lemma hook_quiet (e : Error) : every_call mentions_nobody (App.on_command_error ctx e).
Proof. unfold App.on_command_error. walk. Qed.

Lemma ping_quiet : every_call mentions_nobody (App.ping bot ctx).
Proof. unfold App.ping. walk. Qed.

Lemma say_quiet (message : string) : every_call mentions_nobody (App.say ctx message).
Proof. unfold App.say. walk. Qed.

Lemma avatar_quiet (member : option Member) :
  every_call mentions_nobody (App.avatar ctx member).
Proof. unfold App.avatar. walk. Qed.

Lemma serverinfo_quiet : every_call mentions_nobody (App.serverinfo empty ctx).
Proof. unfold App.serverinfo. walk. Qed.

Lemma userinfo_quiet (member : option Member) :
  every_call mentions_nobody (App.userinfo ctx member).
Proof. unfold App.userinfo. walk. Qed.

Lemma clear_quiet (amount : Z) : every_call mentions_nobody (App.clear ctx amount).
Proof. unfold App.clear. walk. Qed.

Lemma kick_quiet (member : Member) (reason : string) :
  every_call mentions_nobody (App.kick ctx member reason).
Proof. unfold App.kick. walk. Qed.

Lemma ban_quiet (member : Member) (reason : string) :
  every_call mentions_nobody (App.ban ctx member reason).
Proof. unfold App.ban. walk. Qed.

Lemma unban_quiet (user_id : Z) : every_call mentions_nobody (App.unban ctx user_id).
Proof. unfold App.unban. walk. Qed.

Lemma addrole_quiet (member : Member) (role : Role) :
  every_call mentions_nobody (App.addrole ctx member role).
Proof. unfold App.addrole. walk. Qed.

Lemma removerole_quiet (member : Member) (role : Role) :
  every_call mentions_nobody (App.removerole ctx member role).
Proof. unfold App.removerole. walk. Qed.

Lemma eightball_quiet (question : string) :
  every_call mentions_nobody (App.eightball ctx question).
Proof. unfold App.eightball. walk. Qed.

Lemma coin_quiet : every_call mentions_nobody (App.coin ctx).
Proof. unfold App.coin. walk. Qed.

Lemma roll_quiet (sides : Z) : every_call mentions_nobody (App.roll ctx sides).
Proof. unfold App.roll. walk. Qed.

Lemma help_quiet : every_call mentions_nobody (App.help_command cfg bot ctx).
Proof. unfold App.help_command. walk. Qed.

End Quiet.

(** The table holds nothing but the commands registered. *)
Lemma add_command_lookup (cmd x : Command) (table : gmap string Command) (name : string) :
  add_command cmd table !! name = Some x -> x = cmd \/ table !! name = Some x.
Proof.
  unfold add_command. induction (cmd_aliases cmd) as [| alias rest IH];
    cbn [fold_right]; intros H.
  - apply lookup_insert_Some in H as [[_ <-] | [_ H]]; auto.
  - apply lookup_insert_Some in H as [[_ <-] | [_ H]]; auto.
Qed.

Lemma all_commands_lookup (cmds : list Command) (x : Command) (name : string) :
  all_commands cmds !! name = Some x -> In x cmds.
Proof.
  induction cmds as [| cmd cmds IH]; cbn [all_commands fold_right]; intros H.
  - rewrite lookup_empty in H. discriminate H.
  - apply add_command_lookup in H as [-> | H]; [left; reflexivity | right; auto].
Qed.

Section QuietDispatch.
Variables (cfg : App.Config) (bot : Bot) (empty : Error + unit) (ctx : Context).

Lemma registered_bodies_quiet (cmd : Command) (view : string) (body : Prog unit) :
  In cmd (App.commands cfg bot empty) ->
  cmd_bind cmd ctx view = inr body ->
  every_call mentions_nobody body.
Proof.
  intros Hcmd Hbind. cbn [App.commands In] in Hcmd.
  repeat (destruct Hcmd as [<- | Hcmd]); [.. | destruct Hcmd];
    cbn [cmd_bind App.ping_command App.say_command App.avatar_command
         App.serverinfo_command App.userinfo_command App.clear_command
         App.kick_command App.ban_command App.unban_command App.addrole_command
         App.removerole_command App.eightball_command App.coin_command
         App.roll_command App.help_command_] in Hbind;
    unfold and_then in Hbind;
    repeat match type of Hbind with
           | context [match ?x with _ => _ end] => destruct x; try discriminate Hbind
           end;
    injection Hbind as <-;
    auto using ping_quiet, say_quiet, avatar_quiet, serverinfo_quiet, userinfo_quiet,
      clear_quiet, kick_quiet, ban_quiet, unban_quiet, addrole_quiet, removerole_quiet,
      eightball_quiet, coin_quiet, roll_quiet, help_quiet.
Qed.

Lemma handle_quiet (name view : string) :
  every_call mentions_nobody (App.handle cfg bot empty ctx name view).
Proof.
  unfold App.handle, bot_invoke.
  destruct (all_commands (App.commands cfg bot empty) !! name) as [cmd |] eqn:Hcmd.
  - apply every_call_catch.
    + unfold command_invoke. destruct (missing_permissions ctx cmd); [| exact I].
      destruct (cmd_bind cmd ctx view) as [e | body] eqn:Hbind; [exact I |].
      unfold wrap_callback. apply every_call_catch.
      * eapply registered_bodies_quiet; [eapply all_commands_lookup |]; eassumption.
      * intros e. repeat match goal with
                         | |- every_call _ (if ?b then _ else _) => destruct b
                         end; exact I.
    + intros e. destruct (isinstance e CommandError); [apply hook_quiet | exact I].
  - destruct (truthy name); [apply hook_quiet | exact I].
Qed.

End QuietDispatch.

(** C8. Every [ctx.reply] a command handler makes passes
    [mention_author=False], whatever the platform answers: for each of ping,
    avatar, serverinfo, userinfo, clear, kick, ban, unban, addrole,
    removerole, 8ball, coin, roll and help, and hence for every request of
    any run of a dispatched message, the error hook included. *)
Theorem replies_never_mention_author (cfg : App.Config) (bot : Bot)
    (empty : Error + unit) (ctx : Context) :
  every_call mentions_nobody (App.ping bot ctx) /\
  (forall member, every_call mentions_nobody (App.avatar ctx member)) /\
  every_call mentions_nobody (App.serverinfo empty ctx) /\
  (forall member, every_call mentions_nobody (App.userinfo ctx member)) /\
  (forall amount, every_call mentions_nobody (App.clear ctx amount)) /\
  (forall member reason, every_call mentions_nobody (App.kick ctx member reason)) /\
  (forall member reason, every_call mentions_nobody (App.ban ctx member reason)) /\
  (forall user_id, every_call mentions_nobody (App.unban ctx user_id)) /\
  (forall member role, every_call mentions_nobody (App.addrole ctx member role)) /\
  (forall member role, every_call mentions_nobody (App.removerole ctx member role)) /\
  (forall question, every_call mentions_nobody (App.eightball ctx question)) /\
  every_call mentions_nobody (App.coin ctx) /\
  (forall sides, every_call mentions_nobody (App.roll ctx sides)) /\
  every_call mentions_nobody (App.help_command cfg bot ctx) /\
  (forall (W : World) (s : state W) (name view : string),
     Forall mentions_nobody
       (requests (exec W (App.handle cfg bot empty ctx name view) s))).
Proof.
  repeat lazymatch goal with
         | |- _ /\ _ => split
         end;
    auto using ping_quiet, avatar_quiet, serverinfo_quiet, userinfo_quiet,
      clear_quiet, kick_quiet, ban_quiet, unban_quiet, addrole_quiet, removerole_quiet,
      eightball_quiet, coin_quiet, roll_quiet, help_quiet.
  intros W s name view. apply every_call_requests, handle_quiet.
Qed.

(** ** help *)

(** *** Strings *)

Arguments String.append !s1 s2.

Lemma append_assoc (a b c : string) : (a ++ b) ++ c = a ++ b ++ c.
Proof. induction a as [| x a IH]; cbn [String.append]; [reflexivity | f_equal; exact IH]. Qed.

Lemma no_line_feed_app (a b : string) :
  no_line_feed (a ++ b) = no_line_feed a && no_line_feed b.
Proof.
  induction a as [| x a IH]; simpl; [reflexivity |].
  rewrite IH. apply andb_assoc.
Qed.

Lemma all_blank_app (a b : string) : all_blank (a ++ b) = all_blank a && all_blank b.
Proof.
  induction a as [| x a IH]; simpl; [reflexivity |].
  rewrite IH. apply andb_assoc.
Qed.

Lemma substring_contains (sub s : string) : substring sub s -> contains s sub = true.
Proof. intros (a & b & ->). apply contains_middle. Qed.

Lemma substring_inner (a b c s : string) : substring (a ++ b ++ c) s -> substring b s.
Proof.
  intros (x & y & ->). exists (x ++ a), (c ++ y).
  rewrite !append_assoc. reflexivity.
Qed.

Lemma startswith_split (s pre : string) :
  startswith s pre = true -> exists rest, s = pre ++ rest.
Proof.
  revert s. induction pre as [| c pre IH]; intros s H.
  - exists s. reflexivity.
  - destruct s as [| d s]; [discriminate H |]. simpl in H.
    apply andb_true_iff in H as [Hc Hs]. apply Ascii.eqb_eq in Hc as ->.
    destruct (IH s Hs) as [rest ->]. exists rest. reflexivity.
Qed.

Lemma startswith_refl (s : string) : startswith s s = true.
Proof. rewrite <- (append_nil_r s) at 1. apply startswith_app. Qed.

Lemma startswith_trans (a b c : string) :
  startswith a b = true -> startswith b c = true -> startswith a c = true.
Proof.
  intros Hab Hbc. apply startswith_split in Hab as [r1 ->].
  apply startswith_split in Hbc as [r2 ->]. rewrite append_assoc.
  apply startswith_app.
Qed.

(** *** Lines *)

Lemma split_lines_nonempty (s : string) : split_lines s <> [].
Proof.
  destruct s as [| c s]; simpl; [discriminate |].
  destruct (is_nl c); [discriminate |]. destruct (split_lines s); discriminate.
Qed.

Lemma split_lines_line (a rest : string) :
  no_line_feed a = true -> split_lines (a ++ nl ++ rest) = a :: split_lines rest.
Proof.
  induction a as [| c a IH]; intros Ha.
  - reflexivity.
  - simpl in Ha. apply andb_true_iff in Ha as [Hc Ha].
    change ((String c a) ++ nl ++ rest) with (String c (a ++ nl ++ rest)).
    cbn [split_lines]. destruct (is_nl c); [discriminate Hc |].
    rewrite (IH Ha). reflexivity.
Qed.

Lemma split_lines_unlines (ls : list string) (rest : string) :
  Forall (fun l => no_line_feed l = true) ls ->
  split_lines (unlines_onto ls rest) = (ls ++ split_lines rest)%list.
Proof.
  induction 1 as [| l ls Hl Hls IH]; cbn [unlines_onto fold_right app].
  - reflexivity.
  - fold (unlines_onto ls rest). rewrite (split_lines_line l _ Hl), IH. reflexivity.
Qed.

Lemma join_lines_inner (ls : list string) (l : string) :
  In l (removelast ls) -> exists a b, join_lines ls = a ++ l ++ nl ++ b.
Proof.
  induction ls as [| x ls IH]; [intros [] |].
  destruct ls as [| y ls]; [intros [] |].
  intros Hin. change (removelast (x :: y :: ls)) with (x :: removelast (y :: ls)) in Hin.
  change (join_lines (x :: y :: ls)) with (x ++ nl ++ join_lines (y :: ls)).
  destruct Hin as [<- | Hin].
  - exists EmptyString, (join_lines (y :: ls)). reflexivity.
  - destruct (IH Hin) as (a & b & ->). exists (x ++ nl ++ a), b.
    rewrite !append_assoc. reflexivity.
Qed.

Lemma In_removelast_front {A} (pre back : list A) (x : A) :
  back <> [] -> In x pre -> In x (removelast (pre ++ back)).
Proof.
  intros Hback Hin. rewrite removelast_app by exact Hback.
  apply in_or_app. left. exact Hin.
Qed.

(** *** The margin *)

Lemma cut_at_mismatch_prefix (m i : string) : startswith m (cut_at_mismatch m i) = true.
Proof.
  revert i. induction m as [| x m IH]; intros i; [reflexivity |].
  destruct i as [| y i]; cbn [cut_at_mismatch].
  - apply startswith_refl.
  - destruct (Ascii.eqb x y); [| reflexivity].
    cbn [startswith]. rewrite Ascii.eqb_refl. apply IH.
Qed.

Lemma update_margin_prefix (m i : string) :
  exists m', update_margin (Some m) i = Some m' /\ startswith m m' = true.
Proof.
  unfold update_margin. destruct (startswith i m).
  - exists m. split; [reflexivity | apply startswith_refl].
  - destruct (startswith m i) eqn:Hmi.
    + exists i. split; [reflexivity | exact Hmi].
    + exists (cut_at_mismatch m i). split; [reflexivity | apply cut_at_mismatch_prefix].
Qed.

Lemma fold_margin_prefix (inds : list string) (m : string) :
  exists m', fold_left update_margin inds (Some m) = Some m' /\ startswith m m' = true.
Proof.
  revert m. induction inds as [| i inds IH]; intros m; cbn [fold_left].
  - exists m. split; [reflexivity | apply startswith_refl].
  - destruct (update_margin_prefix m i) as (m1 & -> & H1).
    destruct (IH m1) as (m2 & -> & H2). exists m2. split; [reflexivity |].
    eapply startswith_trans; eassumption.
Qed.

(** The margin is a prefix of the indentation of the first line that holds
    text. *)
Lemma margin_within_first (first : string) (rest : list string) :
  all_blank first = false ->
  startswith (leading_whitespace first) (margin_of (EmptyString :: first :: rest)) = true.
Proof.
  intros Hfirst. unfold margin_of, find_margin, indents.
  cbn [List.filter all_blank negb]. rewrite Hfirst. cbn [negb map fold_left update_margin].
  destruct (fold_margin_prefix
              (map leading_whitespace (List.filter (fun l => negb (all_blank l)) rest))
              (leading_whitespace first)) as (m & -> & Hm).
  exact Hm.
Qed.

Lemma remove_margin_empty (l : string) : remove_margin EmptyString l = l.
Proof. unfold remove_margin. destruct l; reflexivity. Qed.

Lemma remove_margin_within (m a b : string) :
  startswith a m = true -> remove_margin m (a ++ b) = drop (String.length m) a ++ b.
Proof.
  intros Ham. apply startswith_split in Ham as [r ->]. unfold remove_margin.
  rewrite append_assoc, startswith_app.
  induction m as [| c m IH]; [reflexivity | exact IH].
Qed.

Lemma dedent_lines (text : string) :
  let lines := map blank_out (split_lines text) in
  dedent text = join_lines (map (remove_margin (margin_of lines)) lines).
Proof.
  cbn zeta. unfold dedent, margin_of.
  destruct (find_margin (map blank_out (split_lines text))) as [[| c m] |]; cbn [truthy];
    try reflexivity;
    rewrite (map_ext _ (fun l => l) remove_margin_empty), map_id; reflexivity.
Qed.

(** *** The help text *)

Lemma help_template_lines (p user : string) :
  App.help_template p user = unlines_onto (help_head p) (help_tail user).
Proof.
  unfold App.help_template, help_head, help_tail, unlines_onto. cbn [fold_right].
  rewrite !append_assoc. reflexivity.
Qed.

Lemma help_head_no_line_feed (p : string) :
  no_line_feed p = true -> Forall (fun l => no_line_feed l = true) (help_head p).
Proof.
  intros Hp. unfold help_head.
  repeat (constructor; [rewrite ?no_line_feed_app, ?Hp; reflexivity |]).
  constructor.
Qed.

Lemma help_lines (p user : string) :
  no_line_feed p = true ->
  split_lines (App.help_template p user) =
  (help_head p ++ split_lines (help_tail user))%list.
Proof.
  intros Hp. rewrite help_template_lines.
  apply split_lines_unlines, help_head_no_line_feed, Hp.
Qed.

(** A line of the f-string that is indented by ten blanks and holds text
    survives [dedent] with at least two of them. *)
Lemma help_line_kept (p user body : string) :
  no_line_feed p = true ->
  all_blank body = false ->
  In ("          " ++ body) (help_head p) ->
  substring ("  " ++ body ++ nl) (dedent (App.help_template p user)).
Proof.
  intros Hp Hbody Hin. rewrite dedent_lines. cbn zeta. rewrite (help_lines p user Hp).
  set (lines := map blank_out (help_head p ++ split_lines (help_tail user))).
  assert (startswith "        " (margin_of lines) = true) as Hmargin.
  { subst lines. unfold help_head. rewrite <- !app_comm_cons. rewrite !map_cons.
    apply (margin_within_first "        NekoNi2 - commands"). reflexivity. }
  set (m := margin_of lines) in *.
  assert (blank_out ("          " ++ body) = "          " ++ body) as Hkeep.
  { unfold blank_out, whitespace_only.
    rewrite all_blank_app, Hbody, !Bool.andb_false_r. reflexivity. }
  assert (In (remove_margin m ("          " ++ body))
             (removelast (map (remove_margin m) lines))) as Hout.
  { subst lines. rewrite map_map, map_app. apply In_removelast_front.
    - intros Hnil. apply map_eq_nil in Hnil. exact (split_lines_nonempty _ Hnil).
    - rewrite <- Hkeep at 1.
      apply (in_map (fun l => remove_margin m (blank_out l))). exact Hin. }
  apply join_lines_inner in Hout as (a & b & ->).
  change ("          " ++ body) with ("        " ++ "  " ++ body).
  rewrite (remove_margin_within m "        " ("  " ++ body) Hmargin).
  exists (a ++ drop (String.length m) "        "), b.
  set (t := "  " ++ body). rewrite !append_assoc. reflexivity.
Qed.

Lemma help_syntax_has_text (syntax : string) :
  In syntax help_syntax -> all_blank syntax = false.
Proof.
  intros Hin.
  assert (forallb (fun s => negb (all_blank s)) help_syntax = true) as Hall by reflexivity.
  rewrite forallb_forall in Hall. apply negb_true_iff, Hall, Hin.
Qed.

Lemma help_syntax_in_head (p syntax : string) :
  In syntax help_syntax -> In ("          " ++ p ++ syntax) (help_head p).
Proof.
  intros Hin. cbn [help_syntax In] in Hin.
  repeat (destruct Hin as [<- | Hin]); [.. | destruct Hin];
    cbn [help_head In]; repeat first [left; reflexivity | right].
Qed.

Lemma helped_name_begins_syntax (name : string) :
  In name helped_names ->
  exists syntax, In syntax help_syntax /\ startswith syntax name = true.
Proof.
  intros Hin.
  assert (forallb (fun n => existsb (fun sx => startswith sx n) help_syntax)
                  helped_names = true) as Hall by reflexivity.
  rewrite forallb_forall in Hall. apply Hall, existsb_exists in Hin. exact Hin.
Qed.

(** Every syntax line of the help text comes out as two blanks, the
    prefix, the syntax, and a line feed. *)
Lemma help_syntax_line (p user syntax : string) :
  no_line_feed p = true ->
  In syntax help_syntax ->
  substring ("  " ++ p ++ syntax ++ nl) (dedent (App.help_template p user)).
Proof.
  intros Hp Hin. rewrite <- (append_assoc p syntax nl).
  apply help_line_kept.
  - exact Hp.
  - rewrite all_blank_app, (help_syntax_has_text syntax Hin). apply Bool.andb_false_r.
  - apply help_syntax_in_head, Hin.
Qed.

(** C4, as stated, fails: the help text does not hold the name [help]
    (nor [purge], [clean], [eightball]), and with a prefix made of a line
    feed and a blank the syntax lines do not carry the prefix. *)
Lemma help_omits_names_and_prefix :
  map (contains (App.help_text Sample.cfg Sample.bot)) ["help"; "purge"; "clean"; "eightball"] =
    [false; false; false; false] /\
  ~ (forall cfg bot name, In name command_surface ->
       contains (App.help_text cfg bot) name = true) /\
  ~ (forall cfg bot syntax, In syntax help_syntax ->
       contains (App.help_text cfg bot) (App.PREFIX cfg ++ syntax) = true).
Proof.
  split; [vm_compute; reflexivity |]. split; intros H.
  - specialize (H Sample.cfg Sample.bot "help").
    assert (In "help" command_surface) as Hin
      by (cbn [command_surface In]; repeat first [left; reflexivity | right]).
    specialize (H Hin). vm_compute in H. discriminate H.
  - specialize (H (with_prefix (nl ++ " ")) Sample.bot "ping").
    assert (In "ping" help_syntax) as Hin
      by (cbn [help_syntax In]; repeat first [left; reflexivity | right]).
    specialize (H Hin). vm_compute in H. discriminate H.
Qed.

(** C4, amended. For every prefix that holds no line feed, and whatever
    the bot is called, the help reply holds each of the fourteen syntax
    lines as two blanks, the configured prefix, the syntax; so it holds,
    right after the prefix, the names ping, say, avatar, serverinfo,
    userinfo (and with it user), clear, kick, ban, unban, addrole,
    removerole, 8ball, coin and roll. *)
Theorem help_lists_commands (cfg : App.Config) (bot : Bot) :
  no_line_feed (App.PREFIX cfg) = true ->
  (forall syntax, In syntax help_syntax ->
     contains (App.help_text cfg bot) ("  " ++ App.PREFIX cfg ++ syntax ++ nl) = true) /\
  (forall name, In name helped_names ->
     contains (App.help_text cfg bot) (App.PREFIX cfg ++ name) = true) /\
  (forall (W : World) (s : state W) (ctx : Context),
     requests (exec W (App.help_command cfg bot ctx) s) =
       [ctx_reply (Text (App.help_text cfg bot)) false]).
Proof.
  intros Hp. unfold App.help_text. split; [| split].
  - intros syntax Hin. apply substring_contains, help_syntax_line; assumption.
  - intros name Hin.
    destruct (helped_name_begins_syntax name Hin) as (syntax & Hsyn & Hstart).
    apply startswith_split in Hstart as [rest ->].
    apply substring_contains.
    apply (substring_inner "  " (App.PREFIX cfg ++ name) (rest ++ nl)).
    pose proof (help_syntax_line (App.PREFIX cfg) (bot_user bot) _ Hp Hsyn) as Hline.
    rewrite !append_assoc. rewrite !append_assoc in Hline. exact Hline.
  - intros W s ctx. apply (requests_call W (ctx_reply _ false)).
Qed.

Lemma help_lists_commands_witness :
  contains (App.help_text Sample.cfg Sample.bot) ("  !ping" ++ nl) = true /\
  contains (App.help_text Sample.cfg Sample.bot) "!roll" = true.
Proof.
  split.
  - apply (proj1 (help_lists_commands Sample.cfg Sample.bot eq_refl) "ping").
    cbn [help_syntax In]. repeat first [left; reflexivity | right].
  - apply (proj1 (proj2 (help_lists_commands Sample.cfg Sample.bot eq_refl)) "roll").
    cbn [helped_names In]. repeat first [left; reflexivity | right].
Defined.

(** * Further properties of app.py *)

Import Usage.

(** ** The command table *)

Lemma add_command_lookup_None (cmd : Command) (table : gmap string Command)
    (name : string) :
  add_command cmd table !! name = None <->
  ~ In name (cmd_name cmd :: cmd_aliases cmd) /\ table !! name = None.
Proof.
  unfold add_command. induction (cmd_aliases cmd) as [| alias rest IH]; cbn [fold_right In].
  - rewrite lookup_insert_None. intuition.
  - rewrite lookup_insert_None, IH. cbn [In]. intuition.
Qed.

Lemma all_commands_lookup_None (cmds : list Command) (name : string) :
  all_commands cmds !! name = None <-> ~ In name (names_of cmds).
Proof.
  induction cmds as [| cmd cmds IH]; cbn [all_commands names_of flat_map fold_right].
  - rewrite lookup_empty. intuition.
  - fold (all_commands cmds). fold (names_of cmds).
    rewrite add_command_lookup_None, IH, in_app_iff. intuition.
Qed.

Lemma registered_names_are_the_table (cfg : App.Config) (bot : Bot) (empty : Error + unit) :
  names_of (App.commands cfg bot empty) = registered_names.
Proof. reflexivity. Qed.

(** X1. The table answers to exactly nineteen names, all different; each
    name and alias leads to the command it was registered with; a message
    under any other name makes no request at all and ends quietly. *)
Theorem command_table_names (cfg : App.Config) (bot : Bot) (empty : Error + unit) :
  let table := all_commands (App.commands cfg bot empty) in
  List.NoDup registered_names /\
  (forall cmd name, In cmd (App.commands cfg bot empty) ->
     In name (cmd_name cmd :: cmd_aliases cmd) -> table !! name = Some cmd) /\
  (forall name, table !! name = None <-> ~ In name registered_names) /\
  (forall (W : World) (s : state W) ctx name view, ~ In name registered_names ->
     requests (exec W (App.handle cfg bot empty ctx name view) s) = [] /\
     outcome (exec W (App.handle cfg bot empty ctx name view) s) = Returned tt).
Proof.
  cbn zeta. split; [| split; [| split]].
  - apply NoDup_ListNoDup. apply (bool_decide_unpack _). vm_compute. exact I.
  - intros cmd name Hcmd Hname. cbn [App.commands In] in Hcmd.
    repeat (destruct Hcmd as [<- | Hcmd]); [.. | destruct Hcmd];
      cbn in Hname; repeat (destruct Hname as [<- | Hname]); try destruct Hname;
      reflexivity.
  - intros name. rewrite all_commands_lookup_None, registered_names_are_the_table.
    reflexivity.
  - intros W s ctx name view Hname. unfold App.handle, bot_invoke.
    replace (all_commands (App.commands cfg bot empty) !! name) with (@None Command)
      by (symmetry; apply all_commands_lookup_None;
          rewrite registered_names_are_the_table; exact Hname).
    destruct (truthy name); split; reflexivity.
Qed.

Lemma command_table_names_witness :
  requests (exec Platform.world
              (App.handle Sample.cfg Sample.bot (inr tt) Sample.ctx "dance" "now")
              Sample.busy) = [] /\
  all_commands (App.commands Sample.cfg Sample.bot (inr tt)) !! "user" =
    Some (App.userinfo_command).
Proof.
  pose proof (command_table_names Sample.cfg Sample.bot (inr tt)) as T.
  split.
  - apply (proj2 (proj2 (proj2 T)) Platform.world Sample.busy Sample.ctx "dance" "now").
    cbn [registered_names In]. intros H.
    repeat (destruct H as [H | H]; [discriminate H |]). exact H.
  - apply (proj1 (proj2 T)).
    + cbn [App.commands In]. do 4 right. left. reflexivity.
    + right. left. reflexivity.
Defined.

(** ** The permission gate *)

Lemma missing_permissions_found (ctx : Context) (cmd : Command) (p : Permission) :
  In p (cmd_requires cmd) -> ~ In p (ctx_permissions ctx) ->
  missing_permissions ctx cmd <> [].
Proof.
  intros Hreq Hlack Hnone.
  assert (In p (missing_permissions ctx cmd)) as Hin.
  { apply filter_In. split; [exact Hreq |]. apply negb_true_iff.
    apply bool_decide_eq_false_2. intros Hheld. apply Hlack, list_elem_of_In, Hheld. }
  rewrite Hnone in Hin. exact Hin.
Qed.

Lemma missing_permissions_none (ctx : Context) (cmd : Command) (p : Permission) :
  missing_permissions ctx cmd = [] -> In p (cmd_requires cmd) ->
  In p (ctx_permissions ctx).
Proof.
  intros Hnone Hreq. destruct (bool_decide (p ∈ ctx_permissions ctx)) eqn:Hheld.
  - apply list_elem_of_In. apply bool_decide_eq_true in Hheld. exact Hheld.
  - assert (In p (missing_permissions ctx cmd)) as Hin
      by (apply filter_In; split; [exact Hreq | rewrite Hheld; reflexivity]).
    rewrite Hnone in Hin. destruct Hin.
Qed.

(** X2. A caller who lacks a permission the command was decorated with
    gets the permission-denied reply and nothing else: no argument is
    bound, no body runs.  The decorated commands are say and clear (Manage
    Messages), kick (Kick Members), ban and unban (Ban Members), addrole
    and removerole (Manage Roles); the other eight are open to everyone. *)
Theorem permission_gate (cfg : App.Config) (bot : Bot) (empty : Error + unit)
    (W : World) (s : state W) (ctx : Context) :
  (forall name view cmd p,
     all_commands (App.commands cfg bot empty) !! name = Some cmd ->
     In p (cmd_requires cmd) -> ~ In p (ctx_permissions ctx) ->
     requests (exec W (App.handle cfg bot empty ctx name view) s) = [no_permission]) /\
  map (fun cmd => (cmd_name cmd, cmd_requires cmd)) (App.commands cfg bot empty) =
    [ ("ping", []); ("say", [manage_messages]); ("avatar", []); ("serverinfo", []);
      ("userinfo", []); ("clear", [manage_messages]); ("kick", [kick_members]);
      ("ban", [ban_members]); ("unban", [ban_members]); ("addrole", [manage_roles]);
      ("removerole", [manage_roles]); ("8ball", []); ("coin", []); ("roll", []);
      ("help", []) ].
Proof.
  split; [| reflexivity].
  intros name view cmd p Hcmd Hreq Hlack. unfold App.handle, bot_invoke. rewrite Hcmd.
  unfold command_invoke.
  destruct (missing_permissions ctx cmd) as [| q qs] eqn:Hmiss.
  - destruct (missing_permissions_found ctx cmd p Hreq Hlack Hmiss).
  - cbn [catch]. change (isinstance (exc MissingPermissions) CommandError) with true.
    cbv iota. apply (requests_call W no_permission).
Qed.

Lemma permission_gate_witness :
  requests (exec Platform.world
              (App.handle Sample.cfg Sample.bot (inr tt)
                 (Sample.ctx_with [manage_messages]) "kick" "alice spam")
              Sample.busy) = [no_permission].
Proof.
  apply (proj1 (permission_gate Sample.cfg Sample.bot (inr tt) Platform.world Sample.busy
                  (Sample.ctx_with [manage_messages]))
               "kick" "alice spam" App.kick_command kick_members).
  - reflexivity.
  - left. reflexivity.
  - cbn. intros [H | []]. discriminate H.
Defined.

(** ** No mutation without the permission *)

Ltac guard_step :=
  lazymatch goal with
  | |- True => exact I
  | |- authorised _ _ =>
      let p := fresh "p" in
      let H := fresh "H" in
      intros p H; cbn [permission_for] in H;
      first [discriminate H | injection H as <-; assumption]
  | |- forall _, _ => intros ?
  | |- every_call _ (bind _ _) => apply every_call_bind
  | |- every_call _ (catch _ _) => apply every_call_catch
  | |- every_call _ (call _) => apply every_call_call
  | |- every_call _ (try_except_Exception _ _) => unfold try_except_Exception
  | |- every_call _ (lift ?r) => destruct r; cbn [lift every_call]
  | |- every_call _ (Ret _) => exact I
  | |- every_call _ (Raise _) => exact I
  | |- every_call _ (if ?b then _ else _) => destruct b
  | |- every_call _ (match ?x with _ => _ end) => destruct x
  end.

Section Authorised.
Variables (cfg : App.Config) (bot : Bot) (empty : Error + unit) (ctx : Context).

Lemma hook_authorised (e : Error) :
  every_call (authorised ctx) (App.on_command_error ctx e).
Proof. unfold App.on_command_error. repeat guard_step. Qed.

Lemma registered_bodies_authorised (cmd : Command) (view : string) (body : Prog unit) :
  In cmd (App.commands cfg bot empty) ->
  (forall p, In p (cmd_requires cmd) -> In p (ctx_permissions ctx)) ->
  cmd_bind cmd ctx view = inr body ->
  every_call (authorised ctx) body.
Proof.
  intros Hcmd Hheld Hbind. cbn [App.commands In] in Hcmd.
  repeat (destruct Hcmd as [<- | Hcmd]); [.. | destruct Hcmd];
    try (pose proof (Hheld _ (or_introl eq_refl)) as Hperm; cbn in Hperm);
    cbn [cmd_bind App.ping_command App.say_command App.avatar_command
         App.serverinfo_command App.userinfo_command App.clear_command
         App.kick_command App.ban_command App.unban_command App.addrole_command
         App.removerole_command App.eightball_command App.coin_command
         App.roll_command App.help_command_] in Hbind;
    unfold and_then in Hbind;
    repeat match type of Hbind with
           | context [match ?x with _ => _ end] => destruct x; try discriminate Hbind
           end;
    injection Hbind as <-;
    unfold App.ping, App.say, App.avatar, App.serverinfo, App.userinfo, App.clear,
      App.kick, App.ban, App.unban, App.addrole, App.removerole, App.eightball,
      App.coin, App.roll, App.help_command;
    repeat guard_step.
Qed.

Lemma handle_authorised (name view : string) :
  every_call (authorised ctx) (App.handle cfg bot empty ctx name view).
Proof.
  unfold App.handle, bot_invoke.
  destruct (all_commands (App.commands cfg bot empty) !! name) as [cmd |] eqn:Hcmd.
  - apply every_call_catch.
    + unfold command_invoke.
      destruct (missing_permissions ctx cmd) eqn:Hmiss; [| exact I].
      destruct (cmd_bind cmd ctx view) as [e | body] eqn:Hbind; [exact I |].
      unfold wrap_callback. apply every_call_catch.
      * eapply registered_bodies_authorised; [eapply all_commands_lookup | |]; try eassumption.
        intros p. apply missing_permissions_none, Hmiss.
      * intros e. repeat match goal with
                         | |- every_call _ (if ?b then _ else _) => destruct b
                         end; exact I.
    + intros e. destruct (isinstance e CommandError); [apply hook_authorised | exact I].
  - destruct (truthy name); [apply hook_authorised | exact I].
Qed.

End Authorised.

(** X3. Whatever the message and whatever the platform answers, a run of
    the bot deletes or purges messages only for a caller with Manage
    Messages, kicks only for one with Kick Members, bans and unbans only
    for one with Ban Members, and grants or revokes a role only for one
    with Manage Roles. *)
Theorem mutations_need_permission (cfg : App.Config) (bot : Bot) (empty : Error + unit)
    (W : World) (s : state W) (ctx : Context) (name view : string) :
  Forall (authorised ctx) (requests (exec W (App.handle cfg bot empty ctx name view) s)) /\
  (forall c p, In c (requests (exec W (App.handle cfg bot empty ctx name view) s)) ->
     permission_for c = Some p -> In p (ctx_permissions ctx)).
Proof.
  pose proof (every_call_requests W _ _ (handle_authorised cfg bot empty ctx name view) s)
    as Hall.
  split; [exact Hall |].
  intros c p Hc Hp. rewrite List.Forall_forall in Hall. exact (Hall c Hc p Hp).
Qed.

Lemma mutations_need_permission_witness :
  In kick_members (ctx_permissions Sample.ctx).
Proof.
  apply (proj2 (mutations_need_permission Sample.cfg Sample.bot (inr tt) Platform.world
                  Sample.busy Sample.ctx "kick" "alice spam")
               (member_kick Sample.alice "spam") kick_members).
  - vm_compute. left. reflexivity.
  - reflexivity.
Defined.

(** ** Arguments that do not bind *)

Lemma push_raises (taken : string) (w : Word) (e : Error) :
  push taken w = inl e -> w = inl e.
Proof. destruct w as [e' | [word rest]]; cbn [push]; congruence. Qed.

(** The reader of words raises nothing but its three errors. *)
Lemma read_word_errors (quoted : option (string * string)) (skip : nat) (s : string)
    (e : Error) :
  read_word quoted skip s = inl e ->
  e = exc ExpectedClosingQuoteError \/ e = exc UnexpectedQuoteError \/
  e = exc InvalidEndOfQuotedStringError.
Proof.
  revert quoted skip. induction s as [| c r IH]; intros quoted skip H; cbn [read_word] in H.
  - destruct quoted; cbn [at_end] in H; [injection H as <-; left; reflexivity | discriminate H].
  - destruct skip as [| n]; [| exact (IH _ _ H)].
    destruct (Ascii.eqb c "092").
    + destruct r as [| d r'].
      * destruct quoted; cbn [at_end] in H;
          [injection H as <-; left; reflexivity | discriminate H].
      * destruct (mark_at _ (String d r')); apply push_raises in H; exact (IH _ _ H).
    + destruct quoted as [[opening closing] |].
      * destruct (startswith (String c r) closing).
        -- destruct (drop (String.length closing) (String c r)) as [| d rest];
             [discriminate H |].
           destruct (is_space d); [discriminate H |].
           injection H as <-. right. right. reflexivity.
        -- apply push_raises in H. exact (IH _ _ H).
      * destruct (mark_at all_quotes (String c r)).
        -- injection H as <-. right. left. reflexivity.
        -- destruct (is_space c); [discriminate H |].
           apply push_raises in H. exact (IH _ _ H).
Qed.

Lemma get_quoted_word_errors (s : string) (e : Error) :
  get_quoted_word s = inl e ->
  e = exc ExpectedClosingQuoteError \/ e = exc UnexpectedQuoteError \/
  e = exc InvalidEndOfQuotedStringError.
Proof.
  destruct s as [| c r]; cbn [get_quoted_word]; [discriminate |].
  destruct (List.find _ quotes) as [[opening closing] |]; intros H.
  - exact (read_word_errors _ _ _ _ H).
  - apply push_raises in H. exact (read_word_errors _ _ _ _ H).
Qed.

Lemma binding_errors (cfg : App.Config) (bot : Bot) (empty : Error + unit)
    (ctx : Context) (cmd : Command) (view : string) (e : Error) :
  In cmd (App.commands cfg bot empty) ->
  cmd_bind cmd ctx view = inl e ->
  (exists name, e = missing_required_argument name) \/
  e = exc BadArgument \/ e = exc MemberNotFound \/ e = exc RoleNotFound \/
  e = exc NoPrivateMessage \/
  e = exc ExpectedClosingQuoteError \/ e = exc UnexpectedQuoteError \/
  e = exc InvalidEndOfQuotedStringError.
Proof.
  intros Hcmd Hbind. cbn [App.commands In] in Hcmd.
  repeat (destruct Hcmd as [<- | Hcmd]); [.. | destruct Hcmd];
    cbn [cmd_bind App.ping_command App.say_command App.avatar_command
         App.serverinfo_command App.userinfo_command App.clear_command
         App.kick_command App.ban_command App.unban_command App.addrole_command
         App.removerole_command App.eightball_command App.coin_command
         App.roll_command App.help_command_] in Hbind;
    unfold and_then, positional, keyword_only, or_none, to_int, to_member, to_role
      in Hbind;
    repeat match type of Hbind with
           | context [match get_quoted_word ?v with _ => _ end] =>
               let Hw := fresh "Hw" in
               destruct (get_quoted_word v) as [? | [? ?]] eqn:Hw;
               [apply get_quoted_word_errors in Hw | clear Hw]
           | context [match ?x with _ => _ end] =>
               lazymatch x with
               | context [match _ with _ => _ end] => fail
               | _ => destruct x; try discriminate Hbind
               end
           end;
    try discriminate Hbind; injection Hbind as <-;
    first [ left; eexists; reflexivity
          | right; left; reflexivity
          | right; right; left; reflexivity
          | right; right; right; left; reflexivity
          | right; right; right; right; left; reflexivity
          | right; right; right; right; right; assumption ].
Qed.

Lemma positional_reading_fails {T} (name : string) (conv : Converter T)
    (default : option T) (ctx : Context) (view : string) (e : Error) :
  lstrip view <> EmptyString ->
  get_quoted_word (lstrip view) = inl e ->
  positional name conv default ctx view = inl e.
Proof.
  intros Hview Hword. rewrite (positional_word _ _ _ _ _ Hview), Hword. reflexivity.
Qed.

Lemma positional_conversion_fails {T} (name : string) (conv : Converter T)
    (default : option T) (ctx : Context) (view word rest : string) (e : Error) :
  lstrip view <> EmptyString ->
  get_quoted_word (lstrip view) = inr (word, rest) ->
  conv ctx word = inl e ->
  positional name conv default ctx view = inl e.
Proof.
  intros Hview Hword Hconv.
  rewrite (positional_word _ _ _ _ _ Hview), Hword, Hconv. reflexivity.
Qed.

(** An error the hook has no reply of its own for is answered by the
    log call and, when that returns, the generic reply. *)
Lemma hook_logs_then_replies (W : World) (s : state W) (ctx : Context) (e : Error) :
  unclassified e ->
  hd_error (requests (exec W (App.on_command_error ctx e) s)) = Some full_log /\
  (forall v, fst (respond W full_log s) = inr v ->
     requests (exec W (App.on_command_error ctx e) s) = [full_log; unexpected_error]).
Proof.
  intros (Hwrap & Hperm & Hbot & Hmiss & Hbad & Hunknown).
  unfold App.on_command_error. rewrite Hwrap, Hperm, Hbot, Hmiss, Hbad, Hunknown.
  rewrite exec_await. unfold full_log.
  destruct (respond W (logger_exception "Unhandled command error" None) s)
    as [[e' | v] s']; cbn [fst requests hd_error].
  - split; [reflexivity | intros v Hv; discriminate Hv].
  - split; [reflexivity |]. intros _ _.
    rewrite (requests_call W unexpected_error). reflexivity.
Qed.

(** X4. On a message of ASCII text, when the arguments of a registered
    command do not bind, the body does not run.  A required parameter that
    is absent gives the single reply "Missing argument: <name>"; a word
    that does not convert gives the single reply "Bad argument provided.";
    a word the reader cannot read (a quotation mark inside an unquoted
    word, a quoted word that is not closed or not followed by white
    space) and a role asked for outside a guild are no bad arguments:
    they give the log call and the generic reply.  A first word that
    [int] does not read is a bad argument to
    clear, roll and unban; a first word that names no member is one to
    avatar, userinfo, kick, ban, addrole and removerole, also where the
    parameter has a default. *)
Theorem unbound_arguments_reply_once (cfg : App.Config) (bot : Bot)
    (empty : Error + unit) (W : World) (s : state W) (ctx : Context) (view : string) :
  ascii_only view = true ->
  (forall name cmd e,
     all_commands (App.commands cfg bot empty) !! name = Some cmd ->
     missing_permissions ctx cmd = [] ->
     cmd_bind cmd ctx view = inl e ->
     let run := exec W (App.handle cfg bot empty ctx name view) s in
     (isinstance e MissingRequiredArgument = true /\
      requests run = [missing_argument (param_name_of e)]) \/
     (isinstance e BadArgument = true /\ requests run = [bad_argument]) \/
     (unclassified e /\
      hd_error (requests run) = Some full_log /\
      (forall v, fst (respond W full_log s) = inr v ->
         requests run = [full_log; unexpected_error]))) /\
  (forall word rest, lstrip view <> EmptyString ->
   get_quoted_word (lstrip view) = inr (word, rest) -> int word = None ->
   forall cmd, In cmd [App.clear_command; App.roll_command; App.unban_command] ->
     cmd_bind cmd ctx view = inl (exc BadArgument)) /\
  (forall word rest, lstrip view <> EmptyString ->
   get_quoted_word (lstrip view) = inr (word, rest) -> find_member ctx word = None ->
   forall cmd, In cmd [App.avatar_command; App.userinfo_command; App.kick_command;
                       App.ban_command; App.addrole_command; App.removerole_command] ->
     cmd_bind cmd ctx view = inl (exc MemberNotFound)) /\
  (forall e, lstrip view <> EmptyString -> get_quoted_word (lstrip view) = inl e ->
   isinstance e ArgumentParsingError = true /\ isinstance e BadArgument = false /\
   forall cmd, In cmd [App.avatar_command; App.userinfo_command; App.clear_command;
                       App.kick_command; App.ban_command; App.unban_command;
                       App.addrole_command; App.removerole_command; App.roll_command] ->
     cmd_bind cmd ctx view = inl e).
Proof.
  intros _. split; [| split; [| split]].
  - intros name cmd e Hcmd Hperm Hbind. cbn zeta.
    pose proof (binding_errors cfg bot empty ctx cmd view e
                  (all_commands_lookup _ _ _ Hcmd) Hbind) as Hkind.
    assert (isinstance e CommandError = true) as He
      by (destruct Hkind as [[n ->] | [-> | [-> | [-> | [-> | [-> | [-> | ->]]]]]]];
          reflexivity).
    assert (exec W (App.handle cfg bot empty ctx name view) s =
            exec W (App.on_command_error ctx e) s) as ->.
    { unfold App.handle, bot_invoke. rewrite Hcmd. unfold command_invoke.
      rewrite Hperm, Hbind. cbn [catch]. rewrite He. reflexivity. }
    destruct Hkind as [[n ->] | [-> | [-> | [-> | [-> | [-> | [-> | ->]]]]]]].
    + left. split; [reflexivity |]. apply (requests_call W (missing_argument n)).
    + right. left. split; [reflexivity |]. apply (requests_call W bad_argument).
    + right. left. split; [reflexivity |]. apply (requests_call W bad_argument).
    + right. left. split; [reflexivity |]. apply (requests_call W bad_argument).
    + right. right. split; [repeat split |]. apply hook_logs_then_replies. repeat split.
    + right. right. split; [repeat split |]. apply hook_logs_then_replies. repeat split.
    + right. right. split; [repeat split |]. apply hook_logs_then_replies. repeat split.
    + right. right. split; [repeat split |]. apply hook_logs_then_replies. repeat split.
  - intros word rest Hview Hword Hint cmd Hcmd.
    assert (to_int ctx word = inl (exc BadArgument)) as Hconv
      by (unfold to_int; rewrite Hint; reflexivity).
    cbn [In] in Hcmd. destruct Hcmd as [<- | [<- | [<- | []]]]; cbn [cmd_bind
      App.clear_command App.roll_command App.unban_command];
      rewrite (positional_conversion_fails _ _ _ ctx view _ _ _ Hview Hword Hconv);
      reflexivity.
  - intros word rest Hview Hword Hfind cmd Hcmd.
    assert (to_member ctx word = inl (exc MemberNotFound))
      as Hconv by (unfold to_member; rewrite Hfind; reflexivity).
    assert (or_none to_member ctx word = inl (exc MemberNotFound)) as Hopt
      by (unfold or_none; rewrite Hconv; reflexivity).
    cbn [In] in Hcmd.
    destruct Hcmd as [<- | [<- | [<- | [<- | [<- | [<- | []]]]]]]; cbn [cmd_bind
      App.avatar_command App.userinfo_command App.kick_command App.ban_command
      App.addrole_command App.removerole_command];
      first [ rewrite (positional_conversion_fails _ _ _ ctx view _ _ _ Hview Hword Hconv)
            | rewrite (positional_conversion_fails _ _ _ ctx view _ _ _ Hview Hword Hopt) ];
      reflexivity.
  - intros e Hview Hword.
    split; [| split].
    + destruct (get_quoted_word_errors _ _ Hword) as [-> | [-> | ->]]; reflexivity.
    + destruct (get_quoted_word_errors _ _ Hword) as [-> | [-> | ->]]; reflexivity.
    + intros cmd Hcmd. cbn [In] in Hcmd.
      destruct Hcmd as [<- | [<- | [<- | [<- | [<- | [<- | [<- | [<- | [<- | []]]]]]]]]];
        cbn [cmd_bind App.avatar_command App.userinfo_command App.clear_command
             App.kick_command App.ban_command App.unban_command App.addrole_command
             App.removerole_command App.roll_command];
        rewrite (positional_reading_fails _ _ _ ctx view e Hview Hword); reflexivity.
Qed.

Lemma unbound_arguments_reply_once_witness :
  requests (exec Platform.world
              (App.handle Sample.cfg Sample.bot (inr tt) Sample.ctx "clear" "lots")
              Sample.busy) = [bad_argument] /\
  requests (exec Platform.world
              (App.handle Sample.cfg Sample.bot (inr tt) Sample.ctx "roll"
                 ("2" ++ dquote ++ "0"))
              Sample.busy) = [full_log; unexpected_error] /\
  cmd_bind App.roll_command Sample.ctx " d20" = inl (exc BadArgument) /\
  cmd_bind App.userinfo_command Sample.ctx "bob" = inl (exc MemberNotFound) /\
  cmd_bind App.kick_command Sample.ctx (dquote ++ "alice") =
    inl (exc ExpectedClosingQuoteError).
Proof.
  pose proof (unbound_arguments_reply_once Sample.cfg Sample.bot (inr tt) Platform.world
                Sample.busy Sample.ctx) as T.
  split; [| split; [| split; [| split]]].
  - destruct (proj1 (T "lots" eq_refl) "clear" App.clear_command (exc BadArgument)
                eq_refl eq_refl eq_refl) as [[H _] | [[_ H] | [H _]]].
    + discriminate H.
    + exact H.
    + destruct H as (_ & _ & _ & _ & H & _). discriminate H.
  - destruct (proj1 (T ("2" ++ dquote ++ "0") eq_refl) "roll" App.roll_command
                (exc UnexpectedQuoteError) eq_refl eq_refl eq_refl)
      as [[H _] | [[H _] | [_ [_ H]]]].
    + discriminate H.
    + discriminate H.
    + exact (H tt eq_refl).
  - apply (proj1 (proj2 (T " d20" eq_refl)) "d20" EmptyString);
      [discriminate | reflexivity | reflexivity |].
    right. left. reflexivity.
  - apply (proj1 (proj2 (proj2 (T "bob" eq_refl))) "bob" EmptyString);
      [discriminate | reflexivity | reflexivity |].
    right. left. reflexivity.
  - apply (proj2 (proj2 (proj2 (T (dquote ++ "alice") eq_refl)))
             (exc ExpectedClosingQuoteError));
      [discriminate | reflexivity |].
    right. right. right. left. reflexivity.
Defined.

(** ** What becomes of a command body *)

Section Bodies.
Context (W : World).

(** A body that raises hands over to the handler, in the state it left. *)
Lemma exec_catch_raised {A} (p : Prog A) (h : Error -> Prog A) (s : state W) (e : Error) :
  outcome (exec W p s) = Raised e ->
  exec W (catch p h) s =
  {| requests := (requests (exec W p s) ++ requests (exec W (h e) (final (exec W p s))))%list;
     outcome := outcome (exec W (h e) (final (exec W p s)));
     final := final (exec W (h e) (final (exec W p s))) |}.
Proof.
  revert s. induction p as [a | e' | c k IH]; intros s Hraise; cbn [catch exec] in *.
  - discriminate Hraise.
  - cbn [outcome] in Hraise. injection Hraise as ->.
    cbn [requests final app]. destruct (exec W (h e) s). reflexivity.
  - destruct (respond W c s) as [r s']. cbn [outcome requests final] in *.
    rewrite (IH r s' Hraise). reflexivity.
Qed.

End Bodies.

(** What is no [CommandError] is none of the errors the hook knows. *)
Lemma outside_command_errors (e : Error) :
  isinstance e CommandError = false ->
  isinstance e CommandInvokeError = false /\
  isinstance e MissingPermissions = false /\
  isinstance e BotMissingPermissions = false /\
  isinstance e MissingRequiredArgument = false /\
  isinstance e BadArgument = false /\
  isinstance e CommandNotFound = false.
Proof.
  destruct e as [c n o]. destruct c; intros H; try discriminate H; repeat split.
Qed.

Lemma exception_is_not_cancellation (e : Error) :
  isinstance e Exception = true -> isinstance e CancelledError = false.
Proof. destruct e as [c n o]. destruct c; intros H; try discriminate H; reflexivity. Qed.

(** X5. A registered command whose caller passes the check, whose
    arguments bind and whose body returns is the whole invocation: the run
    of the message is the run of the body, the error hook says nothing. *)
Theorem returning_body_is_the_invocation (cfg : App.Config) (bot : Bot)
    (empty : Error + unit) (W : World) (s : state W) (ctx : Context)
    (name view : string) (cmd : Command) (body : Prog unit) :
  all_commands (App.commands cfg bot empty) !! name = Some cmd ->
  missing_permissions ctx cmd = [] ->
  cmd_bind cmd ctx view = inr body ->
  outcome (exec W body s) = Returned tt ->
  exec W (App.handle cfg bot empty ctx name view) s = exec W body s.
Proof.
  intros Hcmd Hperm Hbind Hret. unfold App.handle, bot_invoke. rewrite Hcmd.
  unfold command_invoke. rewrite Hperm, Hbind. unfold wrap_callback.
  rewrite (exec_catch_returned W _ _ s tt);
    rewrite (exec_catch_returned W _ _ s tt Hret); [reflexivity | exact Hret].
Qed.

Lemma returning_body_is_the_invocation_witness :
  requests (exec Platform.world
              (App.handle Sample.cfg Sample.bot (inr tt) Sample.ctx "ping" "please")
              Sample.busy) =
    [ctx_reply (Text "Pong! WebSocket latency: 42ms") false].
Proof.
  rewrite (returning_body_is_the_invocation Sample.cfg Sample.bot (inr tt) Platform.world
             Sample.busy Sample.ctx "ping" "please" (App.ping_command Sample.bot)
             (App.ping Sample.bot Sample.ctx));
    reflexivity.
Defined.

(** X6. When the body of a registered command raises an exception that is
    no [CommandError] (a [discord.Forbidden] from the platform, an
    [AttributeError], an [OverflowError]), the invocation is the requests
    the body had made, then the log call, then the generic reply: the user
    never sees the exception, and no other reply of the hook is used. *)
Theorem raising_body_is_logged (cfg : App.Config) (bot : Bot)
    (empty : Error + unit) (W : World) (s : state W) (ctx : Context)
    (name view : string) (cmd : Command) (body : Prog unit) (e : Error) :
  all_commands (App.commands cfg bot empty) !! name = Some cmd ->
  missing_permissions ctx cmd = [] ->
  cmd_bind cmd ctx view = inr body ->
  outcome (exec W body s) = Raised e ->
  isinstance e Exception = true ->
  isinstance e CommandError = false ->
  let run := exec W (App.handle cfg bot empty ctx name view) s in
  match fst (respond W full_log (final (exec W body s))) with
  | inr _ => requests run = (requests (exec W body s) ++ [full_log; unexpected_error])%list
  | inl _ => requests run = (requests (exec W body s) ++ [full_log])%list
  end.
Proof.
  intros Hcmd Hperm Hbind Hraise Hexc Hcmderr. cbn zeta.
  unfold App.handle, bot_invoke. rewrite Hcmd.
  unfold command_invoke. rewrite Hperm, Hbind.
  assert (exec W (wrap_callback body) s =
          {| requests := requests (exec W body s);
             outcome := Raised (command_invoke_error e);
             final := final (exec W body s) |}) as Hwrap.
  { unfold wrap_callback. rewrite (exec_catch_raised W _ _ s e Hraise).
    rewrite Hcmderr, (exception_is_not_cancellation e Hexc), Hexc.
    cbn [exec requests outcome final]. rewrite app_nil_r. reflexivity. }
  rewrite (exec_catch_raised W _ _ s (command_invoke_error e))
    by (rewrite Hwrap; reflexivity).
  rewrite Hwrap. cbn [requests final outcome].
  change (isinstance (command_invoke_error e) CommandError) with true. cbv iota.
  unfold App.on_command_error.
  change (isinstance (command_invoke_error e) CommandInvokeError) with true.
  cbn [command_invoke_error original_of].
  destruct (outside_command_errors e Hcmderr) as (_ & -> & -> & -> & -> & ->).
  rewrite exec_await. unfold full_log.
  destruct (respond W (logger_exception "Unhandled command error" None)
              (final (exec W body s))) as [[e' | v] s']; cbn [fst requests].
  - reflexivity.
  - rewrite (requests_call W unexpected_error). reflexivity.
Qed.

Lemma raising_body_is_logged_witness :
  requests (exec (refusing is_kick)
              (App.handle Sample.cfg Sample.bot (inr tt) Sample.ctx "kick" "alice spam")
              Sample.busy) =
    [member_kick Sample.alice "spam"; full_log; unexpected_error] /\
  requests (exec Platform.world
              (App.handle Sample.cfg stalled (inr tt) Sample.ctx "ping" EmptyString)
              Sample.busy) = [full_log; unexpected_error] /\
  requests (exec Platform.world
              (App.handle Sample.cfg Sample.bot (inr tt) direct "serverinfo" EmptyString)
              Sample.busy) = [full_log; unexpected_error].
Proof.
  split; [| split].
  - apply (raising_body_is_logged Sample.cfg Sample.bot (inr tt) (refusing is_kick)
             Sample.busy Sample.ctx "kick" "alice spam" App.kick_command
             (App.kick Sample.ctx Sample.alice "spam") (exc Forbidden));
      reflexivity.
  - apply (raising_body_is_logged Sample.cfg stalled (inr tt) Platform.world
             Sample.busy Sample.ctx "ping" EmptyString (App.ping_command stalled)
             (App.ping stalled Sample.ctx) (exc OverflowError));
      reflexivity.
  - apply (raising_body_is_logged Sample.cfg Sample.bot (inr tt) Platform.world
             Sample.busy direct "serverinfo" EmptyString (App.serverinfo_command (inr tt))
             (App.serverinfo (inr tt) direct) (exc AttributeError));
      reflexivity.
Defined.

(** ** kick and ban *)

Lemma lstrip_by_idempotent (space : ascii -> bool) (s : string) :
  lstrip_by space (lstrip_by space s) = lstrip_by space s.
Proof.
  induction s as [| c r IH]; [reflexivity |]. cbn [lstrip_by].
  destruct (space c) eqn:Hc; [exact IH |]. cbn [lstrip_by]. rewrite Hc. reflexivity.
Qed.

(** [s.lstrip().strip()] is [s.strip()]. *)
Lemma strip_lstrip (s : string) : strip (lstrip s) = strip s.
Proof. unfold strip, strip_by, lstrip. rewrite lstrip_by_idempotent. reflexivity. Qed.

(** What is left for a keyword-only parameter after the first word. *)
Lemma keyword_only_rest (name : string) (default : option string) (ctx : Context)
    (rest : string) :
  keyword_only name default ctx rest =
  match lstrip rest with
  | EmptyString =>
      match default with
      | Some d => inr (d, EmptyString)
      | None => inl (missing_required_argument name)
      end
  | String _ _ => inr (strip rest, EmptyString)
  end.
Proof.
  unfold keyword_only. pose proof (strip_lstrip rest) as H.
  destruct (lstrip rest); [reflexivity |]. rewrite H. reflexivity.
Qed.

(** X7. kick and ban hand the reason they were given to the platform
    unchanged and repeat it in the confirmation, which is sent only once
    the platform has carried the kick or ban out.  On a message of ASCII
    text, the first word as the library reads it (a quoted word without
    its quotation marks) names the member; the rest of the message,
    stripped, is the reason, and "No reason provided" stands in when
    there is none. *)
Theorem kick_and_ban_reason (W : World) (s : state W) (ctx : Context)
    (member : Member) (reason view : string) :
  match fst (respond W (member_kick member reason) s) with
  | inr _ =>
      requests (exec W (App.kick ctx member reason) s) =
        [member_kick member reason;
         ctx_reply (Text ("Kicked " ++ member_str member ++ " - " ++ reason)) false]
  | inl e =>
      requests (exec W (App.kick ctx member reason) s) = [member_kick member reason] /\
      outcome (exec W (App.kick ctx member reason) s) = Raised e
  end /\
  match fst (respond W (member_ban member reason) s) with
  | inr _ =>
      requests (exec W (App.ban ctx member reason) s) =
        [member_ban member reason;
         ctx_reply (Text ("Banned " ++ member_str member ++ " - " ++ reason)) false]
  | inl e =>
      requests (exec W (App.ban ctx member reason) s) = [member_ban member reason] /\
      outcome (exec W (App.ban ctx member reason) s) = Raised e
  end /\
  (forall word rest,
     ascii_only view = true -> lstrip view <> EmptyString ->
     get_quoted_word (lstrip view) = inr (word, rest) ->
     find_member ctx word = Some member ->
     (lstrip rest = EmptyString ->
        cmd_bind App.kick_command ctx view = inr (App.kick ctx member "No reason provided") /\
        cmd_bind App.ban_command ctx view = inr (App.ban ctx member "No reason provided")) /\
     (lstrip rest <> EmptyString ->
        cmd_bind App.kick_command ctx view = inr (App.kick ctx member (strip rest)) /\
        cmd_bind App.ban_command ctx view = inr (App.ban ctx member (strip rest)))).
Proof.
  split; [| split].
  - unfold App.kick. rewrite exec_await.
    destruct (respond W (member_kick member reason) s) as [[e | v] s'];
      cbn [fst requests outcome].
    + split; reflexivity.
    + rewrite (requests_call W (ctx_reply _ false)). reflexivity.
  - unfold App.ban. rewrite exec_await.
    destruct (respond W (member_ban member reason) s) as [[e | v] s'];
      cbn [fst requests outcome].
    + split; reflexivity.
    + rewrite (requests_call W (ctx_reply _ false)). reflexivity.
  - intros word rest _ Hview Hword Hfind.
    cbn [cmd_bind App.kick_command App.ban_command].
    rewrite (positional_word "member" to_member None ctx view Hview), Hword.
    unfold to_member. rewrite Hfind. cbn [and_then fst snd].
    rewrite !keyword_only_rest. split.
    + intros ->. split; reflexivity.
    + intros Hrest. destruct (lstrip rest) as [| c' r']; [congruence |].
      split; reflexivity.
Qed.

Lemma kick_and_ban_reason_witness :
  cmd_bind App.kick_command Sample.ctx "alice" =
    inr (App.kick Sample.ctx Sample.alice "No reason provided") /\
  cmd_bind App.ban_command Sample.ctx (" " ++ dquote ++ "alice" ++ dquote ++ "  spam and scams ") =
    inr (App.ban Sample.ctx Sample.alice "spam and scams").
Proof.
  split.
  - apply (proj2 (proj2 (kick_and_ban_reason Platform.world Sample.busy Sample.ctx
                           Sample.alice EmptyString "alice"))
             "alice" EmptyString);
      [reflexivity | discriminate | reflexivity | reflexivity | reflexivity].
  - apply (proj2 (proj2 (kick_and_ban_reason Platform.world Sample.busy Sample.ctx
                           Sample.alice EmptyString
                           (" " ++ dquote ++ "alice" ++ dquote ++ "  spam and scams ")))
             "alice" "  spam and scams ");
      [reflexivity | discriminate | reflexivity | reflexivity | discriminate].
Defined.

(** ** unban *)

(** X8. unban first fetches the user of the given id; only when that has
    returned does it lift the ban, of that very user, in the guild of the
    invocation, and only when the ban is lifted does it confirm.  A failed
    fetch, a context without guild, or a failed unban ends the handler
    with the exception and nothing further is requested. *)
Theorem unban_fetches_then_lifts (W : World) (s : state W) (ctx : Context)
    (user_id : Z) :
  let run := exec W (App.unban ctx user_id) s in
  let fetch := bot_fetch_user user_id in
  match respond W fetch s with
  | (inl e, _) => requests run = [fetch] /\ outcome run = Raised e
  | (inr user, s1) =>
      match ctx_guild ctx with
      | None => requests run = [fetch] /\ outcome run = Raised (exc AttributeError)
      | Some g =>
          match fst (respond W (guild_unban g user) s1) with
          | inl e => requests run = [fetch; guild_unban g user] /\ outcome run = Raised e
          | inr _ =>
              requests run =
                [fetch; guild_unban g user;
                 ctx_reply (Text ("Unbanned " ++ user_str user ++ ".")) false]
          end
      end
  end.
Proof.
  cbn zeta. unfold App.unban. rewrite exec_await.
  destruct (respond W (bot_fetch_user user_id) s) as [[e | user] s1].
  - split; reflexivity.
  - destruct (ctx_guild ctx) as [g |]; cbn [requests outcome exec].
    + rewrite exec_await.
      destruct (respond W (guild_unban g user) s1) as [[e | v] s2];
        cbn [fst requests outcome].
      * split; reflexivity.
      * rewrite (requests_call W (ctx_reply _ false)). reflexivity.
    + split; reflexivity.
Qed.

(** ** 8ball and coin *)

Lemma platform_honours_choice : honours_choice Platform.world.
Proof.
  intros population s Hpop. cbn [respond Platform.world Platform.answer].
  destruct (Platform.next_entropy s) as [x s'].
  assert (0 < len population) as Hlen
    by (unfold len; destruct population; [congruence | cbn [length]; lia]).
  pose proof (Z.mod_pos_bound x (len population) Hlen) as Hmod.
  destruct (nth_error population (Z.to_nat (x mod len population))) as [v |] eqn:Hnth.
  - exists v. split; [reflexivity |]. eapply nth_error_In, Hnth.
  - apply nth_error_None in Hnth. unfold len in *. lia.
Qed.

Lemma platform_choice (population : list string) (p : Platform.State) (x : Z)
    (rest : list Z) (v : string) :
  Platform.entropy p = x :: rest ->
  nth_error population (Z.to_nat (x mod len population)) = Some v ->
  fst (respond Platform.world (random_choice population) p) = inr v.
Proof.
  intros Hent Hnth. cbn [respond Platform.world Platform.answer].
  unfold Platform.next_entropy. rewrite Hent, Hnth. reflexivity.
Qed.

(** X9. 8ball draws from ten different fixed answers and replies with the
    question, unchanged, and the answer drawn; where [random.choice] keeps
    to its population the answer is one of the ten, and on the reference
    platform each of the ten is drawn for some entropy. *)
Theorem eightball_answers (W : World) (s : state W) (ctx : Context) (question : string) :
  let draw := random_choice App.EIGHT_BALL_ANSWERS in
  let reply answer :=
    ctx_reply (Text ("🎱 Question: " ++ question ++ nl ++ "Answer: **" ++ answer ++ "**"))
              false in
  len App.EIGHT_BALL_ANSWERS = 10 /\
  List.NoDup App.EIGHT_BALL_ANSWERS /\
  (forall answer, fst (respond W draw s) = inr answer ->
     requests (exec W (App.eightball ctx question) s) = [draw; reply answer] /\
     contains ("🎱 Question: " ++ question ++ nl ++ "Answer: **" ++ answer ++ "**")
              question = true) /\
  (honours_choice W ->
     exists answer, In answer App.EIGHT_BALL_ANSWERS /\
       requests (exec W (App.eightball ctx question) s) = [draw; reply answer]) /\
  (forall answer, In answer App.EIGHT_BALL_ANSWERS ->
     exists p, requests (exec Platform.world (App.eightball ctx question) p) =
                 [draw; reply answer]).
Proof.
  cbn zeta.
  assert (forall (W' : World) (s' : state W') answer,
            fst (respond W' (random_choice App.EIGHT_BALL_ANSWERS) s') = inr answer ->
            requests (exec W' (App.eightball ctx question) s') =
              [random_choice App.EIGHT_BALL_ANSWERS;
               ctx_reply (Text ("🎱 Question: " ++ question ++ nl ++
                                "Answer: **" ++ answer ++ "**")) false]) as Hrun.
  { intros W' s' answer Hdraw. unfold App.eightball. rewrite exec_await.
    destruct (respond W' (random_choice App.EIGHT_BALL_ANSWERS) s') as [[e | a] s1];
      cbn [fst] in Hdraw; [discriminate |]. injection Hdraw as ->.
    cbn [requests]. rewrite (requests_call W' (ctx_reply _ false)). reflexivity. }
  split; [reflexivity |]. split; [| split; [| split]].
  - apply NoDup_ListNoDup. apply (bool_decide_unpack _). vm_compute. exact I.
  - intros answer Hdraw. split; [apply Hrun, Hdraw |]. apply contains_middle.
  - intros Hw. destruct (Hw App.EIGHT_BALL_ANSWERS s) as (answer & Hdraw & Hin);
      [discriminate |].
    exists answer. split; [exact Hin | apply Hrun, Hdraw].
  - intros answer Hin. apply In_nth_error in Hin as [i Hi].
    assert (i < 10)%nat as Hlt
      by (apply (nth_error_Some App.EIGHT_BALL_ANSWERS); rewrite Hi; discriminate).
    exists (Platform.with_entropy [Z.of_nat i] Sample.busy).
    apply Hrun. apply (platform_choice _ _ (Z.of_nat i) []); [reflexivity |].
    change (len App.EIGHT_BALL_ANSWERS) with 10.
    rewrite Z.mod_small by lia. rewrite Nat2Z.id. exact Hi.
Qed.

Lemma eightball_answers_witness :
  requests (exec Platform.world (App.eightball Sample.ctx "Will it rain?") Sample.busy) =
    [random_choice App.EIGHT_BALL_ANSWERS;
     ctx_reply (Text ("🎱 Question: Will it rain?" ++ nl ++
                      "Answer: **Better not tell you now.**")) false] /\
  (exists answer, In answer App.EIGHT_BALL_ANSWERS /\
     requests (exec Platform.world (App.eightball Sample.ctx "Will it rain?") Sample.busy) =
       [random_choice App.EIGHT_BALL_ANSWERS;
        ctx_reply (Text ("🎱 Question: Will it rain?" ++ nl ++
                         "Answer: **" ++ answer ++ "**")) false]) /\
  (exists p, requests (exec Platform.world (App.eightball Sample.ctx "Will it rain?") p) =
     [random_choice App.EIGHT_BALL_ANSWERS;
      ctx_reply (Text ("🎱 Question: Will it rain?" ++ nl ++ "Answer: **No way.**"))
                false]).
Proof.
  pose proof (eightball_answers Platform.world Sample.busy Sample.ctx "Will it rain?") as T.
  split; [| split].
  - apply (proj1 (proj2 (proj2 T)) "Better not tell you now."). reflexivity.
  - apply (proj1 (proj2 (proj2 (proj2 T)))). exact platform_honours_choice.
  - apply (proj2 (proj2 (proj2 (proj2 T))) "No way.").
    cbn [App.EIGHT_BALL_ANSWERS In]. do 9 right. left. reflexivity.
Defined.

(** X10. coin replies with exactly "Heads" or "Tails" (each with its coin)
    wherever [random.choice] keeps to its population, and on the reference
    platform an even entropy gives heads and an odd one tails. *)
Theorem coin_heads_or_tails (W : World) (s : state W) (ctx : Context)
    (p : Platform.State) (x : Z) (rest : list Z) :
  let draw := random_choice ["Heads 🪙"; "Tails 🪙"] in
  (honours_choice W ->
     requests (exec W (App.coin ctx) s) = [draw; ctx_reply (Text "Heads 🪙") false] \/
     requests (exec W (App.coin ctx) s) = [draw; ctx_reply (Text "Tails 🪙") false]) /\
  (Platform.entropy p = x :: rest ->
     (x mod 2 = 0 ->
        requests (exec Platform.world (App.coin ctx) p) =
          [draw; ctx_reply (Text "Heads 🪙") false]) /\
     (x mod 2 = 1 ->
        requests (exec Platform.world (App.coin ctx) p) =
          [draw; ctx_reply (Text "Tails 🪙") false])).
Proof.
  cbn zeta.
  assert (forall (W' : World) (s' : state W') side,
            fst (respond W' (random_choice ["Heads 🪙"; "Tails 🪙"]) s') = inr side ->
            requests (exec W' (App.coin ctx) s') =
              [random_choice ["Heads 🪙"; "Tails 🪙"]; ctx_reply (Text side) false])
    as Hrun.
  { intros W' s' side Hdraw. unfold App.coin. rewrite exec_await.
    destruct (respond W' (random_choice ["Heads 🪙"; "Tails 🪙"]) s') as [[e | a] s1];
      cbn [fst] in Hdraw; [discriminate |]. injection Hdraw as ->.
    cbn [requests]. rewrite (requests_call W' (ctx_reply _ false)). reflexivity. }
  split.
  - intros Hw. destruct (Hw ["Heads 🪙"; "Tails 🪙"] s) as (side & Hdraw & Hin);
      [discriminate |].
    destruct Hin as [<- | [<- | []]]; [left | right]; apply Hrun, Hdraw.
  - intros Hent. split; intros Hx; apply Hrun;
      apply (platform_choice _ _ x rest _ Hent);
      change (len ["Heads 🪙"; "Tails 🪙"]) with 2; rewrite Hx; reflexivity.
Qed.

Lemma coin_heads_or_tails_witness :
  requests (exec Platform.world (App.coin Sample.ctx) Sample.busy) =
    [random_choice ["Heads 🪙"; "Tails 🪙"]; ctx_reply (Text "Heads 🪙") false] /\
  requests (exec Platform.world (App.coin Sample.ctx)
              (Platform.with_entropy [7] Sample.busy)) =
    [random_choice ["Heads 🪙"; "Tails 🪙"]; ctx_reply (Text "Tails 🪙") false] /\
  (requests (exec Platform.world (App.coin Sample.ctx) Sample.busy) =
     [random_choice ["Heads 🪙"; "Tails 🪙"]; ctx_reply (Text "Heads 🪙") false] \/
   requests (exec Platform.world (App.coin Sample.ctx) Sample.busy) =
     [random_choice ["Heads 🪙"; "Tails 🪙"]; ctx_reply (Text "Tails 🪙") false]).
Proof.
  split; [| split].
  - apply (proj2 (coin_heads_or_tails Platform.world Sample.busy Sample.ctx Sample.busy
                    4 [17; 5]) eq_refl). reflexivity.
  - apply (proj2 (coin_heads_or_tails Platform.world Sample.busy Sample.ctx
                    (Platform.with_entropy [7] Sample.busy) 7 []) eq_refl). reflexivity.
  - apply (proj1 (coin_heads_or_tails Platform.world Sample.busy Sample.ctx Sample.busy
                    4 [17; 5])). exact platform_honours_choice.
Defined.

(** ** The welcome channel is the first of its name *)

Lemma find_first_match {A} (f : A -> bool) (pre post : list A) (x : A) :
  (forall y, In y pre -> f y = false) -> f x = true ->
  find f (pre ++ x :: post) = Some x.
Proof.
  intros Hpre Hx. induction pre as [| y pre IH]; cbn [app find].
  - rewrite Hx. reflexivity.
  - rewrite (Hpre y (or_introl eq_refl)). apply IH.
    intros z Hz. apply Hpre. right. exact Hz.
Qed.

(** X11. Among the text channels of the guild, the first one named like
    the welcome channel decides alone: if the bot may send there the
    greeting goes there, if not there is no greeting at all, whatever
    channels of the same name come after it. *)
Theorem welcome_channel_is_first_match (W : World) (s : state W) (cfg : App.Config)
    (member : Member) (pre post : list TextChannel) (ch : TextChannel) :
  text_channels (member_guild member) = (pre ++ ch :: post)%list ->
  (forall c, In c pre -> channel_name c <> App.WELCOME_CHANNEL cfg) ->
  channel_name ch = App.WELCOME_CHANNEL cfg ->
  requests (exec W (App.on_member_join cfg member) s) =
    if bot_can_send ch
    then [channel_send ch (App.welcome_text member (member_guild member)) None]
    else [logger_debug (App.welcome_missing cfg (member_guild member))].
Proof.
  intros Hchannels Hpre Hname. unfold App.on_member_join, App.utils_get.
  rewrite Hchannels.
  rewrite (find_first_match _ pre post ch).
  - destruct (bot_can_send ch).
    + apply (requests_call W (channel_send ch _ None)).
    + apply (requests_call W (logger_debug _)).
  - intros c Hc. apply String.eqb_neq, Hpre, Hc.
  - apply String.eqb_eq, Hname.
Qed.

Lemma welcome_channel_is_first_match_witness :
  requests (exec Platform.world
              (App.on_member_join Sample.cfg
                 (Sample.member_in
                    (Sample.guild_with [Sample.lobby; Sample.muted; Sample.general])))
              Sample.busy) =
    [logger_debug "Welcome channel 'general' not found or no permission in guild Neko"].
Proof.
  apply (welcome_channel_is_first_match Platform.world Sample.busy Sample.cfg
           (Sample.member_in
              (Sample.guild_with [Sample.lobby; Sample.muted; Sample.general]))
           [Sample.lobby] [Sample.general] Sample.muted).
  - reflexivity.
  - intros c [<- | []]. discriminate.
  - reflexivity.
Defined.

(** ** format_timedelta *)

Lemma below_spec (n z : Z) : In z (below n) <-> 0 <= z < n.
Proof.
  unfold below. rewrite in_map_iff. split.
  - intros [i [<- Hi]]. apply in_seq in Hi. lia.
  - intros Hz. exists (Z.to_nat z). split; [lia |]. apply in_seq. lia.
Qed.

(** A check run on every integer below [n] holds of each of them. *)
Lemma checked_below (n : Z) (f : Z -> bool) (z : Z) :
  forallb f (below n) = true -> 0 <= z < n -> f z = true.
Proof.
  intros Hall Hz. rewrite forallb_forall in Hall. apply Hall, below_spec, Hz.
Qed.

Lemma year_width (y : Z) : 1000 <= y <= 9999 -> String.length (str_of_Z y) = 4%nat.
Proof.
  intros Hy.
  assert (forallb (fun y => (y <? 1000) || (String.length (str_of_Z y) =? 4)%nat)
                  (below 10000) = true) as Hall by (vm_compute; reflexivity).
  pose proof (checked_below 10000 _ y Hall ltac:(lia)) as H. cbn beta in H.
  apply orb_true_iff in H as [H | H]; [lia | apply Nat.eqb_eq, H].
Qed.

Lemma pad2_width (n : Z) : 0 <= n <= 99 -> String.length (pad2 n) = 2%nat.
Proof.
  intros Hn.
  assert (forallb (fun n => (String.length (pad2 n) =? 2)%nat) (below 100) = true) as Hall
    by (vm_compute; reflexivity).
  apply Nat.eqb_eq, (checked_below 100 _ n Hall). lia.
Qed.

Lemma two_digits_no_leading_zero (n : Z) :
  10 <= n <= 99 -> startswith (str_of_Z n) "0" = false.
Proof.
  intros Hn.
  assert (forallb (fun n => (n <? 10) || negb (startswith (str_of_Z n) "0"))
                  (below 100) = true) as Hall by (vm_compute; reflexivity).
  pose proof (checked_below 100 _ n Hall ltac:(lia)) as H. cbn beta in H.
  apply orb_true_iff in H as [H | H]; [lia | apply negb_true_iff, H].
Qed.

Lemma pad2_inj (n m : Z) : 0 <= n <= 99 -> 0 <= m <= 99 -> pad2 n = pad2 m -> n = m.
Proof.
  intros Hn Hm. unfold pad2.
  destruct (n <? 10) eqn:Hn10, (m <? 10) eqn:Hm10; intros H.
  - apply (inj (String.append "0")) in H. apply str_of_Z_inj, H.
  - pose proof (two_digits_no_leading_zero m ltac:(lia)) as Hz.
    rewrite <- H, startswith_app in Hz. discriminate Hz.
  - pose proof (two_digits_no_leading_zero n ltac:(lia)) as Hz.
    rewrite H, startswith_app in Hz. discriminate Hz.
  - apply str_of_Z_inj, H.
Qed.

Lemma append_eq_by_length (a a' b b' : string) :
  String.length a = String.length a' -> a ++ b = a' ++ b' -> a = a' /\ b = b'.
Proof.
  revert a'. induction a as [| x a IH]; intros [| x' a'] Hlen H; try discriminate Hlen.
  - split; [reflexivity | exact H].
  - change (String x (a ++ b) = String x' (a' ++ b')) in H. injection H as -> H.
    cbn [String.length] in Hlen. injection Hlen as Hlen.
    destruct (IH a' Hlen H) as [-> ->]. split; reflexivity.
Qed.

(** X12. [format_timedelta] prints a date and time with a four-digit
    year as exactly 23 characters ending in " UTC".  The text holds the
    year, month, day, hour, minute and second and nothing else: two
    datetimes print alike exactly when they agree on these six, so the
    microseconds and the zone of a datetime never show, and the text says
    UTC whatever the zone is. *)
Theorem format_timedelta_is_fixed_width (dt dt' : datetime) :
  valid_datetime dt ->
  String.length (App.format_timedelta dt) = 23%nat /\
  (exists stamp, App.format_timedelta dt = stamp ++ " UTC" /\
                 String.length stamp = 19%nat) /\
  (valid_datetime dt' ->
     (App.format_timedelta dt = App.format_timedelta dt' <->
      year dt = year dt' /\ month dt = month dt' /\ day dt = day dt' /\
      hour dt = hour dt' /\ minute dt = minute dt' /\ second dt = second dt')).
Proof.
  intros (Hy & Hmo & Hd & Hh & Hmi & Hs).
  unfold App.format_timedelta, strftime_utc.
  pose proof (year_width (year dt) Hy) as Wy.
  pose proof (pad2_width (month dt) ltac:(lia)) as Wmo.
  pose proof (pad2_width (day dt) ltac:(lia)) as Wd.
  pose proof (pad2_width (hour dt) ltac:(lia)) as Wh.
  pose proof (pad2_width (minute dt) ltac:(lia)) as Wmi.
  pose proof (pad2_width (second dt) ltac:(lia)) as Ws.
  split; [| split].
  - rewrite !length_append, Wy, Wmo, Wd, Wh, Wmi, Ws. reflexivity.
  - exists (str_of_Z (year dt) ++ "-" ++ pad2 (month dt) ++ "-" ++ pad2 (day dt) ++ " " ++
            pad2 (hour dt) ++ ":" ++ pad2 (minute dt) ++ ":" ++ pad2 (second dt)).
    split.
    + rewrite !append_assoc. reflexivity.
    + rewrite !length_append, Wy, Wmo, Wd, Wh, Wmi, Ws. reflexivity.
  - intros (Hy' & Hmo' & Hd' & Hh' & Hmi' & Hs'). split.
    + intros H.
      apply append_eq_by_length in H as [Ey H];
        [| rewrite Wy, (year_width (year dt') Hy'); reflexivity].
      apply (inj (String.append "-")) in H.
      apply append_eq_by_length in H as [Emo H];
        [| rewrite Wmo, (pad2_width (month dt')); [reflexivity | lia]].
      apply (inj (String.append "-")) in H.
      apply append_eq_by_length in H as [Ed H];
        [| rewrite Wd, (pad2_width (day dt')); [reflexivity | lia]].
      apply (inj (String.append " ")) in H.
      apply append_eq_by_length in H as [Eh H];
        [| rewrite Wh, (pad2_width (hour dt')); [reflexivity | lia]].
      apply (inj (String.append ":")) in H.
      apply append_eq_by_length in H as [Emi H];
        [| rewrite Wmi, (pad2_width (minute dt')); [reflexivity | lia]].
      apply (inj (String.append ":")) in H.
      apply append_eq_by_length in H as [Es _];
        [| rewrite Ws, (pad2_width (second dt')); [reflexivity | lia]].
      apply str_of_Z_inj in Ey. apply pad2_inj in Emo, Ed, Eh, Emi, Es; lia.
    + intros (-> & -> & -> & -> & -> & ->). reflexivity.
Qed.

Lemma format_timedelta_is_fixed_width_witness :
  String.length (App.format_timedelta Sample.epoch) = 23%nat /\
  App.format_timedelta Sample.epoch = "2024-03-09 12:00:05 UTC" /\
  App.format_timedelta Sample.epoch = App.format_timedelta later_elsewhere.
Proof.
  assert (valid_datetime Sample.epoch) as Hv by (unfold valid_datetime; cbn; lia).
  assert (valid_datetime later_elsewhere) as Hv' by (unfold valid_datetime; cbn; lia).
  pose proof (format_timedelta_is_fixed_width Sample.epoch later_elsewhere Hv) as T.
  split; [exact (proj1 T) | split; [reflexivity |]].
  apply (proj2 (proj2 (proj2 T) Hv')). repeat split.
Defined.

(** ** avatar, userinfo and serverinfo *)

(** X13. avatar and userinfo describe the member the first word of the
    message names, as the library reads that word on ASCII text, and the
    caller when the message holds no argument.  Whoever is described, a
    member or, in a direct message, a plain user, the avatar reply is one
    embed titled after that one and showing that one's avatar; with no
    argument and a reply the platform accepts, that embed is the whole
    invocation. *)
Theorem avatar_and_userinfo_target (cfg : App.Config) (bot : Bot) (empty : Error + unit)
    (W : World) (s : state W) (ctx : Context) (view : string) (member : Member) :
  let avatar_of who :=
    ctx_reply
      (Rich {| embed_title := author_str who ++ "'s avatar";
               embed_description := EmptyString;
               embed_timestamp := None;
               embed_image := Some (author_avatar who);
               embed_thumbnail := None;
               embed_fields := [] |}) false in
  (lstrip view = EmptyString ->
     cmd_bind App.avatar_command ctx view = inr (App.avatar ctx None) /\
     cmd_bind App.userinfo_command ctx view = inr (App.userinfo ctx None)) /\
  (forall word rest,
     ascii_only view = true -> lstrip view <> EmptyString ->
     get_quoted_word (lstrip view) = inr (word, rest) ->
     find_member ctx word = Some member ->
     cmd_bind App.avatar_command ctx view = inr (App.avatar ctx (Some member)) /\
     cmd_bind App.userinfo_command ctx view = inr (App.userinfo ctx (Some member))) /\
  requests (exec W (App.avatar ctx (Some member)) s) = [avatar_of (a_member member)] /\
  requests (exec W (App.avatar ctx None) s) = [avatar_of (ctx_author ctx)] /\
  (lstrip view = EmptyString ->
   forall v, fst (respond W (avatar_of (ctx_author ctx)) s) = inr v ->
     requests (exec W (App.handle cfg bot empty ctx "avatar" view) s) =
       [avatar_of (ctx_author ctx)]).
Proof.
  cbn zeta.
  assert (lstrip view = EmptyString ->
          cmd_bind App.avatar_command ctx view = inr (App.avatar ctx None) /\
          cmd_bind App.userinfo_command ctx view = inr (App.userinfo ctx None)) as Hnone.
  { intros Hview. cbn [cmd_bind App.avatar_command App.userinfo_command].
    unfold positional. rewrite Hview. split; reflexivity. }
  split; [exact Hnone |]. split; [| split; [| split]].
  - intros word rest _ Hview Hword Hfind.
    cbn [cmd_bind App.avatar_command App.userinfo_command].
    rewrite (positional_word "member" (or_none to_member) (Some None) ctx view Hview), Hword.
    unfold or_none, to_member. rewrite Hfind. split; reflexivity.
  - unfold App.avatar. apply (requests_call W (ctx_reply _ false)).
  - unfold App.avatar. apply (requests_call W (ctx_reply _ false)).
  - intros Hview v Hv.
    assert (all_commands (App.commands cfg bot empty) !! "avatar" =
            Some App.avatar_command) as Hcmd by reflexivity.
    unfold App.handle, bot_invoke. rewrite Hcmd. unfold command_invoke.
    change (missing_permissions ctx App.avatar_command) with (@nil Permission).
    rewrite (proj1 (Hnone Hview)). unfold wrap_callback, App.avatar.
    cbn [call catch exec].
    match goal with
    | |- context [respond W ?c s] =>
        change (fst (respond W c s) = inr v) in Hv;
        destruct (respond W c s) as [[e | u] s']
    end; cbn [fst] in Hv; [discriminate Hv |]. reflexivity.
Qed.

Lemma avatar_and_userinfo_target_witness :
  cmd_bind App.avatar_command Sample.ctx "  " = inr (App.avatar Sample.ctx None) /\
  cmd_bind App.userinfo_command Sample.ctx (dquote ++ "alice" ++ dquote ++ " now") =
    inr (App.userinfo Sample.ctx (Some Sample.alice)) /\
  requests (exec Platform.world
              (App.handle Sample.cfg Sample.bot (inr tt) direct "avatar" EmptyString)
              Sample.busy) =
    [ctx_reply
       (Rich {| embed_title := "carol's avatar";
                embed_description := EmptyString;
                embed_timestamp := None;
                embed_image := Some "https://cdn.example/carol.png";
                embed_thumbnail := None;
                embed_fields := [] |}) false].
Proof.
  split; [| split].
  - apply (proj1 (avatar_and_userinfo_target Sample.cfg Sample.bot (inr tt) Platform.world
                    Sample.busy Sample.ctx "  " Sample.alice)).
    reflexivity.
  - apply (proj1 (proj2 (avatar_and_userinfo_target Sample.cfg Sample.bot (inr tt)
                           Platform.world Sample.busy Sample.ctx
                           (dquote ++ "alice" ++ dquote ++ " now") Sample.alice))
             "alice" " now");
      [reflexivity | discriminate | reflexivity | reflexivity].
  - apply (proj2 (proj2 (proj2 (proj2
             (avatar_and_userinfo_target Sample.cfg Sample.bot (inr tt) Platform.world
                Sample.busy direct EmptyString Sample.alice))))
             eq_refl tt).
    reflexivity.
Defined.

Lemma append_nonempty_r (a : string) (c : ascii) (b : string) :
  a ++ String c b <> EmptyString.
Proof. destruct a; discriminate. Qed.

Lemma format_timedelta_nonempty (dt : datetime) : App.format_timedelta dt <> EmptyString.
Proof. unfold App.format_timedelta, strftime_utc. apply append_nonempty_r. Qed.

(** X14. userinfo reads the clock first.  For a guild member (one named
    in the message, or the caller of a message sent in a guild) the reply
    is one embed titled after the member, with the member's avatar as
    thumbnail and the five inline fields ID, Bot, Top role, Joined and
    Created in this order; no field is ever empty: a member without top
    role shows "None", one without join date "Unknown".  For the caller
    of a direct message, a plain user, who has no top role to read,
    userinfo raises [AttributeError] after the clock and replies
    nothing. *)
Theorem userinfo_fields (W : World) (s : state W) (ctx : Context)
    (member : option Member) (now : datetime) :
  let target := match member with Some m => a_member m | None => ctx_author ctx end in
  let run := exec W (App.userinfo ctx member) s in
  fst (respond W datetime_utcnow s) = inr now ->
  (forall m, target = a_member m ->
     exists embed,
       requests run = [datetime_utcnow; ctx_reply (Rich embed) false] /\
       embed_title embed = member_str m /\
       embed_thumbnail embed = Some (member_avatar m) /\
       map field_name (embed_fields embed) =
         ["ID"; "Bot"; "Top role"; "Joined"; "Created"] /\
       Forall (fun f => field_inline f = true /\ field_value f <> EmptyString)
              (embed_fields embed) /\
       field embed "ID" = Some (str_of_Z (member_id m)) /\
       field embed "Bot" = Some (str_of_bool (member_bot m)) /\
       (member_top_role m = None -> field embed "Top role" = Some "None") /\
       (member_joined_at m = None -> field embed "Joined" = Some "Unknown") /\
       field embed "Created" = Some (App.format_timedelta (member_created_at m))) /\
  (forall u, target = a_user u ->
     requests run = [datetime_utcnow] /\ outcome run = Raised (exc AttributeError)).
Proof.
  cbn zeta. intros Hnow. unfold App.userinfo. rewrite exec_await.
  destruct (respond W datetime_utcnow s) as [[e | now'] s1]; cbn [fst] in Hnow;
    [discriminate |]. injection Hnow as ->.
  cbn [requests outcome]. split.
  - intros m ->. cbn [author_top_role author_joined_at lift bind].
    eexists. split.
    { rewrite (requests_call W (ctx_reply _ false)). reflexivity. }
    split; [reflexivity |]. split; [reflexivity |]. split; [reflexivity |].
    split; [| split; [reflexivity | split; [reflexivity | split; [| split]]]].
    + cbn. repeat constructor; cbn [field_value]; try discriminate.
      * apply str_of_Z_nonempty.
      * destruct (member_bot _); discriminate.
      * destruct (member_top_role _); [| discriminate]. unfold role_mention. discriminate.
      * destruct (member_joined_at _); [apply format_timedelta_nonempty | discriminate].
      * apply format_timedelta_nonempty.
    + intros ->. reflexivity.
    + intros ->. reflexivity.
    + reflexivity.
  - intros u ->. cbn [author_top_role lift bind exec requests outcome].
    split; reflexivity.
Qed.

Lemma userinfo_fields_witness :
  (exists embed,
     requests (exec Platform.world (App.userinfo Sample.ctx None) Sample.busy) =
       [datetime_utcnow; ctx_reply (Rich embed) false] /\
     embed_title embed = "alice" /\
     field embed "ID" = Some "42") /\
  requests (exec Platform.world (App.userinfo direct None) Sample.busy) = [datetime_utcnow] /\
  outcome (exec Platform.world (App.userinfo direct None) Sample.busy) =
    Raised (exc AttributeError).
Proof.
  split.
  - destruct (proj1 (userinfo_fields Platform.world Sample.busy Sample.ctx None Sample.epoch
                       eq_refl) Sample.alice eq_refl)
      as (embed & Hrun & Htitle & _ & _ & _ & Hid & _).
    exists embed. split; [exact Hrun |]. split; [exact Htitle | exact Hid].
  - exact (proj2 (userinfo_fields Platform.world Sample.busy direct None Sample.epoch
                    eq_refl) carol eq_refl).
Defined.

(** X15. serverinfo needs a guild: without one it raises before any
    request.  With one it reads the clock and replies with one embed
    titled after the guild, with seven inline fields whose counts are the
    numbers of text channels, voice channels and roles of the guild; the
    icon is the thumbnail, and a guild without icon goes through
    [discord.Embed.Empty], so that where the library lacks that attribute
    nothing is replied. *)
Theorem serverinfo_fields (W : World) (s : state W) (empty : Error + unit)
    (ctx : Context) :
  let run := exec W (App.serverinfo empty ctx) s in
  (ctx_guild ctx = None ->
     requests run = [] /\ outcome run = Raised (exc AttributeError)) /\
  (forall g now, ctx_guild ctx = Some g ->
     fst (respond W datetime_utcnow s) = inr now ->
     (guild_icon_url g = None -> forall e, empty = inl e ->
        requests run = [datetime_utcnow] /\ outcome run = Raised e) /\
     (guild_icon_url g <> None \/ empty = inr tt ->
        exists embed,
          requests run = [datetime_utcnow; ctx_reply (Rich embed) false] /\
          embed_title embed = guild_name g /\
          embed_thumbnail embed = guild_icon_url g /\
          embed_timestamp embed = Some now /\
          map field_name (embed_fields embed) =
            ["Server ID"; "Owner"; "Members"; "Text Channels"; "Voice Channels";
             "Roles"; "Created at"] /\
          Forall (fun f => field_inline f = true) (embed_fields embed) /\
          field embed "Server ID" = Some (str_of_Z (guild_id g)) /\
          field embed "Members" = Some (str_of_Z (guild_member_count g)) /\
          field embed "Text Channels" = Some (str_of_Z (len (text_channels g))) /\
          field embed "Voice Channels" = Some (str_of_Z (len (voice_channels g))) /\
          field embed "Roles" = Some (str_of_Z (len (guild_roles g))) /\
          field embed "Created at" = Some (App.format_timedelta (guild_created_at g)))).
Proof.
  cbn zeta. split.
  - intros Hg. unfold App.serverinfo. rewrite Hg. split; reflexivity.
  - intros g now Hg Hnow. unfold App.serverinfo. rewrite Hg. rewrite exec_await.
    destruct (respond W datetime_utcnow s) as [[e | now'] s1]; cbn [fst] in Hnow;
      [discriminate |]. injection Hnow as ->. cbn [requests outcome]. split.
    + intros Hicon e ->. rewrite Hicon. split; reflexivity.
    + intros Hok.
      assert (exists thumb,
                (match guild_icon_url g with
                 | Some url =>
                     Ret (set_thumbnail url
                            (new_embed (guild_name g)
                               match guild_description g with
                               | Some d => d
                               | None => EmptyString
                               end (Some now)))
                 | None =>
                     bind (lift empty) (fun _ =>
                       Ret (new_embed (guild_name g)
                              match guild_description g with
                              | Some d => d
                              | None => EmptyString
                              end (Some now)))
                 end : Prog Embed) = Ret thumb /\
                embed_title thumb = guild_name g /\
                embed_thumbnail thumb = guild_icon_url g /\
                embed_timestamp thumb = Some now /\
                embed_fields thumb = []) as (thumb & -> & Ht & Hth & Hts & Hf).
      { destruct (guild_icon_url g) as [url |].
        - eexists. split; [reflexivity |]. repeat split.
        - destruct Hok as [Hok | ->]; [congruence |].
          eexists. split; [reflexivity |]. repeat split. }
      cbn [bind]. eexists. split.
      { rewrite (requests_call W (ctx_reply _ false)). reflexivity. }
      destruct thumb as [title description timestamp image thumbnail fields].
      cbn in Ht, Hth, Hts, Hf. subst.
      cbn. repeat split. repeat constructor.
Qed.

Lemma serverinfo_fields_witness :
  requests (exec Platform.world (App.serverinfo (inr tt) direct) Sample.busy) = [] /\
  requests (exec Platform.world (App.serverinfo (inl (exc AttributeError)) Sample.ctx)
              Sample.busy) = [datetime_utcnow] /\
  (exists embed,
     requests (exec Platform.world (App.serverinfo (inr tt) Sample.ctx) Sample.busy) =
       [datetime_utcnow; ctx_reply (Rich embed) false] /\
     field embed "Text Channels" = Some "2").
Proof.
  pose proof (serverinfo_fields Platform.world Sample.busy (inr tt) direct) as D.
  pose proof (serverinfo_fields Platform.world Sample.busy (inl (exc AttributeError))
                Sample.ctx) as E.
  pose proof (serverinfo_fields Platform.world Sample.busy (inr tt) Sample.ctx) as G.
  split; [| split].
  - apply (proj1 D). reflexivity.
  - apply (proj1 (proj2 E Sample.guild Sample.epoch eq_refl eq_refl) eq_refl
             (exc AttributeError) eq_refl).
  - destruct (proj2 (proj2 G Sample.guild Sample.epoch eq_refl eq_refl)
                (or_intror eq_refl))
      as (embed & Hrun & _ & _ & _ & _ & _ & _ & _ & Htext & _).
    exists embed. split; [exact Hrun | exact Htext].
Defined.

(** ** The help text, exactly *)

Lemma blank_out_text (l : string) : all_blank l = false -> blank_out l = l.
Proof.
  intros H. unfold blank_out, whitespace_only. rewrite H, Bool.andb_false_r. reflexivity.
Qed.

Lemma all_blank_tail (a b : string) : all_blank b = false -> all_blank (a ++ b) = false.
Proof. intros H. rewrite all_blank_app, H. apply Bool.andb_false_r. Qed.

Lemma fold_margin_kept (m : string) (inds : list string) :
  Forall (fun i => startswith i m = true) inds ->
  fold_left update_margin inds (Some m) = Some m.
Proof.
  induction 1 as [| i inds Hi _ IH]; [reflexivity |].
  cbn [fold_left update_margin]. rewrite Hi. exact IH.
Qed.

(** The margin of a text whose first line is empty and whose second line
    holds text is the indentation of that second line, when every later
    line is blank or at least as indented. *)
Lemma find_margin_uniform (first : string) (rest : list string) :
  all_blank first = false ->
  Forall (fun l => all_blank l = true \/
                   startswith (leading_whitespace l) (leading_whitespace first) = true) rest ->
  find_margin (EmptyString :: first :: rest) = Some (leading_whitespace first).
Proof.
  intros Hfirst Hrest. unfold find_margin, indents.
  cbn [List.filter all_blank negb]. rewrite Hfirst. cbn [negb map fold_left update_margin].
  apply fold_margin_kept.
  induction Hrest as [| l rest Hl _ IH]; [constructor |].
  cbn [List.filter]. destruct Hl as [Hl | Hl].
  - rewrite Hl. exact IH.
  - destruct (all_blank l); [exact IH |]. constructor; [exact Hl | exact IH].
Qed.

Lemma help_tail_lines (user : string) :
  no_line_feed user = true ->
  split_lines (help_tail user) =
  [ "        Use @" ++ user ++ " as a mention or the prefix to run commands."; "        " ].
Proof.
  intros Hu. unfold help_tail.
  replace ("        Use @" ++ user ++ " as a mention or the prefix to run commands." ++ nl ++ "        ")
    with (("        Use @" ++ user ++ " as a mention or the prefix to run commands.") ++ nl ++ "        ")
    by (rewrite !append_assoc; reflexivity).
  rewrite split_lines_line; [reflexivity |].
  rewrite !no_line_feed_app, Hu. reflexivity.
Qed.

Lemma help_kept_lines (p user : string) :
  map blank_out
    (List.app (help_head p)
     [ "        Use @" ++ user ++ " as a mention or the prefix to run commands."; "        " ]) =
  (List.app (help_head p)
   [ "        Use @" ++ user ++ " as a mention or the prefix to run commands."; EmptyString ]).
Proof.
  unfold help_head. cbn [map app].
  repeat (apply (f_equal2 cons);
          [first [reflexivity | apply blank_out_text, all_blank_tail, all_blank_tail; reflexivity] |]).
  reflexivity.
Qed.

Lemma help_margin (p user : string) :
  find_margin
    (List.app (help_head p)
     [ "        Use @" ++ user ++ " as a mention or the prefix to run commands."; EmptyString ]) =
  Some "        ".
Proof.
  unfold help_head. cbn [app].
  apply (find_margin_uniform "        NekoNi2 - commands"); [reflexivity |].
  repeat (constructor; [first [left; reflexivity | right; reflexivity] |]).
  constructor.
Qed.

Lemma help_without_margin (p user : string) :
  map (remove_margin "        ")
    (List.app (help_head p)
     [ "        Use @" ++ user ++ " as a mention or the prefix to run commands."; EmptyString ]) =
  help_reply_lines p user.
Proof. reflexivity. Qed.

Lemma help_reply_length (p user : string) :
  String.length (join_lines (help_reply_lines p user)) =
  (15 * String.length p + String.length user + 490)%nat.
Proof.
  unfold help_reply_lines. cbn [join_lines].
  rewrite !length_append. cbn [String.length nl]. lia.
Qed.

(** X16 ([help_command], the text): when neither the prefix nor the name
    of the bot holds a line feed, [textwrap.dedent] finds a margin of
    exactly eight blanks, whatever the prefix is (also a blank one), and the
    text sent is the f-string with those eight blanks taken off every
    line and its last line emptied: it opens and closes with a line feed,
    the command lines keep two blanks of indentation, and its length is
    fifteen times the prefix's plus that of the bot's name plus 490. *)
Theorem help_text_is_the_template_dedented (cfg : App.Config) (bot : Bot) :
  no_line_feed (App.PREFIX cfg) = true ->
  no_line_feed (bot_user bot) = true ->
  App.help_text cfg bot = join_lines (help_reply_lines (App.PREFIX cfg) (bot_user bot)) /\
  String.length (App.help_text cfg bot) =
    (15 * String.length (App.PREFIX cfg) + String.length (bot_user bot) + 490)%nat.
Proof.
  intros Hp Hu.
  assert (App.help_text cfg bot =
          join_lines (help_reply_lines (App.PREFIX cfg) (bot_user bot))) as Htext.
  { unfold App.help_text, dedent.
    rewrite (help_lines _ _ Hp), (help_tail_lines _ Hu), help_kept_lines, help_margin.
    cbn [truthy]. rewrite help_without_margin. reflexivity. }
  split; [exact Htext |].
  rewrite Htext. apply help_reply_length.
Qed.

Lemma help_text_is_the_template_dedented_witness :
  App.help_text Sample.cfg Sample.bot =
    join_lines (help_reply_lines (App.PREFIX Sample.cfg) (bot_user Sample.bot)) /\
  String.length (App.help_text Sample.cfg Sample.bot) =
    (15 * String.length (App.PREFIX Sample.cfg) + String.length (bot_user Sample.bot) + 490)%nat.
Proof.
  apply (help_text_is_the_template_dedented Sample.cfg Sample.bot); reflexivity.
Defined.

(** ** ping *)

(** X17 ([ping] behind the dispatcher and the error hook).  Whatever follows
    the command name, ping asks the platform for nothing but its reply:
    with a finite latency the invocation opens with "Pong! WebSocket
    latency: <ms>ms" and, when that reply is accepted, consists of it
    alone.  Before a heartbeat is acknowledged the latency is [inf] (or
    [nan]), [round] raises, and the caller gets the log call and the
    generic reply instead of a latency. *)
Theorem ping_reports_latency_or_logs (cfg : App.Config) (bot : Bot)
    (empty : Error + unit) (W : World) (s : state W) (ctx : Context) (view : string) :
  let run := exec W (App.handle cfg bot empty ctx "ping" view) s in
  match bot_latency bot with
  | Finite ms =>
      let pong := ctx_reply (Text ("Pong! WebSocket latency: " ++ str_of_Z ms ++ "ms")) false in
      hd_error (requests run) = Some pong /\
      (forall v, fst (respond W pong s) = inr v ->
         requests run = [pong] /\ outcome run = Returned tt)
  | Infinity | NaN =>
      hd_error (requests run) = Some full_log /\
      (forall v, fst (respond W full_log s) = inr v ->
         requests run = [full_log; unexpected_error])
  end.
Proof.
  assert (all_commands (App.commands cfg bot empty) !! "ping" =
          Some (App.ping_command bot)) as Hcmd by reflexivity.
  cbn zeta. unfold App.handle, bot_invoke. rewrite Hcmd.
  change (command_invoke (App.ping_command bot) ctx view)
    with (wrap_callback (App.ping bot ctx)).
  unfold wrap_callback, App.ping.
  destruct (bot_latency bot) as [ms | |]; cbn [round_times_1000 lift bind].
  - cbn [call catch exec].
    destruct (respond W (ctx_reply (Text ("Pong! WebSocket latency: " ++ str_of_Z ms ++ "ms"))
                           false) s) as [[e | v] s'] eqn:Hr.
    + split; [reflexivity | intros v Hv; discriminate Hv].
    + split; [reflexivity |]. intros _ _. destruct v. split; reflexivity.
  - match goal with
    | |- context [exec W ?p s] =>
        change p with (bind (call full_log) (fun _ => call unexpected_error))
    end.
    rewrite exec_await. destruct (respond W full_log s) as [[e | v] s'].
    + split; [reflexivity | intros v Hv; discriminate Hv].
    + split; [reflexivity |]. intros _ _. cbn [requests].
      rewrite (requests_call W unexpected_error). reflexivity.
  - match goal with
    | |- context [exec W ?p s] =>
        change p with (bind (call full_log) (fun _ => call unexpected_error))
    end.
    rewrite exec_await. destruct (respond W full_log s) as [[e | v] s'].
    + split; [reflexivity | intros v Hv; discriminate Hv].
    + split; [reflexivity |]. intros _ _. cbn [requests].
      rewrite (requests_call W unexpected_error). reflexivity.
Qed.

Lemma ping_reports_latency_or_logs_witness :
  requests (exec Platform.world
              (App.handle Sample.cfg Sample.bot (inr tt) Sample.ctx "ping" "now, please")
              Sample.busy) =
    [ctx_reply (Text "Pong! WebSocket latency: 42ms") false] /\
  requests (exec Platform.world
              (App.handle Sample.cfg stalled (inr tt) Sample.ctx "ping" EmptyString)
              Sample.busy) = [full_log; unexpected_error].
Proof.
  split.
  - apply (proj2 (ping_reports_latency_or_logs Sample.cfg Sample.bot (inr tt) Platform.world
                    Sample.busy Sample.ctx "now, please") tt).
    reflexivity.
  - apply (proj2 (ping_reports_latency_or_logs Sample.cfg stalled (inr tt) Platform.world
                    Sample.busy Sample.ctx EmptyString) tt).
    reflexivity.
Defined.

(** ** addrole and removerole *)

(** X18 ([addrole], [removerole]).  The handler changes the role first
    and confirms, naming the role and mentioning the member, only when the
    platform has carried the change out; addrole never revokes and
    removerole never grants.  On a message of ASCII text the first word,
    as the library reads it, names the member and the second the role, so
    a role whose name holds a blank is given in quotation marks.  A
    message that ends after the member misses the argument "role"; in a
    guild a second word that names no role is a bad argument, outside a
    guild the role converter raises [NoPrivateMessage] whatever the word;
    what follows the second word is not looked at. *)
Theorem role_commands_change_then_confirm (W : World) (s : state W) (ctx : Context)
    (member : Member) (role : Role) (view : string) :
  match fst (respond W (member_add_roles member role) s) with
  | inr _ =>
      requests (exec W (App.addrole ctx member role) s) =
        [member_add_roles member role;
         ctx_reply (Text ("Added role " ++ role_name role ++ " to " ++
                          member_mention member ++ ".")) false]
  | inl e =>
      requests (exec W (App.addrole ctx member role) s) = [member_add_roles member role] /\
      outcome (exec W (App.addrole ctx member role) s) = Raised e
  end /\
  match fst (respond W (member_remove_roles member role) s) with
  | inr _ =>
      requests (exec W (App.removerole ctx member role) s) =
        [member_remove_roles member role;
         ctx_reply (Text ("Removed role " ++ role_name role ++ " from " ++
                          member_mention member ++ ".")) false]
  | inl e =>
      requests (exec W (App.removerole ctx member role) s) =
        [member_remove_roles member role] /\
      outcome (exec W (App.removerole ctx member role) s) = Raised e
  end /\
  (forall word rest,
     ascii_only view = true -> lstrip view <> EmptyString ->
     get_quoted_word (lstrip view) = inr (word, rest) ->
     find_member ctx word = Some member ->
     (lstrip rest = EmptyString ->
        cmd_bind App.addrole_command ctx view = inl (missing_required_argument "role") /\
        cmd_bind App.removerole_command ctx view = inl (missing_required_argument "role")) /\
     (forall word' rest',
        lstrip rest <> EmptyString ->
        get_quoted_word (lstrip rest) = inr (word', rest') ->
        (ctx_guild ctx <> None -> find_role ctx word' = Some role ->
           cmd_bind App.addrole_command ctx view = inr (App.addrole ctx member role) /\
           cmd_bind App.removerole_command ctx view = inr (App.removerole ctx member role)) /\
        (ctx_guild ctx <> None -> find_role ctx word' = None ->
           cmd_bind App.addrole_command ctx view = inl (exc RoleNotFound) /\
           cmd_bind App.removerole_command ctx view = inl (exc RoleNotFound)) /\
        (ctx_guild ctx = None ->
           cmd_bind App.addrole_command ctx view = inl (exc NoPrivateMessage) /\
           cmd_bind App.removerole_command ctx view = inl (exc NoPrivateMessage)))).
Proof.
  split; [| split].
  - unfold App.addrole. rewrite exec_await.
    destruct (respond W (member_add_roles member role) s) as [[e | v] s'];
      cbn [fst requests outcome].
    + split; reflexivity.
    + rewrite (requests_call W (ctx_reply _ false)). reflexivity.
  - unfold App.removerole. rewrite exec_await.
    destruct (respond W (member_remove_roles member role) s) as [[e | v] s'];
      cbn [fst requests outcome].
    + split; reflexivity.
    + rewrite (requests_call W (ctx_reply _ false)). reflexivity.
  - intros word rest _ Hview Hword Hfind.
    cbn [cmd_bind App.addrole_command App.removerole_command].
    rewrite (positional_word "member" to_member None ctx view Hview), Hword.
    unfold to_member. rewrite Hfind. cbn [and_then fst snd].
    split.
    + intros Hrest. unfold positional. rewrite Hrest. split; reflexivity.
    + intros word' rest' Hrest Hword'.
      rewrite (positional_word "role" to_role None ctx rest Hrest), Hword'.
      unfold to_role. split; [| split].
      * intros Hguild Hrole. destruct (ctx_guild ctx); [| congruence].
        rewrite Hrole. split; reflexivity.
      * intros Hguild Hrole. destruct (ctx_guild ctx); [| congruence].
        rewrite Hrole. split; reflexivity.
      * intros ->. split; reflexivity.
Qed.

Lemma role_commands_change_then_confirm_witness :
  cmd_bind App.addrole_command Sample.ctx "alice" = inl (missing_required_argument "role") /\
  cmd_bind App.addrole_command Sample.ctx "alice mods at once" =
    inr (App.addrole Sample.ctx Sample.alice Sample.mods) /\
  cmd_bind App.addrole_command staffed ("alice " ++ dquote ++ "Server Admin" ++ dquote) =
    inr (App.addrole staffed Sample.alice admins) /\
  cmd_bind App.removerole_command Sample.ctx "alice nobodies" = inl (exc RoleNotFound).
Proof.
  pose proof (role_commands_change_then_confirm Platform.world Sample.busy Sample.ctx
                Sample.alice Sample.mods "alice") as (_ & _ & Hshort).
  pose proof (role_commands_change_then_confirm Platform.world Sample.busy Sample.ctx
                Sample.alice Sample.mods "alice mods at once") as (_ & _ & Hgood).
  pose proof (role_commands_change_then_confirm Platform.world Sample.busy staffed
                Sample.alice admins ("alice " ++ dquote ++ "Server Admin" ++ dquote))
    as (_ & _ & Hquoted).
  pose proof (role_commands_change_then_confirm Platform.world Sample.busy Sample.ctx
                Sample.alice Sample.mods "alice nobodies") as (_ & _ & Hbad).
  split; [| split; [| split]].
  - apply (proj1 (Hshort "alice" EmptyString eq_refl ltac:(discriminate) eq_refl eq_refl)).
    reflexivity.
  - apply (proj1 (proj2 (Hgood "alice" " mods at once" eq_refl ltac:(discriminate)
                           eq_refl eq_refl)
                    "mods" " at once" ltac:(discriminate) eq_refl));
      [discriminate | reflexivity].
  - apply (proj1 (proj2 (Hquoted "alice" (" " ++ dquote ++ "Server Admin" ++ dquote)
                           eq_refl ltac:(discriminate) eq_refl eq_refl)
                    "Server Admin" EmptyString ltac:(discriminate) eq_refl));
      [discriminate | reflexivity].
  - apply (proj1 (proj2 (proj2 (Hbad "alice" " nobodies" eq_refl ltac:(discriminate)
                                  eq_refl eq_refl)
                           "nobodies" EmptyString ltac:(discriminate) eq_refl)));
      [discriminate | reflexivity].
Defined.

(** ** Integers written in decimal are read back *)

(** X19 ([int] behind clear, roll, unban and OWNER_ID).  The decimal text
    of any integer, as [str] prints it, is read back by [int] as that
    integer: a message "roll <n>", "clear <n>" or "unban <n>" runs the
    handler with exactly [n], and an OWNER_ID holding the text of [n]
    loads as [n]. *)
Theorem integers_read_back (ctx : Context) (environ : gmap string string) (n : Z) :
  int (str_of_Z n) = Some n /\
  cmd_bind App.clear_command ctx (str_of_Z n) = inr (App.clear ctx n) /\
  cmd_bind App.roll_command ctx (str_of_Z n) = inr (App.roll ctx n) /\
  cmd_bind App.unban_command ctx (str_of_Z n) = inr (App.unban ctx n) /\
  (environ !! "OWNER_ID" = Some (str_of_Z n) ->
   exists cfg, App.load_config int environ = inr cfg /\ App.OWNER_ID cfg = Some n).
Proof.
  split; [apply int_str_of_Z |].
  cbn [cmd_bind App.clear_command App.roll_command App.unban_command].
  rewrite !positional_of_number. unfold to_int. rewrite int_str_of_Z.
  repeat (split; [reflexivity |]).
  intros Henv. unfold App.load_config, App.getenv, App.getenv_or. rewrite Henv.
  cbn [App.truthy_opt]. pose proof (str_of_Z_nonempty n) as Hne.
  destruct (str_of_Z n) as [| c r] eqn:Hs; [congruence |]. cbn [truthy].
  rewrite <- Hs, int_str_of_Z. eexists. split; reflexivity.
Qed.

Lemma integers_read_back_witness :
  exists cfg, App.load_config int {[ "OWNER_ID" := "-2024" ]} = inr cfg /\
              App.OWNER_ID cfg = Some (-2024).
Proof.
  apply (integers_read_back Sample.ctx {[ "OWNER_ID" := "-2024" ]} (-2024)).
  reflexivity.
Defined.
